(** * Activity timeline: table / minimap synchronisation

    A shallow embedding of the client of the activity-timeline application:
    the [ActivityMinimap] marker projection, the [ActivityTimelineTable]
    pagination state (its [loadEvents] callback and its effects), the gap
    computation of [lib/utils] and the [Home] page that wires the two
    components together.

    Conventions.
    - A React state variable is a record field; a state setter is a record
      update.  An [async] function is split at its [await]: the part that
      runs before the request is sent, and the two continuations (fulfilled,
      rejected) that run when the promise settles.
    - A JavaScript string is a [string]; [Record<string, Person>] is a
      [gmap string Person]; an array is a [list].
    - Integer-valued JavaScript numbers are [Z]; the pixel positions of the
      minimap, which involve a division, are exact rationals [Q] (the
      rounding of IEEE doubles is not modelled).
    - A [Date] is its time value in milliseconds, [None] for an
      [Invalid Date]; the local clock of the host is a parameter.  A call
      that can throw returns an [option], [None] for the exception. *)

From Stdlib Require Import ZArith QArith Lia Ascii String Sorted.
From stdpp Require Import gmap strings list fin_maps pretty.

Local Open Scope Z_scope.

(** ** Data model ([types/activity.ts]) *)

Module Types.

Inductive Direction := IN | OUT.

Record Person := {
  person_ident : string;
  first_name : string;
  last_name : string;
  email_address : string;
  job_title : option string;
}.

Record ActivityEvent := {
  id : Z;
  timestamp : string;
  activity : string;
  channel : string;
  status : string;
  direction : Direction;
  people : list Person;
  involved_team_ids : list string;
}.

Record TimelineDataPoint := {
  point_date : string;
  count : Z;
}.

Record FirstTouchpoint := {
  person_id : string;
  touch_timestamp : string;
  touch_date : string;
}.

Record Pagination := {
  current_page : Z;
  total_pages : Z;
  total_count : Z;
  has_next : bool;
  has_previous : bool;
}.

Record ApiResponse := {
  events : list ActivityEvent;
  persons : gmap string Person;
  pagination : Pagination;
}.

End Types.

(** ** Marker projection ([components/ActivityMinimap.tsx]) *)

Module ActivityMinimap.
Import Types.

(** [Array.prototype.findIndex]: the index of the first element that
    satisfies [p], and [-1] when there is none. *)
Fixpoint findIndex_from {A} (p : A -> bool) (l : list A) (i : Z) : Z :=
  match l with
  | [] => -1
  | d :: l' => if p d then i else findIndex_from p l' (i + 1)
  end.

Definition findIndex {A} (p : A -> bool) (l : list A) : Z :=
  findIndex_from p l 0.

(** A touchpoint with its pixel position: [{ ...touchpoint, x: position }]. *)
Record Marker := {
  touchpoint : FirstTouchpoint;
  x : Q;
}.

Definition padding : Z := 60.

(** [chartRef.current?.clientWidth || 800], where [clientWidth] is what
    [chartRef.current?.clientWidth] evaluates to at the moment the memo
    body runs: [None] while the ref is not attached (see
    [MinimapComponent] for when the component runs it); a width of [0] is
    falsy and also yields the default. *)
Definition chartWidth (clientWidth : option Z) : Z :=
  match clientWidth with
  | Some w => if w =? 0 then 800 else w
  | None => 800
  end.

Definition availableWidth (clientWidth : option Z) : Z :=
  chartWidth clientWidth - padding * 2.

(** The position computed for one touchpoint (the body of the [map]
    callback).  [chartData] carries the dates of [timelineData] in the same
    order; its derived display fields play no part here. *)
Definition position (clientWidth : option Z)
    (chartData : list TimelineDataPoint) (tp : FirstTouchpoint) : Q :=
  let dateIndex :=
    findIndex (fun d => String.eqb (point_date d) (touch_date tp)) chartData in
  if (0 <=? dateIndex) && (1 <? Z.of_nat (length chartData))
  then (inject_Z dateIndex / inject_Z (Z.of_nat (length chartData) - 1)
        * inject_Z (availableWidth clientWidth) + inject_Z padding)%Q
  else 0%Q.

Definition touchpointMarkers (clientWidth : option Z)
    (chartData : list TimelineDataPoint)
    (firstTouchpoints : list FirstTouchpoint) : list Marker :=
  if (Z.of_nat (length chartData) =? 0) then []
  else
    map (fun tp => {| touchpoint := tp; x := position clientWidth chartData tp |})
        firstTouchpoints.

(** The dates of the bucket axis. *)
Definition axis (chartData : list TimelineDataPoint) : list string :=
  map point_date chartData.

End ActivityMinimap.

(** ** Date helpers ([lib/utils.ts]) *)

Module Utils.

(** A JavaScript number that is either an integer or [NaN]; the time value
    of an [Invalid Date] is [NaN], and so is every difference computed
    from it. *)
Inductive Number := Num (n : Z) | NaN.

Definition msPerDay : Z := 86400000.

(** The clock of the host.  A [Date] holds an instant, in milliseconds
    since the epoch; its getters read the local clock and its setters
    write it.  [localOf t] is the reading of the local clock at the instant
    [t], as the number [Date.UTC] gives for the local year, month, day,
    hours, minutes, seconds and milliseconds; [instantOf w] is the instant
    the host takes for the local reading [w] (a reading that a change of
    the clock skips is moved, one that occurs twice is resolved, as the
    host does it). *)
Record Clock := {
  localOf : Z -> Z;
  instantOf : Z -> Z;
}.

(** The clock of a host set to UTC. *)
Definition utc : Clock := {| localOf t := t; instantOf w := w |}.

(** What date-fns writes for a valid date: the text of [format(date,
    pattern)] and of [formatDistanceToNow(date, { addSuffix })].  The
    wording is the library's and is not spelled out. *)
Inductive Text :=
| Formatted (date : Z) (pattern : string)
| DistanceToNow (date : Z) (addSuffix : bool).

(** [format] and [formatDistanceToNow] of date-fns throw a [RangeError]
    for an [Invalid Date]: [None]. *)
Definition format (date : option Z) (pattern : string) : option Text :=
  match date with
  | Some d => Some (Formatted d pattern)
  | None => None
  end.

Definition formatDistanceToNow (date : option Z) (addSuffix : bool)
    : option Text :=
  match date with
  | Some d => Some (DistanceToNow d addSuffix)
  | None => None
  end.

(** [Math.round(x / d)] for integers [x] and a positive [d]: the nearest
    integer, a half going up. *)
Definition roundDiv (x d : Z) : Z := (2 * x + d) / (2 * d).

Section OnTheClock.
Context (clock : Clock).

(** [compareLocalAsc]: the local fields of the two dates are compared from
    the year down to the millisecond, which is the order of the local
    readings. *)
Definition compareLocalAsc (dateLeft dateRight : Z) : Z :=
  Z.sgn (localOf clock dateLeft - localOf clock dateRight).

(** [startOfDay]: [date.setHours(0, 0, 0, 0)]. *)
Definition startOfDay (date : Z) : Z :=
  instantOf clock (msPerDay * (localOf clock date / msPerDay)).

(** [differenceInCalendarDays]: each start of day is taken as its local
    reading ([getTime() - getTimezoneOffsetInMilliseconds]), and the
    difference is rounded to days. *)
Definition differenceInCalendarDays (dateLeft dateRight : Z) : Z :=
  let timestampLeft := localOf clock (startOfDay dateLeft) in
  let timestampRight := localOf clock (startOfDay dateRight) in
  roundDiv (timestampLeft - timestampRight) msPerDay.

(** [date.setDate(date.getDate() - days)]: the local reading moves by whole
    days, the time of day stays. *)
Definition setDateBack (date days : Z) : Z :=
  instantOf clock (localOf clock date - days * msPerDay).

(** [differenceInDays] of date-fns on two valid dates: the number of full
    days between them on the local clock. *)
Definition fullDays (dateLeft dateRight : Z) : Z :=
  let sign := compareLocalAsc dateLeft dateRight in
  let difference := Z.abs (differenceInCalendarDays dateLeft dateRight) in
  let dateLeft' := setDateBack dateLeft (sign * difference) in
  let isLastDayNotFull :=
    if compareLocalAsc dateLeft' dateRight =? - sign then 1 else 0 in
  sign * (difference - isLastDayNotFull).

(** [differenceInDays]: with an [Invalid Date] on either side every
    comparison and difference is [NaN], and so is the result. *)
Definition differenceInDays (dateLeft dateRight : option Z) : Number :=
  match dateLeft, dateRight with
  | Some l, Some r => Num (fullDays l r)
  | _, _ => NaN
  end.

End OnTheClock.

Section WithParser.

(** [parseISO] of date-fns: the time value (milliseconds since the epoch)
    of an ISO 8601 string, [None] for an [Invalid Date]. *)
Context (parseISO : string -> option Z).

(** The three formatters throw for a string that does not parse. *)
Definition formatRelativeTime (dateString : string) : option Text :=
  let date := parseISO dateString in
  formatDistanceToNow date true.

Definition formatDate (dateString : string) : option Text :=
  let date := parseISO dateString in
  format date "MMM d, yyyy".

Definition formatDateTime (dateString : string) : option Text :=
  let date := parseISO dateString in
  format date "MMM d, yyyy h:mm a".

Definition calculateDateGap (clock : Clock) (currentDate previousDate : string)
    : Number :=
  let current := parseISO currentDate in
  let previous := parseISO previousDate in
  differenceInDays clock current previous.

End WithParser.

(** *** A parser for the UTC form [YYYY-MM-DDTHH:MM:SS[.mmm]Z]

    The form the back end and the test suite use.  It is one instance of
    the [parseISO] parameter, used to run the definitions on the literal
    timestamps of the tests. *)

Definition digit (c : ascii) : option Z :=
  let n := Z.of_N (N_of_ascii c) in
  if (48 <=? n) && (n <=? 57) then Some (n - 48) else None.

(** Reads exactly [n] decimal digits. *)
Fixpoint digits (n : nat) (acc : Z) (s : string) : option (Z * string) :=
  match n with
  | O => Some (acc, s)
  | S n' =>
      match s with
      | String c s' => d ← digit c; digits n' (acc * 10 + d) s'
      | EmptyString => None
      end
  end.

Definition expect (c : ascii) (s : string) : option string :=
  match s with
  | String c' s' => if Ascii.eqb c c' then Some s' else None
  | EmptyString => None
  end.

Definition isLeapYear (y : Z) : bool :=
  ((y mod 4 =? 0) && negb (y mod 100 =? 0)) || (y mod 400 =? 0).

Definition daysInMonth (y m : Z) : Z :=
  if m =? 2 then (if isLeapYear y then 29 else 28)
  else if (m =? 4) || (m =? 6) || (m =? 9) || (m =? 11) then 30
  else 31.

(** Days from 1970-01-01 to the given civil date (proleptic Gregorian). *)
Definition daysFromCivil (y m d : Z) : Z :=
  let y' := if m <=? 2 then y - 1 else y in
  let era := y' / 400 in
  let yoe := y' - era * 400 in
  let mp := if 2 <? m then m - 3 else m + 9 in
  let doy := (153 * mp + 2) / 5 + d - 1 in
  let doe := yoe * 365 + yoe / 4 - yoe / 100 + doy in
  era * 146097 + doe - 719468.

Definition fraction (s : string) : option (Z * string) :=
  match s with
  | String "." s' => digits 3 0 s'
  | _ => Some (0, s)
  end.

Definition parseISO_utc (s : string) : option Z :=
  '(y, s) ← digits 4 0 s; s ← expect "-" s;
  '(mo, s) ← digits 2 0 s; s ← expect "-" s;
  '(d, s) ← digits 2 0 s; s ← expect "T" s;
  '(h, s) ← digits 2 0 s; s ← expect ":" s;
  '(mi, s) ← digits 2 0 s; s ← expect ":" s;
  '(sec, s) ← digits 2 0 s;
  '(ms, s) ← fraction s;
  if (String.eqb s "Z")
     && (1 <=? mo) && (mo <=? 12) && (1 <=? d) && (d <=? daysInMonth y mo)
     && (h <=? 23) && (mi <=? 59) && (sec <=? 59)
  then Some (daysFromCivil y mo d * msPerDay
             + ((h * 60 + mi) * 60 + sec) * 1000 + ms)
  else None.

(** The date-only form [YYYY-MM-DD] of the timeline's buckets, which
    [parseISO] reads as midnight of that day on the local clock; here on a
    host set to UTC. *)
Definition parseISO_day (s : string) : option Z :=
  '(y, s) ← digits 4 0 s; s ← expect "-" s;
  '(mo, s) ← digits 2 0 s; s ← expect "-" s;
  '(d, s) ← digits 2 0 s;
  if (String.eqb s "")
     && (1 <=? mo) && (mo <=? 12) && (1 <=? d) && (d <=? daysInMonth y mo)
  then Some (daysFromCivil y mo d * msPerDay)
  else None.

End Utils.

(** ** The table ([components/ActivityTimelineTable.tsx]) *)

Module ActivityTimelineTable.
Import Types Utils.

(** The component's state variables.  [events_ref] is the identity of the
    array object held in [events]: React compares effect dependencies with
    [Object.is], so an effect that depends on [events] runs again whenever
    [setEvents] stores a new array, whatever its contents. *)
Record State := {
  st_events : list ActivityEvent;
  events_ref : nat;
  st_persons : gmap string Person;
  loading : bool;
  loadingMore : bool;
  hasNext : bool;
  currentPage : Z;
  error : option string;
}.

(** The [useState] initial values. *)
Definition initial : State := {|
  st_events := [];
  events_ref := 0;
  st_persons := ∅;
  loading := true;
  loadingMore := false;
  hasNext := false;
  currentPage := 1;
  error := None;
|}.

(** One invocation [loadEvents(page, targetDate, append)]; an absent
    [targetDate] is [None]. *)
Record Call := {
  page : Z;
  targetDate : option string;
  append : bool;
}.

(** [loadEvents(1)]: the defaults [targetDate = undefined], [append = false]. *)
Definition firstPage : Call :=
  {| page := 1; targetDate := None; append := false |}.

(** The arguments [loadEvents] passes to [ApiService.fetchActivityEvents]. *)
Definition fetchArguments (c : Call) : Z * Z * option string :=
  (page c, 50, targetDate c).

(** The value a failed fetch rejects with. *)
Inductive Rejection :=
| ErrorInstance (message : string)
| OtherValue.

(** What the component calls: the API and the callbacks of its props. *)
Inductive Action :=
| FetchActivityEvents (c : Call)
| OnNavigationComplete
| OnVisibleRangeChange (startDate endDate : string).

(** *** [loadEvents] *)

(** Up to the [await]: the loading flag of the mode is raised. *)
Definition loadEvents_begin (c : Call) (st : State) : State :=
  if negb (append c) then
    {| st_events := st_events st; events_ref := events_ref st;
       st_persons := st_persons st;
       loading := true; loadingMore := loadingMore st;
       hasNext := hasNext st; currentPage := currentPage st;
       error := error st |}
  else
    {| st_events := st_events st; events_ref := events_ref st;
       st_persons := st_persons st;
       loading := loading st; loadingMore := true;
       hasNext := hasNext st; currentPage := currentPage st;
       error := error st |}.

(** The rest of the [try] block followed by [finally], run when the fetch
    is fulfilled with [response]. *)
Definition loadEvents_fulfilled (c : Call) (response : ApiResponse)
    (st : State) : State :=
  {| st_events :=
       if append c then st_events st ++ events response
       else events response;
     events_ref := S (events_ref st);
     st_persons := persons response ∪ st_persons st;
     hasNext := has_next (pagination response);
     currentPage := current_page (pagination response);
     error := None;
     loading := false;
     loadingMore := false |}.

Definition errorMessage (err : Rejection) : string :=
  match err with
  | ErrorInstance message => message
  | OtherValue => "Failed to load events"
  end.

(** The [catch] block followed by [finally], run when the fetch is
    rejected with [err]. *)
Definition loadEvents_rejected (c : Call) (err : Rejection)
    (st : State) : State :=
  {| st_events := st_events st; events_ref := events_ref st;
     st_persons := st_persons st;
     hasNext := hasNext st; currentPage := currentPage st;
     error := Some (errorMessage err);
     loading := false;
     loadingMore := false |}.

(** *** Effects

    Each effect body is read against the values of the render it belongs
    to; it yields the calls it makes and the update it queues on the
    state. *)

Definition truthy (s : string) : bool := negb (String.eqb s "").

(** Initial load: [loadEvents(1)]. *)
Definition mountEffect : list Action * (State -> State) :=
  ([FetchActivityEvents firstPage], loadEvents_begin firstPage).

(** Navigation from a minimap click. *)
Definition navigationEffect (navigateToDate : string)
    : list Action * (State -> State) :=
  if truthy navigateToDate then
    let c := {| page := 1; targetDate := Some navigateToDate; append := false |} in
    ([FetchActivityEvents c; OnNavigationComplete], loadEvents_begin c)
  else ([], fun st => st).

(** Infinite scroll. *)
Definition scrollEffect (inView : bool) (st : State)
    : list Action * (State -> State) :=
  if inView && hasNext st && negb (loading st) && negb (loadingMore st) then
    let c := {| page := currentPage st + 1; targetDate := None; append := true |} in
    ([FetchActivityEvents c], loadEvents_begin c)
  else ([], fun st => st).

(** [s.split('T')[0]]: the part of [s] before its first ['T'], all of [s]
    when it has none. *)
Fixpoint splitT0 (s : string) : string :=
  match s with
  | EmptyString => EmptyString
  | String c s' => if Ascii.eqb c "T" then EmptyString else String c (splitT0 s')
  end.

(** [events[events.length - 1]] *)
Definition lastEvent (evs : list ActivityEvent) : option ActivityEvent :=
  evs !! (length evs - 1)%nat.

(** Visible range sync. *)
Definition visibleRangeEffect (evs : list ActivityEvent) : list Action :=
  if (0 <? Z.of_nat (length evs)) then
    match evs !! 0%nat, lastEvent evs with
    | Some firstEvent, Some lastEvent =>
        let startDate := splitT0 (timestamp lastEvent) in
        let endDate := splitT0 (timestamp firstEvent) in
        [OnVisibleRangeChange startDate endDate]
    | _, _ => []
    end
  else [].

(** The retry button: [onClick={() => loadEvents(1)}]. *)
Definition retryClick : list Action * (State -> State) :=
  ([FetchActivityEvents firstPage], loadEvents_begin firstPage).

(** *** Rendering *)

Inductive View := LoadingView | ErrorView | TableView.

(** Which of the three [return]s of the component is taken. *)
Definition view (st : State) : View :=
  if loading st && (Z.of_nat (length (st_events st)) =? 0) then LoadingView
  else match error st with
       | Some message => if truthy message then ErrorView else TableView
       | None => TableView
       end.

Inductive Row :=
| GapRow (days : Number)
| EventRow (event : ActivityEvent) (dateTime relativeTime : Text).

(** [renderGapIndicator]: [null] is [None].  A comparison with [NaN] is
    false. *)
Definition renderGapIndicator (days : Number) : option Row :=
  match days with
  | Num n => if n <=? 1 then None else Some (GapRow days)
  | NaN => Some (GapRow days)
  end.

Section WithParser.
Context (parseISO : string -> option Z) (clock : Clock).

(** The gap computed for the row at [index] (the first two lines of the
    [events.map] callback). *)
Definition gapBefore (evs : list ActivityEvent) (index : nat)
    (event : ActivityEvent) : Number :=
  let previousEvent := if (0 <? index)%nat then evs !! (index - 1)%nat else None in
  match previousEvent with
  | Some previousEvent =>
      calculateDateGap parseISO clock (timestamp previousEvent) (timestamp event)
  | None => Num 0
  end.

(** The fragment rendered for one event: its gap indicator, if any, and
    its row with the two texts of the date cell.  The callback throws, and
    the render with it, when a formatter does: [None]. *)
Definition fragment (evs : list ActivityEvent) (index : nat)
    (event : ActivityEvent) : option (list Row) :=
  let gap := gapBefore evs index event in
  let indicator := renderGapIndicator gap in
  dateTime ← formatDateTime parseISO (timestamp event);
  relativeTime ← formatRelativeTime parseISO (timestamp event);
  Some (option_list indicator ++ [EventRow event dateTime relativeTime]).

(** The event rows of the table body: [events.map((event, index) => ...)],
    [None] when the callback throws for one of the events. *)
Definition tbody (evs : list ActivityEvent) : option (list Row) :=
  fragments ← mapM (fun rendered : option (list Row) => rendered)
                 (imap (fragment evs) evs);
  Some (concat fragments).

End WithParser.

End ActivityTimelineTable.

(** ** The page ([app/page.tsx]) *)

Module Home.

Record State := {
  visibleStartDate : string;
  visibleEndDate : string;
  navigateToDate : string;
}.

Definition initial : State :=
  {| visibleStartDate := ""; visibleEndDate := ""; navigateToDate := "" |}.

Definition handleVisibleRangeChange (startDate endDate : string)
    (st : State) : State :=
  {| visibleStartDate := startDate; visibleEndDate := endDate;
     navigateToDate := navigateToDate st |}.

Definition handleDateClick (date : string) (st : State) : State :=
  {| visibleStartDate := visibleStartDate st;
     visibleEndDate := visibleEndDate st;
     navigateToDate := date |}.

Definition handleNavigationComplete (st : State) : State :=
  {| visibleStartDate := visibleStartDate st;
     visibleEndDate := visibleEndDate st;
     navigateToDate := "" |}.

End Home.

(** ** The running application

    The page, the table it renders, the intersection observer of the
    scroll sentinel and the fetches that have been sent and not yet settled.
    One step is one browser event (a click, an observer report, a settled
    fetch): its handler runs, React renders, and the effects whose
    dependencies changed since the previous render run in the order in
    which the component declares them.  The state updates of one handler or
    continuation are applied together, in one render.  The effects' own
    updates lead to one more render; no effect has anything to do in it
    (lemma [effects_settle]), which is why a step stops after one round. *)

Module App.
Import Types ActivityTimelineTable.

Record System := {
  home : Home.State;
  table : State;
  inView : bool;
  inflight : list Call;
}.

Definition withTable (f : State -> State) (sys : System) : System :=
  {| home := home sys; table := f (table sys);
     inView := inView sys; inflight := inflight sys |}.

Definition withHome (f : Home.State -> Home.State) (sys : System) : System :=
  {| home := f (home sys); table := table sys;
     inView := inView sys; inflight := inflight sys |}.

(** A call of the table reaches its receiver: the API service or one of
    the page's handlers, which the page passes as props. *)
Definition perform (sys : System) (a : Action) : System :=
  match a with
  | FetchActivityEvents c =>
      {| home := home sys; table := table sys; inView := inView sys;
         inflight := inflight sys ++ [c] |}
  | OnNavigationComplete => withHome Home.handleNavigationComplete sys
  | OnVisibleRangeChange startDate endDate =>
      withHome (Home.handleVisibleRangeChange startDate endDate) sys
  end.

Definition performAll (acts : list Action) (sys : System) : System :=
  foldl perform sys acts.

Definition navigationChanged (prev cur : System) : bool :=
  negb (String.eqb (Home.navigateToDate (home prev))
                   (Home.navigateToDate (home cur))).

(** The dependencies of the scroll effect: [inView], [hasNext], [loading],
    [loadingMore], [currentPage]. *)
Definition scrollChanged (prev cur : System) : bool :=
  negb (Bool.eqb (inView prev) (inView cur)
        && Bool.eqb (hasNext (table prev)) (hasNext (table cur))
        && Bool.eqb (loading (table prev)) (loading (table cur))
        && Bool.eqb (loadingMore (table prev)) (loadingMore (table cur))
        && (currentPage (table prev) =? currentPage (table cur))).

Definition eventsChanged (prev cur : System) : bool :=
  negb (Nat.eqb (events_ref (table prev)) (events_ref (table cur))).

Definition idle : list Action * (State -> State) := ([], fun st => st).

(** The effects of the render [cur], which follows the render [prev]. *)
Definition runEffects (prev cur : System) : list Action * System :=
  let nav := if navigationChanged prev cur
             then navigationEffect (Home.navigateToDate (home cur)) else idle in
  let scroll := if scrollChanged prev cur
                then scrollEffect (inView cur) (table cur) else idle in
  let range := if eventsChanged prev cur
               then visibleRangeEffect (st_events (table cur)) else [] in
  let acts := nav.1 ++ scroll.1 ++ range in
  (acts, performAll acts (withTable (fun st => scroll.2 (nav.2 st)) cur)).

(** The first render: every effect runs. *)
Definition mounted : list Action * System :=
  let first := {| home := Home.initial; table := initial;
                  inView := false; inflight := [] |} in
  let nav := navigationEffect (Home.navigateToDate (home first)) in
  let scroll := scrollEffect (inView first) (table first) in
  let range := visibleRangeEffect (st_events (table first)) in
  let acts := mountEffect.1 ++ nav.1 ++ scroll.1 ++ range in
  (acts,
   performAll acts
     (withTable (fun st => scroll.2 (nav.2 (mountEffect.2 st))) first)).

(** The browser events: the minimap calls [onDateClick(date)]; the observer
    reports whether the sentinel row is in view; the fetch at position [n]
    among those in flight is fulfilled or rejected; the retry button is
    clicked. *)
Inductive Input :=
| DateClick (date : string)
| Intersect (visible : bool)
| Fulfil (n : nat) (response : ApiResponse)
| Reject (n : nat) (err : Rejection)
| RetryClick.

(** The fetch at position [n] is no longer in flight. *)
Definition settled (n : nat) (sys : System) : System :=
  {| home := home sys; table := table sys; inView := inView sys;
     inflight := delete n (inflight sys) |}.

(** The handler of a browser event.  The retry button exists in the error
    view only. *)
Definition handle (i : Input) (sys : System) : list Action * System :=
  match i with
  | DateClick date => ([], withHome (Home.handleDateClick date) sys)
  | Intersect visible =>
      ([], {| home := home sys; table := table sys; inView := visible;
              inflight := inflight sys |})
  | Fulfil n response =>
      match inflight sys !! n with
      | Some c => ([], withTable (loadEvents_fulfilled c response) (settled n sys))
      | None => ([], sys)
      end
  | Reject n err =>
      match inflight sys !! n with
      | Some c => ([], withTable (loadEvents_rejected c err) (settled n sys))
      | None => ([], sys)
      end
  | RetryClick =>
      match view (table sys) with
      | ErrorView => (retryClick.1, performAll retryClick.1 (withTable retryClick.2 sys))
      | _ => ([], sys)
      end
  end.

(** One step: the handler, then the effects of the render that follows.
    The result is the calls made and the system reached. *)
Definition step (i : Input) (sys : System) : list Action * System :=
  let h := handle i sys in
  let e := runEffects sys h.2 in
  (h.1 ++ e.1, e.2).

Fixpoint run (inputs : list Input) (sys : System) : list Action * System :=
  match inputs with
  | [] => ([], sys)
  | i :: inputs' =>
      let s := step i sys in
      let r := run inputs' s.2 in
      (s.1 ++ r.1, r.2)
  end.

(** The system a run of [inputs] reaches from [sys]. *)
Definition after (inputs : list Input) (sys : System) : System :=
  (run inputs sys).2.

(** The calls of [onVisibleRangeChange] among [acts]. *)
Definition rangeEmissions (acts : list Action) : list (string * string) :=
  omap (fun a => match a with
                 | OnVisibleRangeChange s e => Some (s, e)
                 | _ => None
                 end) acts.

(** The fetches among [acts]. *)
Definition fetches (acts : list Action) : list Call :=
  omap (fun a => match a with
                 | FetchActivityEvents c => Some c
                 | _ => None
                 end) acts.

End App.

(** ** Notions the properties are stated with *)

Module Notions.
Import Types ActivityTimelineTable App.

(** The pixel interval spanned by the axis: from the left margin to the
    right margin.  Every interpolation against the axis domain, linear or
    nearest neighbour, lands in it. *)
Definition in_axis_domain (clientWidth : option Z) (px : Q) : Prop :=
  (inject_Z ActivityMinimap.padding <= px)%Q /\
  (px <= inject_Z (ActivityMinimap.chartWidth clientWidth
                   - ActivityMinimap.padding))%Q.

(** The time [later] lies [d] full days after [earlier]: at least [d] and
    less than [d + 1] periods of 24 hours.  Both are instants, or both are
    readings of one clock. *)
Definition fullDaysApart (later earlier d : Z) : Prop :=
  d * Utils.msPerDay <= later - earlier < (d + 1) * Utils.msPerDay.

(** [a] carries a strictly later timestamp than [b], in the order of
    JavaScript strings (code unit by code unit).  On ISO 8601 timestamps
    written with one and the same offset this is the order of the
    instants. *)
Definition later (a b : ActivityEvent) : Prop :=
  (timestamp b ?= timestamp a)%string = Lt.

(** Newest first, no two rows with the same timestamp. *)
Definition strictlyDescending (evs : list ActivityEvent) : Prop :=
  Sorted later evs.

(** The calendar date of an ISO 8601 timestamp takes ten characters,
    [YYYY-MM-DD]. *)
Definition isoDated (e : ActivityEvent) : Prop :=
  String.length (splitT0 (timestamp e)) = 10%nat.

(** The request a click on [date] turns into. *)
Definition navigationCall (date : string) : Call :=
  {| page := 1; targetDate := Some date; append := false |}.

(** The request the scroll effect sends from [st]. *)
Definition loadMoreCall (st : State) : Call :=
  {| page := currentPage st + 1; targetDate := None; append := true |}.

(** An update that touches nothing but the two loading flags. *)
Definition flagsOnly (f : State -> State) : Prop :=
  forall st,
    st_events (f st) = st_events st /\ events_ref (f st) = events_ref st
    /\ st_persons (f st) = st_persons st /\ hasNext (f st) = hasNext st
    /\ currentPage (f st) = currentPage st /\ error (f st) = error st.

(** The table after the handler of an input, before the effects run. *)
Definition handled (i : Input) (sys : System) : State :=
  match i with
  | Fulfil n response =>
      match inflight sys !! n with
      | Some c => loadEvents_fulfilled c response (table sys)
      | None => table sys
      end
  | Reject n err =>
      match inflight sys !! n with
      | Some c => loadEvents_rejected c err (table sys)
      | None => table sys
      end
  | RetryClick =>
      match view (table sys) with
      | ErrorView => loadEvents_begin firstPage (table sys)
      | _ => table sys
      end
  | _ => table sys
  end.

End Notions.

(** ** Data the properties are run on *)

Module Fixtures.
Import Types.

(** The timeline of the specification's end-to-end example: inbound events
    on 2024-01-10 and 2024-01-15, and an outbound event on 2024-01-12 that
    is the first contact of its person. *)
Definition timeline_data : list TimelineDataPoint :=
  [ {| point_date := "2024-01-10"; count := 1 |};
    {| point_date := "2024-01-15"; count := 1 |} ].

(** The timeline of the minimap's test suite. *)
Definition test_timeline_data : list TimelineDataPoint :=
  [ {| point_date := "2024-01-15"; count := 5 |};
    {| point_date := "2024-01-16"; count := 3 |};
    {| point_date := "2024-01-17"; count := 8 |} ].

Definition touch_person1 : FirstTouchpoint :=
  {| person_id := "person1"; touch_timestamp := "2024-01-15T10:00:00Z";
     touch_date := "2024-01-15" |}.

Definition touch_person2 : FirstTouchpoint :=
  {| person_id := "person2"; touch_timestamp := "2024-01-16T14:30:00Z";
     touch_date := "2024-01-16" |}.

Definition touch_P1 : FirstTouchpoint :=
  {| person_id := "P1"; touch_timestamp := "2024-01-10T09:00:00Z";
     touch_date := "2024-01-10" |}.

Definition touch_P2 : FirstTouchpoint :=
  {| person_id := "P2"; touch_timestamp := "2024-01-12T09:00:00Z";
     touch_date := "2024-01-12" |}.

Definition john : Person :=
  {| person_ident := "person1"; first_name := "John"; last_name := "Doe";
     email_address := "john@example.com"; job_title := Some "Manager" |}.

Definition jane : Person :=
  {| person_ident := "person2"; first_name := "Jane"; last_name := "Smith";
     email_address := "jane@example.com"; job_title := Some "Director" |}.

(** An outbound e-mail with the given identifier and timestamp. *)
Definition mail (i : Z) (ts : string) : ActivityEvent :=
  {| id := i; timestamp := ts; activity := "Email sent to customer";
     channel := "EMAIL"; status := "SENT"; direction := OUT;
     people := []; involved_team_ids := ["SALES"] |}.

(** The first page of a longer feed, its second page, the page a
    navigation to 2024-01-10 returns, and a page without events. *)
Definition page1 : ApiResponse :=
  {| events := [mail 1 "2024-01-15T10:00:00Z"; mail 2 "2024-01-14T15:30:00Z"];
     persons := {[ "person1" := john ]};
     pagination := {| current_page := 1; total_pages := 3; total_count := 5;
                      has_next := true; has_previous := false |} |}.

Definition page2 : ApiResponse :=
  {| events := [mail 3 "2024-01-13T08:00:00Z"; mail 4 "2024-01-12T08:00:00Z"];
     persons := {[ "person2" := jane ]};
     pagination := {| current_page := 2; total_pages := 3; total_count := 5;
                      has_next := true; has_previous := true |} |}.

Definition navigationPage : ApiResponse :=
  {| events := [mail 5 "2024-01-10T12:00:00Z"];
     persons := ∅;
     pagination := {| current_page := 1; total_pages := 1; total_count := 1;
                      has_next := false; has_previous := false |} |}.


(** The application once its first page has arrived, then with a
    navigation to 2024-01-10 in flight, and with a load-more fetch and that
    navigation both in flight. *)
Definition ready : App.System :=
  App.after [App.Fulfil 0 page1] App.mounted.2.

Definition navigating : App.System :=
  App.after [App.DateClick "2024-01-10"] ready.

Definition racing : App.System :=
  App.after [App.Intersect true; App.DateClick "2024-01-10"] ready.

End Fixtures.

(** ** The API service ([lib/api.ts]) *)

Module ApiService.
Import Types ActivityTimelineTable.

Definition API_BASE_URL : string := "http://localhost:8000".
Definition DEFAULT_CUSTOMER_ORG_ID : string := "org_4m6zyrass98vvtk3xh5kcwcmaf".
Definition DEFAULT_ACCOUNT_ID : string := "account_31crr1tcp2bmcv1fk6pcm0k6ag".

(** *** [URLSearchParams]

    The serialiser of the URL standard (application/x-www-form-urlencoded)
    on the bytes of a string: letters, digits and [*-._] stand for
    themselves, a space becomes [+], every other byte is written [%XX]. *)

Definition unreserved (c : ascii) : bool :=
  let n := N_of_ascii c in
  ((n =? 42) || (n =? 45) || (n =? 46) || (n =? 95)
   || ((48 <=? n) && (n <=? 57))
   || ((65 <=? n) && (n <=? 90))
   || ((97 <=? n) && (n <=? 122)))%N.

Definition hexDigit (n : N) : ascii :=
  if (n <? 10)%N then ascii_of_N (48 + n) else ascii_of_N (55 + n).

Definition encodeByte (c : ascii) : string :=
  if unreserved c then String c ""
  else if (N_of_ascii c =? 32)%N then "+"
  else String "%" (String (hexDigit (N_of_ascii c / 16))
                     (String (hexDigit (N_of_ascii c mod 16)) "")).

Fixpoint formEncode (s : string) : string :=
  match s with
  | EmptyString => EmptyString
  | String c s' => (encodeByte c ++ formEncode s')%string
  end.

(** [params.toString()] *)
Definition serialize (params : list (string * string)) : string :=
  String.concat "&"
    (map (fun kv => (formEncode kv.1 ++ "=" ++ formEncode kv.2)%string) params).

(** *** [fetchActivityEvents] *)

(** The parameters of the request: the scope, the page and its size, and
    the date when [targetDate] is truthy.  (The defaults [page = 1] and
    [pageSize = 50] stand in for arguments left out; the table passes
    both.) *)
Definition eventsParams (page pageSize : Z) (targetDate : option string)
    : list (string * string) :=
  [ ("customer_org_id", DEFAULT_CUSTOMER_ORG_ID);
    ("account_id", DEFAULT_ACCOUNT_ID);
    ("page", pretty page);
    ("page_size", pretty pageSize) ]
  ++ match targetDate with
     | Some date => if truthy date then [("date", date)] else []
     | None => []
     end.

(** The URL handed to [fetch]. *)
Definition eventsUrl (page pageSize : Z) (targetDate : option string) : string :=
  (API_BASE_URL ++ "/api/events/?"
   ++ serialize (eventsParams page pageSize targetDate))%string.

(** What [fetch] settles with: a response, with its [ok] flag, its status
    text and what [response.json()] settles with, or a rejection. *)
Inductive FetchOutcome (A : Type) :=
| Responded (ok : bool) (statusText : string) (json : A + Rejection)
| Failed (err : Rejection).
Arguments Responded {A} ok statusText json.
Arguments Failed {A} err.

(** What the promise of [fetchActivityEvents] settles with. *)
Definition fetchActivityEvents (o : FetchOutcome ApiResponse)
    : ApiResponse + Rejection :=
  match o with
  | Failed err => inr err
  | Responded ok statusText json =>
      if negb ok
      then inr (ErrorInstance ("Failed to fetch activity events: " ++ statusText)%string)
      else json
  end.

(** *** [fetchTimelineData] *)

Definition timelineParams : list (string * string) :=
  [ ("customer_org_id", DEFAULT_CUSTOMER_ORG_ID);
    ("account_id", DEFAULT_ACCOUNT_ID) ].

Definition timelineUrl : string :=
  (API_BASE_URL ++ "/api/timeline/?" ++ serialize timelineParams)%string.

Definition fetchTimelineData {A} (o : FetchOutcome A) : A + Rejection :=
  match o with
  | Failed err => inr err
  | Responded ok statusText json =>
      if negb ok
      then inr (ErrorInstance ("Failed to fetch timeline data: " ++ statusText)%string)
      else json
  end.

End ApiService.

(** ** The minimap as a component ([components/ActivityMinimap.tsx])

    The state of the component, its one fetch, its two memos and the ref
    to the chart container.  [ActivityMinimap.touchpointMarkers] is the
    body of the second memo; here it is run when React runs it. *)

Module MinimapComponent.
Import Types Utils.

Record TimelineApiResponse := {
  timeline_data : list TimelineDataPoint;
  first_touchpoints : list FirstTouchpoint;
}.

(** The four [useState] variables. *)
Record State := {
  timelineData : list TimelineDataPoint;
  firstTouchpoints : list FirstTouchpoint;
  loading : bool;
  error : option string;
}.

Definition initial : State :=
  {| timelineData := []; firstTouchpoints := []; loading := true; error := None |}.

(** [loadTimelineData] after its [await], for a promise that is fulfilled
    and for one that is rejected. *)
Definition loadTimelineData_fulfilled (response : TimelineApiResponse)
    (st : State) : State :=
  {| timelineData := timeline_data response;
     firstTouchpoints := first_touchpoints response;
     error := None;
     loading := false |}.

Definition loadTimelineData_rejected (err : ActivityTimelineTable.Rejection)
    (st : State) : State :=
  {| timelineData := timelineData st;
     firstTouchpoints := firstTouchpoints st;
     error := Some (match err with
                    | ActivityTimelineTable.ErrorInstance message => message
                    | ActivityTimelineTable.OtherValue => "Failed to load timeline data"
                    end);
     loading := false |}.

Inductive View := LoadingView | ErrorView | ChartView.

(** Which of the three [return]s is taken.  Only the last one renders the
    container that carries [ref={chartRef}]. *)
Definition view (st : State) : View :=
  if loading st then LoadingView
  else match error st with
       | Some message =>
           if ActivityTimelineTable.truthy message then ErrorView else ChartView
       | None => ChartView
       end.

(** A point of [chartData]: the timeline point with its parsed date and
    its label. *)
Record ChartPoint := {
  point : TimelineDataPoint;
  dateObj : option Z;
  formattedDate : Text;
}.

(** What React keeps of the component from one render to the next: the
    state, the value of the second memo, and [chartRef.current], which is
    the container's [clientWidth] while the container is in the document
    and [null] otherwise. *)
Record Instance := {
  state : State;
  touchpointMarkers : list ActivityMinimap.Marker;
  chartRef : option Z;
}.

Section InTheDocument.

(** [parseISO] of date-fns, and the width the layout gives the chart
    container. *)
Context (parseISO : string -> option Z) (containerWidth : Z).

(** The first memo.  [format] throws for a date that does not parse, and
    the render with it: [None]. *)
Definition chartData (timelineData : list TimelineDataPoint)
    : option (list ChartPoint) :=
  mapM (fun point =>
          let dateObj := parseISO (point_date point) in
          formattedDate ← format (parseISO (point_date point)) "MMM d";
          Some {| point := point; dateObj := dateObj;
                  formattedDate := formattedDate |})
       timelineData.

(** One render and its commit.  [recompute] tells whether the
    dependencies of the memos have changed since the render before.  The
    memo body runs during the render and reads the ref as the commit
    before left it; the commit then attaches the ref if the chart view was
    rendered and clears it otherwise. *)
Definition render (before : Instance) (st : State) (recompute : bool)
    : option Instance :=
  markers ←
    (if recompute
     then points ← chartData (timelineData st);
          Some (ActivityMinimap.touchpointMarkers (chartRef before)
                  (point <$> points) (firstTouchpoints st))
     else Some (touchpointMarkers before));
  Some {| state := st;
          touchpointMarkers := markers;
          chartRef := match view st with
                      | ChartView => Some containerWidth
                      | _ => None
                      end |}.

(** The first render: nothing was rendered before it, the ref is [null]. *)
Definition mount : option Instance :=
  render {| state := initial; touchpointMarkers := []; chartRef := None |}
    initial true.

(** The settling of the fetch that the mount effect started, the only
    fetch of the component.  A response brings new arrays, so both memos
    run again; a rejection leaves the arrays, and the memos, as they were. *)
Definition fulfilled (response : TimelineApiResponse) (inst : Instance)
    : option Instance :=
  render inst (loadTimelineData_fulfilled response (state inst)) true.

Definition rejected (err : ActivityTimelineTable.Rejection) (inst : Instance)
    : option Instance :=
  render inst (loadTimelineData_rejected err (state inst)) false.

(** The component once its data has arrived. *)
Definition loaded (response : TimelineApiResponse) : option Instance :=
  inst ← mount; fulfilled response inst.

(** The markers drawn over the chart: those of the memo, in the chart
    view. *)
Definition overlay (inst : Instance) : list ActivityMinimap.Marker :=
  match view (state inst) with
  | ChartView => touchpointMarkers inst
  | _ => []
  end.

End InTheDocument.

End MinimapComponent.

(** ** Clicks on the minimap ([components/ActivityMinimap.tsx]) *)

Module MinimapClicks.
Import Types.

(** [handleChartClick]: the dates [onDateClick] is called with.  The chart
    passes [null] or an object whose [activeLabel] may be missing. *)
Definition handleChartClick (data : option (option string)) : list string :=
  match data with
  | Some (Some activeLabel) =>
      if ActivityTimelineTable.truthy activeLabel then [activeLabel] else []
  | _ => []
  end.

(** The [onClick] of a touchpoint marker: [onDateClick(marker.date)]. *)
Definition markerClick (marker : ActivityMinimap.Marker) : list string :=
  [touch_date (ActivityMinimap.touchpoint marker)].

End MinimapClicks.

(** ** The table's cells ([components/ActivityTimelineTable.tsx]) *)

Module TableCells.
Import Types.

(** What [renderPersonBadge] shows. *)
Inductive PersonBadge :=
| NoPeople
| UnknownPerson
| PersonName (first last : string) (additionalCount : option Z).

(** [persons] is the table's lookup map; the name shown is the one of the
    map's record for the first person's identifier.  (Identifiers are
    taken not to be names of members of [Object.prototype].) *)
Definition renderPersonBadge (persons : gmap string Person)
    (people : list Person) : PersonBadge :=
  match people with
  | [] => NoPeople
  | person :: _ =>
      match persons !! person_ident person with
      | None => UnknownPerson
      | Some firstPerson =>
          let additionalCount := Z.of_nat (length people) - 1 in
          PersonName (first_name firstPerson) (last_name firstPerson)
            (if 0 <? additionalCount then Some additionalCount else None)
      end
  end.

(** [String.prototype.toLowerCase] on ASCII text: team identifiers are
    ASCII. *)
Definition toLowerChar (c : ascii) : ascii :=
  let n := N_of_ascii c in
  if ((65 <=? n) && (n <=? 90))%N then ascii_of_N (n + 32) else c.

Fixpoint toLowerCase (s : string) : string :=
  match s with
  | EmptyString => EmptyString
  | String c s' => String (toLowerChar c) (toLowerCase s')
  end.

(** [s.includes(sub)] *)
Definition includes (s sub : string) : bool :=
  match String.index 0 sub s with
  | Some _ => true
  | None => false
  end.

Record TeamBadge := {
  displayName : string;
  colorClass : string;
}.

(** The body of the [teamIds.map] callback. *)
Definition teamBadge (teamId : string) : TeamBadge :=
  if includes (toLowerCase teamId) "marketing" || String.eqb teamId "team-marketing"
  then {| displayName := "MARKETING"; colorClass := "text-red-600" |}
  else if includes (toLowerCase teamId) "sales" || String.eqb teamId "team_sales"
  then {| displayName := "SALES"; colorClass := "text-blue-600" |}
  else if includes (toLowerCase teamId) "customer_success"
          || String.eqb teamId "team_customer_success"
  then {| displayName := "CUSTOMER SUCCESS"; colorClass := "text-green-600" |}
  else if String.eqb teamId "SDR"
  then {| displayName := "SDR"; colorClass := "text-green-600" |}
  else {| displayName := teamId; colorClass := "text-black" |}.

(** [renderTeamBadges]: the single red [UNKNOWN] for no team, one badge
    per team otherwise. *)
Definition renderTeamBadges (teamIds : list string) : list TeamBadge :=
  if (Z.of_nat (length teamIds) =? 0)
  then [ {| displayName := "UNKNOWN"; colorClass := "text-red-600" |} ]
  else map teamBadge teamIds.

End TableCells.

(** ** Class names and debouncing ([lib/utils.ts]) *)

Module ClassNames.

(** An argument of [cn]: a string, or one of [undefined], [null] and
    [false], which are [None]. *)
Definition keep (c : option string) : option string :=
  match c with
  | Some s => if ActivityTimelineTable.truthy s then Some s else None
  | None => None
  end.

(** [classes.filter(Boolean).join(' ')] *)
Definition cn (classes : list (option string)) : string :=
  String.concat " " (omap keep classes).

End ClassNames.

Module Debounce.

Section Debounced.
Context {A : Type}.

(** The host's timers and the debounced function's surroundings: the clock,
    the timers that are set (identifier, time at which they are due, the
    arguments their callback will call [func] with), the closure variable
    [timeout] ([None] for [undefined]), and the calls [func] has
    received. *)
Record State := {
  now : Z;
  fresh : nat;
  timers : list (nat * Z * A);
  timeout : option nat;
  calls : list A;
}.

Definition start : State :=
  {| now := 0; fresh := 1; timers := []; timeout := None; calls := [] |}.

(** [clearTimeout(id)]: nothing happens for [undefined] or for a timer that
    is gone. *)
Definition clearTimeout (id : option nat) (pending : list (nat * Z * A))
    : list (nat * Z * A) :=
  match id with
  | Some i => filter (fun t => t.1.1 <> i) pending
  | None => pending
  end.

(** The debounced function, called with [args]:
    [clearTimeout(timeout); timeout = setTimeout(() => func(...args), wait)]. *)
Definition call (wait : Z) (args : A) (st : State) : State :=
  {| now := now st;
     fresh := S (fresh st);
     timers := clearTimeout (timeout st) (timers st)
               ++ [(fresh st, now st + Z.max wait 0, args)];
     timeout := Some (fresh st);
     calls := calls st |}.

(** Time passes: the timers that fall due run, in the order in which they
    were set, and are gone. *)
Definition elapse (d : Z) (st : State) : State :=
  let t := now st + Z.max d 0 in
  {| now := t;
     fresh := fresh st;
     timers := filter (fun x => t < x.1.2) (timers st);
     timeout := timeout st;
     calls := calls st ++ (snd <$> filter (fun x => x.1.2 <= t) (timers st)) |}.

Inductive Event :=
| Call (args : A)
| Elapse (d : Z).

Definition react (wait : Z) (st : State) (e : Event) : State :=
  match e with
  | Call args => call wait args st
  | Elapse d => elapse d st
  end.

Definition play (wait : Z) (events : list Event) (st : State) : State :=
  foldl (react wait) st events.

(** The events of a burst: each call is followed by its pause. *)
Definition burst (b : list (A * Z)) : list Event :=
  b ≫= (fun '(args, gap) => [Call args; Elapse gap]).

(** No timer is set, or one is and [timeout] holds its identifier. *)
Definition owned (st : State) : Prop :=
  timers st = []
  \/ exists id due args, timers st = [(id, due, args)] /\ timeout st = Some id.

End Debounced.
Arguments State A : clear implicits.
Arguments Event A : clear implicits.

End Debounce.

(** ** Further notions the properties are stated with *)

Module Vocabulary.
Import Types ActivityTimelineTable App.

(** [date] stands at position [index] of the axis and nowhere before. *)
Definition firstIndex (chartData : list TimelineDataPoint) (date : string)
    (index : nat) : Prop :=
  ActivityMinimap.axis chartData !! index = Some date
  /\ forall j, (j < index)%nat -> ActivityMinimap.axis chartData !! j <> Some date.

(** The states the application can be in: those a run of browser events
    reaches from the mounted page. *)
Definition reachable (sys : System) : Prop :=
  exists inputs, sys = after inputs mounted.2.

(** The range of dates of a list of rows, as the visible-range effect
    derives it; [None] for no rows. *)
Definition rangeOf (evs : list ActivityEvent) : option (string * string) :=
  match head evs, last evs with
  | Some newest, Some oldest =>
      Some (splitT0 (timestamp oldest), splitT0 (timestamp newest))
  | _, _ => None
  end.

(** The range the page holds, and hands to the minimap. *)
Definition homeRange (sys : System) : string * string :=
  (Home.visibleStartDate (home sys), Home.visibleEndDate (home sys)).

(** A page side-loads the person each of its events shows: the first of
    the event's people. *)
Definition sideLoaded (response : ApiResponse) : Prop :=
  forall event person,
    event ∈ events response ->
    head (people event) = Some person ->
    is_Some (persons response !! person_ident person).

(** Every page that arrives in the course of [inputs] is side-loaded. *)
Definition sideLoadedInputs (inputs : list Input) : Prop :=
  forall n response, Fulfil n response ∈ inputs -> sideLoaded response.

(** The input that the settling of the fetch at position [n] amounts to. *)
Definition deliver (n : nat) (o : ApiService.FetchOutcome ApiResponse) : Input :=
  match ApiService.fetchActivityEvents o with
  | inl response => Fulfil n response
  | inr err => Reject n err
  end.

(** The URL [loadEvents] requests for a call. *)
Definition requestUrl (c : Call) : string :=
  ApiService.eventsUrl (page c) 50 (targetDate c).

(** The events among the rows of a table body. *)
Definition eventOfRow (r : Row) : option ActivityEvent :=
  match r with
  | EventRow e _ _ => Some e
  | GapRow _ => None
  end.

(** The mapping of [teamBadge] with the comparisons against the three
    literal identifiers left out. *)
Definition teamBadgeBySubstring (teamId : string) : TableCells.TeamBadge :=
  if TableCells.includes (TableCells.toLowerCase teamId) "marketing"
  then {| TableCells.displayName := "MARKETING";
          TableCells.colorClass := "text-red-600" |}
  else if TableCells.includes (TableCells.toLowerCase teamId) "sales"
  then {| TableCells.displayName := "SALES";
          TableCells.colorClass := "text-blue-600" |}
  else if TableCells.includes (TableCells.toLowerCase teamId) "customer_success"
  then {| TableCells.displayName := "CUSTOMER SUCCESS";
          TableCells.colorClass := "text-green-600" |}
  else if String.eqb teamId "SDR"
  then {| TableCells.displayName := "SDR";
          TableCells.colorClass := "text-green-600" |}
  else {| TableCells.displayName := teamId;
          TableCells.colorClass := "text-black" |}.

(** The local reading [w] exists on the clock: the host takes it for an
    instant at which the clock shows [w]. *)
Definition keeps (clock : Utils.Clock) (w : Z) : Prop :=
  Utils.localOf clock (Utils.instantOf clock w) = w.

(** The three local readings [differenceInDays] passes through for the
    dates [l] and [r] exist on the clock: midnight of either day, and the
    time of day of [l] on the day of [r].  A clock at a fixed offset from
    UTC keeps every reading; a clock with daylight saving time skips an
    hour of readings each spring. *)
Definition onTheClock (clock : Utils.Clock) (l r : Z) : Prop :=
  let wl := Utils.localOf clock l in
  let wr := Utils.localOf clock r in
  keeps clock (Utils.msPerDay * (wl / Utils.msPerDay))
  /\ keeps clock (Utils.msPerDay * (wr / Utils.msPerDay))
  /\ keeps clock (Utils.msPerDay * (wr / Utils.msPerDay) + wl mod Utils.msPerDay).

(** The row of an event whose timestamp parses to [date]. *)
Definition rowOf (event : ActivityEvent) (date : Z) : Row :=
  EventRow event (Utils.Formatted date "MMM d, yyyy h:mm a")
    (Utils.DistanceToNow date true).

(** The position the linear interpolation gives the axis index [index] of
    [n] dates in a chart [width] pixels wide. *)
Definition interpolated (index n : nat) (width : Z) : Q :=
  (inject_Z (Z.of_nat index) / inject_Z (Z.of_nat n - 1)
   * inject_Z (width - 2 * ActivityMinimap.padding)
   + inject_Z ActivityMinimap.padding)%Q.

(** The number of occurrences of the character [c] in [s]. *)
Fixpoint occurrences (c : ascii) (s : string) : nat :=
  match s with
  | EmptyString => 0
  | String c' s' => (if Ascii.eqb c c' then 1 else 0) + occurrences c s'
  end.

End Vocabulary.

(** ** Further data the properties are run on *)

Module Scenarios.
Import Types.

(** A marker of the test timeline, as [touchpointMarkers] places it in a
    chart 800 wide. *)
Definition marker_person2 : ActivityMinimap.Marker :=
  {| ActivityMinimap.touchpoint := Fixtures.touch_person2;
     ActivityMinimap.x :=
       ActivityMinimap.position (Some 800) Fixtures.test_timeline_data
         Fixtures.touch_person2 |}.

Definition touch_person3 : FirstTouchpoint :=
  {| person_id := "person3"; touch_timestamp := "2024-01-17T09:00:00Z";
     touch_date := "2024-01-17" |}.

(** A call received from Jane, and a page with it that side-loads her. *)
Definition phoneCall (i : Z) (ts : string) : ActivityEvent :=
  {| id := i; timestamp := ts; activity := "Phone call received";
     channel := "PHONE"; status := "COMPLETED"; direction := IN;
     people := [Fixtures.jane]; involved_team_ids := ["team_customer_success"] |}.

Definition peoplePage : ApiResponse :=
  {| events := [phoneCall 2 "2024-01-14T15:30:00Z"];
     persons := {[ "person2" := Fixtures.jane ]};
     pagination := {| current_page := 1; total_pages := 1; total_count := 1;
                      has_next := false; has_previous := false |} |}.

(** The first page of a navigation to 2024-01-10 that has more pages. *)
Definition datedPage : ApiResponse :=
  {| events := [Fixtures.mail 5 "2024-01-10T12:00:00Z"];
     persons := ∅;
     pagination := {| current_page := 1; total_pages := 2; total_count := 2;
                      has_next := true; has_previous := false |} |}.

(** The application after a navigation to 2024-01-10 has brought
    [datedPage]. *)
Definition navigated : App.System :=
  App.after [App.Fulfil 0 datedPage] Fixtures.navigating.



(** The second page of a feed that ends with it. *)
Definition lastPage : ApiResponse :=
  {| events := [Fixtures.mail 3 "2024-01-13T08:00:00Z";
                Fixtures.mail 4 "2024-01-12T08:00:00Z"];
     persons := {[ "person2" := Fixtures.jane ]};
     pagination := {| current_page := 2; total_pages := 2; total_count := 4;
                      has_next := false; has_previous := true |} |}.

(** The race of a load-more fetch with the navigation that followed it,
    once both have settled: the navigation's page first, the page of the
    load-more fetch last. *)
Definition raced : App.System :=
  App.after [App.Fulfil 1 Fixtures.navigationPage; App.Fulfil 0 lastPage]
    Fixtures.racing.

(** The response of the minimap's test suite. *)
Definition timelineResponse : MinimapComponent.TimelineApiResponse :=
  {| MinimapComponent.timeline_data := Fixtures.test_timeline_data;
     MinimapComponent.first_touchpoints :=
       [Fixtures.touch_person1; Fixtures.touch_person2; touch_person3] |}.

(** The minimap with that response, once the data has arrived, in a chart
    container [containerWidth] pixels wide (see [drawn_is_loaded]). *)
Definition drawn (containerWidth : Z) : MinimapComponent.Instance :=
  {| MinimapComponent.state :=
       MinimapComponent.loadTimelineData_fulfilled timelineResponse
         MinimapComponent.initial;
     MinimapComponent.touchpointMarkers :=
       ActivityMinimap.touchpointMarkers None Fixtures.test_timeline_data
         [Fixtures.touch_person1; Fixtures.touch_person2; touch_person3];
     MinimapComponent.chartRef := Some containerWidth |}.

(** A clock of central Europe around the end of daylight saving time in
    2024: two hours ahead of UTC until 2024-10-27T01:00:00Z, one hour
    ahead from then on.  Of a reading that occurs twice the host takes the
    first occurrence. *)
Definition endOfSummerTime : Z := 1729990800000.

Definition centralEurope : Utils.Clock :=
  {| Utils.localOf t :=
       if t <? endOfSummerTime then t + 7200000 else t + 3600000;
     Utils.instantOf w :=
       if w <? endOfSummerTime + 7200000 then w - 7200000 else w - 3600000 |}.

(** The same clock around the start of daylight saving time in 2024: one
    hour ahead of UTC until 2024-03-31T01:00:00Z, two hours ahead from
    then on.  The readings from 02:00 to 03:00 of that day are skipped;
    the host takes them with the offset of before the change, which moves
    them one hour on. *)
Definition startOfSummerTime : Z := 1711846800000.

Definition centralEuropeInSpring : Utils.Clock :=
  {| Utils.localOf t :=
       if t <? startOfSummerTime then t + 3600000 else t + 7200000;
     Utils.instantOf w :=
       if w <? startOfSummerTime + 7200000 then w - 3600000 else w - 7200000 |}.

End Scenarios.

(** * Properties *)

Import Types.

Lemma map_lookup {A B} (f : A -> B) (l : list A) (k : nat) :
  map f l !! k = f <$> (l !! k).
Proof. revert k. induction l as [|a l IH]; intros [|k]; simpl; auto. Qed.

Section FindIndex.
Context {A : Type} (p : A -> bool).
Import ActivityMinimap.

Lemma findIndex_from_none (l : list A) (i : Z) :
  Forall (fun d => p d = false) l -> findIndex_from p l i = -1.
Proof.
  intros H. revert i. induction H as [|d l Hd _ IH]; intros i; simpl.
  - reflexivity.
  - rewrite Hd. apply IH.
Qed.

Lemma findIndex_from_first (l : list A) (i : Z) (k : nat) (d : A) :
  l !! k = Some d -> p d = true ->
  (forall j d', (j < k)%nat -> l !! j = Some d' -> p d' = false) ->
  findIndex_from p l i = i + Z.of_nat k.
Proof.
  revert i k. induction l as [|a l IH]; intros i k Hk Hp Hfirst.
  - destruct k; discriminate.
  - destruct k as [|k]; simpl in *.
    + injection Hk as ->. rewrite Hp. lia.
    + rewrite (Hfirst 0%nat a) by (lia || reflexivity).
      rewrite (IH (i + 1) k Hk Hp).
      * lia.
      * intros j d' Hj Hd'. apply (Hfirst (S j) d'); [lia | exact Hd'].
Qed.
End FindIndex.


(** * Marker projection *)

Section MarkerProjection.
Import ActivityMinimap.

Context (clientWidth : option Z).

Lemma markers_lookup chartData firstTouchpoints (k : nat) tp :
  chartData <> [] ->
  firstTouchpoints !! k = Some tp ->
  touchpointMarkers clientWidth chartData firstTouchpoints !! k
  = Some {| touchpoint := tp; x := position clientWidth chartData tp |}.
Proof.
  intros Hne Hk. unfold touchpointMarkers.
  destruct chartData as [|d ds]; [congruence|].
  cbn [length]. destruct (Z.eqb_spec (Z.of_nat (S (length ds))) 0); [lia|].
  rewrite map_lookup, Hk. reflexivity.
Qed.

Lemma absent_findIndex (chartData : list TimelineDataPoint) (date : string) :
  date ∉ axis chartData ->
  findIndex (fun d => String.eqb (point_date d) date) chartData = -1.
Proof.
  intros Habs. apply findIndex_from_none.
  apply Forall_forall. intros d Hd.
  apply String.eqb_neq. intros Heq. apply Habs.
  unfold axis. apply list_elem_of_In, in_map_iff. exists d.
  split; [exact Heq|]. apply list_elem_of_In, Hd.
Qed.

(** The memo body, for whatever width it reads: a touchpoint whose date is
    on an axis of at least two dates is placed by linear interpolation of
    the date's index (its first occurrence on the axis) over that width
    less the margins. *)
Lemma memo_body_interpolates
    (chartData : list TimelineDataPoint)
    (firstTouchpoints : list FirstTouchpoint)
    (k index : nat) (tp : FirstTouchpoint) :
  firstTouchpoints !! k = Some tp ->
  axis chartData !! index = Some (touch_date tp) ->
  (forall j, (j < index)%nat -> axis chartData !! j <> Some (touch_date tp)) ->
  (2 <= length (axis chartData))%nat ->
  touchpointMarkers clientWidth chartData firstTouchpoints !! k
  = Some {| touchpoint := tp;
            x := (inject_Z (Z.of_nat index)
                  / inject_Z (Z.of_nat (length (axis chartData)) - 1)
                  * inject_Z (chartWidth clientWidth - 2 * padding)
                  + inject_Z padding)%Q |}.
Proof.
  intros Hk Hidx Hfirst Hlen.
  unfold axis in *. rewrite length_map in *.
  rewrite markers_lookup with (tp := tp); [|destruct chartData; simpl in *; [lia|congruence]|exact Hk].
  do 2 f_equal. unfold position.
  rewrite map_lookup in Hidx.
  destruct (chartData !! index) as [d|] eqn:Hd; [|discriminate].
  injection Hidx as Hdate.
  unfold findIndex.
  rewrite (findIndex_from_first _ chartData 0 index d Hd).
  - replace (0 <=? 0 + Z.of_nat index) with true by (symmetry; apply Z.leb_le; lia).
    replace (1 <? Z.of_nat (length chartData)) with true by (symmetry; apply Z.ltb_lt; lia).
    cbn [andb]. rewrite Z.add_0_l. reflexivity.
  - apply String.eqb_eq. exact Hdate.
  - intros j d' Hj Hd'. apply String.eqb_neq. intros Heq.
    apply (Hfirst j Hj). rewrite map_lookup, Hd'. simpl. congruence.
Qed.

(** C5 (as the code has it).  A touchpoint whose date is not on the axis is
    still rendered when the axis is not empty, and its position is [0]; with
    an empty axis no marker is produced. *)
Theorem absent_date_pinned_to_zero
    (chartData : list TimelineDataPoint)
    (firstTouchpoints : list FirstTouchpoint)
    (k : nat) (tp : FirstTouchpoint) :
  firstTouchpoints !! k = Some tp ->
  touch_date tp ∉ axis chartData ->
  touchpointMarkers clientWidth chartData firstTouchpoints !! k
  = match chartData with
    | [] => None
    | _ :: _ => Some {| touchpoint := tp; x := 0%Q |}
    end.
Proof.
  intros Hk Habs. destruct chartData as [|d ds] eqn:E.
  - reflexivity.
  - rewrite <- E in *. rewrite markers_lookup with (tp := tp); [|congruence|exact Hk].
    unfold position. rewrite absent_findIndex by exact Habs. reflexivity.
Qed.

(** C10.  On an axis of exactly one date every marker is placed at [0],
    the marker of that very date included. *)
Theorem single_date_axis_all_zero
    (chartData : list TimelineDataPoint)
    (firstTouchpoints : list FirstTouchpoint) :
  length (axis chartData) = 1%nat ->
  touchpointMarkers clientWidth chartData firstTouchpoints
  = map (fun tp => {| touchpoint := tp; x := 0%Q |}) firstTouchpoints.
Proof.
  unfold axis. rewrite length_map. intros Hlen.
  unfold touchpointMarkers. rewrite Hlen. cbn [Z.of_nat Z.eqb Pos.of_succ_nat].
  apply map_ext. intros tp. f_equal.
  unfold position. rewrite Hlen. cbn [Z.of_nat Pos.of_succ_nat Z.ltb Z.compare Pos.compare Pos.compare_cont].
  rewrite andb_false_r. reflexivity.
Qed.

End MarkerProjection.

Lemma P2_absent_from_axis :
  touch_date Fixtures.touch_P2 ∉ ActivityMinimap.axis Fixtures.timeline_data.
Proof.
  intros H. apply list_elem_of_In in H. simpl in H.
  destruct H as [H|[H|[]]]; discriminate H.
Qed.

(** C5, counterexample.  P2's first contact, on 2024-01-12, is outbound, so
    the axis has the dates 2024-01-10 and 2024-01-15 only.  The marker is
    rendered, at [x = 0]: left of the left margin, where the axis starts, and
    not between the positions 60 and 740 of its two neighbours. *)
Lemma absent_date_not_interpolated :
  (touch_date Fixtures.touch_P2 ∉ ActivityMinimap.axis Fixtures.timeline_data)
  /\ ActivityMinimap.touchpointMarkers (Some 800) Fixtures.timeline_data
       [Fixtures.touch_P1; Fixtures.touch_P2]
     = [ {| ActivityMinimap.touchpoint := Fixtures.touch_P1;
            ActivityMinimap.x := (inject_Z 0 / inject_Z 1 * inject_Z 680 + inject_Z 60)%Q |};
         {| ActivityMinimap.touchpoint := Fixtures.touch_P2;
            ActivityMinimap.x := 0%Q |} ]
  /\ ~ Notions.in_axis_domain (Some 800) 0%Q.
Proof.
  split; [exact P2_absent_from_axis|]. split; [reflexivity|].
  intros [H _]. apply Qle_bool_iff in H. vm_compute in H. discriminate H.
Qed.

Lemma absent_date_pinned_to_zero_witness :
  ActivityMinimap.touchpointMarkers (Some 800) Fixtures.timeline_data
    [Fixtures.touch_P1; Fixtures.touch_P2] !! 1%nat
  = Some {| ActivityMinimap.touchpoint := Fixtures.touch_P2;
            ActivityMinimap.x := 0%Q |}.
Proof.
  apply (absent_date_pinned_to_zero (Some 800) Fixtures.timeline_data
           [Fixtures.touch_P1; Fixtures.touch_P2] 1 Fixtures.touch_P2).
  - reflexivity.
  - exact P2_absent_from_axis.
Defined.

Lemma single_date_axis_all_zero_witness :
  ActivityMinimap.touchpointMarkers (Some 800)
    [ {| point_date := "2024-01-10"; count := 1 |} ] [Fixtures.touch_P1]
  = [ {| ActivityMinimap.touchpoint := Fixtures.touch_P1;
         ActivityMinimap.x := 0%Q |} ].
Proof.
  apply (single_date_axis_all_zero (Some 800)
           [ {| point_date := "2024-01-10"; count := 1 |} ] [Fixtures.touch_P1]).
  reflexivity.
Defined.

(** * Gap indicators *)

Section GapIndicator.
Import Types Utils ActivityTimelineTable Notions Vocabulary.

Context (parseISO : string -> option Z) (clock : Clock).

Lemma quot_full_days (x d : Z) :
  0 <= d -> d * msPerDay <= x < (d + 1) * msPerDay -> Z.quot x msPerDay = d.
Proof.
  unfold msPerDay. intros Hd Hx.
  rewrite Z.quot_div_nonneg by lia.
  symmetry. apply Z.div_unique with (r := x - d * 86400000). lia. lia.
Qed.

Lemma roundDiv_days (k : Z) : roundDiv (msPerDay * k) msPerDay = k.
Proof.
  unfold roundDiv, msPerDay. symmetry.
  apply Z.div_unique with (r := 86400000); lia.
Qed.

(** Where the readings it passes through exist, [differenceInDays] is the
    difference of the two local readings in days, truncated towards
    zero. *)
Lemma fullDays_on_the_clock (l r : Z) :
  onTheClock clock l r ->
  fullDays clock l r = Z.quot (localOf clock l - localOf clock r) msPerDay.
Proof.
  unfold onTheClock, keeps. intros (Hl & Hr & Hback).
  unfold fullDays, differenceInCalendarDays, startOfDay, setDateBack, compareLocalAsc.
  rewrite Hl, Hr.
  set (wl := localOf clock l) in *. set (wr := localOf clock r) in *.
  clearbody wl wr.
  replace (msPerDay * (wl / msPerDay) - msPerDay * (wr / msPerDay))
    with (msPerDay * (wl / msPerDay - wr / msPerDay)) by ring.
  rewrite roundDiv_days. unfold msPerDay in *.
  assert (wl - Z.sgn (wl - wr) * Z.abs (wl / 86400000 - wr / 86400000) * 86400000
          = 86400000 * (wr / 86400000) + wl mod 86400000) as Hreading.
  {
    destruct (Z.lt_trichotomy wl wr) as [Hlt|[Heq|Hgt]].
    - rewrite Z.sgn_neg by lia.
      assert (wl / 86400000 <= wr / 86400000) by (apply Z.div_le_mono; lia).
      rewrite Z.abs_neq by lia.
      pose proof (Z.div_mod wl 86400000 ltac:(lia)). lia.
    - subst wr. rewrite !Z.sub_diag. cbn [Z.sgn Z.abs Z.mul].
      pose proof (Z.div_mod wl 86400000 ltac:(lia)). lia.
    - rewrite Z.sgn_pos by lia.
      assert (wr / 86400000 <= wl / 86400000) by (apply Z.div_le_mono; lia).
      rewrite Z.abs_eq by lia.
      pose proof (Z.div_mod wl 86400000 ltac:(lia)). lia. }
  rewrite Hreading, Hback.
  destruct (Z.lt_trichotomy wl wr) as [Hlt|[Heq|Hgt]].
  - rewrite (Z.sgn_neg (wl - wr)) by lia.
    assert (wl / 86400000 <= wr / 86400000) by (apply Z.div_le_mono; lia).
    rewrite Z.abs_neq by lia.
    destruct (Z.eqb_spec (Z.sgn (86400000 * (wr / 86400000) + wl mod 86400000 - wr)) (- -1)) as [Hs|Hs];
      pose proof (Z.sgn_spec (86400000 * (wr / 86400000) + wl mod 86400000 - wr));
      Z.to_euclidean_division_equations; lia.
  - subst wr. rewrite !Z.sub_diag. cbn [Z.sgn Z.abs Z.mul].
    rewrite Z.quot_0_l by lia. reflexivity.
  - rewrite (Z.sgn_pos (wl - wr)) by lia.
    assert (wr / 86400000 <= wl / 86400000) by (apply Z.div_le_mono; lia).
    rewrite Z.abs_eq by lia.
    destruct (Z.eqb_spec (Z.sgn (86400000 * (wr / 86400000) + wl mod 86400000 - wr)) (Z.opp 1)) as [Hs|Hs];
      pose proof (Z.sgn_spec (86400000 * (wr / 86400000) + wl mod 86400000 - wr));
      Z.to_euclidean_division_equations; lia.
Qed.

Lemma fragment_valid evs (index : nat) event c :
  parseISO (timestamp event) = Some c ->
  fragment parseISO clock evs index event
  = Some (option_list (renderGapIndicator (gapBefore parseISO clock evs index event))
          ++ [rowOf event c]).
Proof.
  intros Hc. unfold fragment, formatDateTime, formatRelativeTime. rewrite Hc.
  reflexivity.
Qed.

Lemma fragment_invalid evs (index : nat) event :
  parseISO (timestamp event) = None ->
  fragment parseISO clock evs index event = None.
Proof.
  intros Hc. unfold fragment, formatDateTime, formatRelativeTime. rewrite Hc.
  reflexivity.
Qed.

Lemma gapBefore_consecutive evs (index : nat) previous event p c d :
  evs !! index = Some previous ->
  parseISO (timestamp previous) = Some p ->
  parseISO (timestamp event) = Some c ->
  onTheClock clock p c ->
  0 <= d -> fullDaysApart (localOf clock p) (localOf clock c) d ->
  gapBefore parseISO clock evs (S index) event = Num d.
Proof.
  intros Hprev Hp Hc Hclock Hd Hapart. unfold gapBefore.
  cbn [Nat.ltb Nat.leb]. replace (S index - 1)%nat with index by lia.
  rewrite Hprev. unfold calculateDateGap, differenceInDays.
  rewrite Hp, Hc. f_equal. rewrite fullDays_on_the_clock by exact Hclock.
  apply quot_full_days; assumption.
Qed.

(** In a list of fragments that were all rendered, the fragments of two
    neighbouring elements are neighbours. *)
Lemma rendered_split {A} (l : list A) :
  forall (g : nat -> A -> option (list Row)) rendered (i : nat) a,
    mapM (fun r : option (list Row) => r) (imap g l) = Some rendered ->
    l !! i = Some a ->
    exists fa b r,
      g i a = Some fa /\ concat rendered = b ++ fa ++ r
      /\ forall a', l !! S i = Some a' ->
           exists fa' r', g (S i) a' = Some fa' /\ r = fa' ++ r'.
Proof.
  induction l as [|y l IH]; intros g rendered i a Hall Hi; [destruct i; discriminate|].
  cbn [imap mapM] in Hall. simpl in Hall.
  destruct (g 0%nat y) as [fy|] eqn:Hy; [|discriminate].
  destruct (mapM (fun r : option (list Row) => r) (imap (g ∘ S) l))
    as [rest|] eqn:Hrest; [|discriminate].
  simpl in Hall. injection Hall as <-.
  destruct i as [|i]; simpl in Hi.
  - injection Hi as <-. exists fy, [], (concat rest).
    split; [exact Hy|]. split; [reflexivity|].
    intros a' Ha'. destruct l as [|z l]; [discriminate|].
    simpl in Ha'. injection Ha' as ->.
    cbn [imap mapM] in Hrest. simpl in Hrest.
    destruct (g 1%nat a') as [fz|] eqn:Hz; [|discriminate].
    destruct (mapM (fun r : option (list Row) => r) (imap (g ∘ S ∘ S) l))
      as [rest'|] eqn:Hrest'; [|discriminate].
    simpl in Hrest. injection Hrest as <-.
    exists fz, (concat rest'). split; reflexivity.
  - destruct (IH (g ∘ S) rest i a Hrest Hi) as (fa & b & r & Hfa & Heq & Hnext).
    exists fa, (fy ++ b), r. split; [exact Hfa|]. split.
    + simpl. rewrite Heq, <- app_assoc. reflexivity.
    + intros a' Ha'. apply Hnext. exact Ha'.
Qed.

(** The fragments of two neighbouring events are neighbours in the table
    body, and the first one ends with the row of its event. *)
Lemma tbody_consecutive evs rows (index : nat) previous event p c :
  tbody parseISO clock evs = Some rows ->
  evs !! index = Some previous ->
  evs !! S index = Some event ->
  parseISO (timestamp previous) = Some p ->
  parseISO (timestamp event) = Some c ->
  exists before after rendered,
    fragment parseISO clock evs (S index) event = Some rendered
    /\ rows = before ++ [rowOf previous p] ++ rendered ++ after.
Proof.
  intros Hrows Hprev Hevent Hp Hc. unfold tbody in Hrows.
  destruct (mapM (fun r : option (list Row) => r)
              (imap (fragment parseISO clock evs) evs)) as [rendered|] eqn:Hall;
    [|discriminate].
  simpl in Hrows. injection Hrows as <-.
  destruct (rendered_split evs (fragment parseISO clock evs) rendered index previous
              Hall Hprev) as (fa & b & r & Hfa & Heq & Hnext).
  destruct (Hnext event Hevent) as (fa' & r' & Hfa' & ->).
  rewrite (fragment_valid evs index previous p Hp) in Hfa. injection Hfa as <-.
  exists (b ++ option_list
            (renderGapIndicator (gapBefore parseISO clock evs index previous))),
    r', fa'.
  split; [exact Hfa'|]. rewrite Heq, <- !app_assoc. reflexivity.
Qed.

(** C4 (as the code has it).  Between the rows of two neighbouring events
    the table body has the gap indicator of the second one and nothing
    else.  The days are counted on the local clock: when the clock reads
    five full days later at the first event than at the second the
    indicator shows [5]; when it reads less than two days later (zero or
    one full day) there is no indicator.  The readings the count passes
    through must exist on the clock. *)
Theorem gap_between_consecutive_rows evs (index : nat) previous event p c :
  evs !! index = Some previous ->
  evs !! S index = Some event ->
  parseISO (timestamp previous) = Some p ->
  parseISO (timestamp event) = Some c ->
  onTheClock clock p c ->
  (forall rows,
      tbody parseISO clock evs = Some rows ->
      exists before after rendered,
        fragment parseISO clock evs (S index) event = Some rendered
        /\ rows = before ++ [rowOf previous p] ++ rendered ++ after)
  /\ (fullDaysApart (localOf clock p) (localOf clock c) 5 ->
      fragment parseISO clock evs (S index) event
      = Some [GapRow (Num 5); rowOf event c])
  /\ (fullDaysApart (localOf clock p) (localOf clock c) 0
      \/ fullDaysApart (localOf clock p) (localOf clock c) 1 ->
      fragment parseISO clock evs (S index) event = Some [rowOf event c]).
Proof.
  intros Hprev Hevent Hp Hc Hclock. split; [|split].
  - intros rows Hrows. eapply tbody_consecutive; eassumption.
  - intros H5. rewrite (fragment_valid evs (S index) event c Hc).
    rewrite (gapBefore_consecutive evs index previous event p c 5)
      by (assumption || lia).
    reflexivity.
  - intros [H0|H1]; rewrite (fragment_valid evs (S index) event c Hc).
    + rewrite (gapBefore_consecutive evs index previous event p c 0)
        by (assumption || lia).
      reflexivity.
    + rewrite (gapBefore_consecutive evs index previous event p c 1)
        by (assumption || lia).
      reflexivity.
Qed.

End GapIndicator.

(** C4, counterexample.  On a clock that leaves daylight saving time
    between them, two timestamps exactly five times 24 hours apart read
    four days and 23 hours apart, and the indicator shows [4]. *)
Lemma five_days_across_clock_change_show_four :
  Utils.parseISO_utc "2024-10-29T10:00:00Z" = Some 1730196000000
  /\ Utils.parseISO_utc "2024-10-24T10:00:00Z" = Some 1729764000000
  /\ 1730196000000 - 1729764000000 = 5 * Utils.msPerDay
  /\ ActivityTimelineTable.fragment Utils.parseISO_utc Scenarios.centralEurope
       [ Fixtures.mail 1 "2024-10-29T10:00:00Z";
         Fixtures.mail 2 "2024-10-24T10:00:00Z" ] 1
       (Fixtures.mail 2 "2024-10-24T10:00:00Z")
     = Some [ ActivityTimelineTable.GapRow (Utils.Num 4);
              Vocabulary.rowOf (Fixtures.mail 2 "2024-10-24T10:00:00Z")
                1729764000000 ].
Proof. repeat split; vm_compute; reflexivity. Qed.

Lemma gap_between_consecutive_rows_witness :
  (exists before after,
      ActivityTimelineTable.tbody Utils.parseISO_utc Utils.utc
        [ Fixtures.mail 1 "2024-01-15T10:00:00Z";
          Fixtures.mail 2 "2024-01-10T10:00:00Z";
          Fixtures.mail 3 "2024-01-09T08:00:00Z";
          Fixtures.mail 4 "2024-01-09T07:00:00Z" ]
      = Some (before
              ++ [ Vocabulary.rowOf (Fixtures.mail 1 "2024-01-15T10:00:00Z")
                     1705312800000 ]
              ++ [ ActivityTimelineTable.GapRow (Utils.Num 5);
                   Vocabulary.rowOf (Fixtures.mail 2 "2024-01-10T10:00:00Z")
                     1704880800000 ]
              ++ after))
  /\ ActivityTimelineTable.fragment Utils.parseISO_utc Utils.utc
       [ Fixtures.mail 1 "2024-01-15T10:00:00Z";
         Fixtures.mail 2 "2024-01-10T10:00:00Z";
         Fixtures.mail 3 "2024-01-09T08:00:00Z";
         Fixtures.mail 4 "2024-01-09T07:00:00Z" ] 2
       (Fixtures.mail 3 "2024-01-09T08:00:00Z")
     = Some [ Vocabulary.rowOf (Fixtures.mail 3 "2024-01-09T08:00:00Z")
                1704787200000 ]
  /\ ActivityTimelineTable.fragment Utils.parseISO_utc Utils.utc
       [ Fixtures.mail 1 "2024-01-15T10:00:00Z";
         Fixtures.mail 2 "2024-01-10T10:00:00Z";
         Fixtures.mail 3 "2024-01-09T08:00:00Z";
         Fixtures.mail 4 "2024-01-09T07:00:00Z" ] 3
       (Fixtures.mail 4 "2024-01-09T07:00:00Z")
     = Some [ Vocabulary.rowOf (Fixtures.mail 4 "2024-01-09T07:00:00Z")
                1704783600000 ].
Proof.
  split; [|split].
  - destruct (gap_between_consecutive_rows Utils.parseISO_utc Utils.utc
                [ Fixtures.mail 1 "2024-01-15T10:00:00Z";
                  Fixtures.mail 2 "2024-01-10T10:00:00Z";
                  Fixtures.mail 3 "2024-01-09T08:00:00Z";
                  Fixtures.mail 4 "2024-01-09T07:00:00Z" ] 0
                (Fixtures.mail 1 "2024-01-15T10:00:00Z")
                (Fixtures.mail 2 "2024-01-10T10:00:00Z")
                1705312800000 1704880800000
                eq_refl eq_refl eq_refl eq_refl
                (conj eq_refl (conj eq_refl eq_refl)))
      as (Hbody & Hfive & _).
    destruct (Hbody
                [ Vocabulary.rowOf (Fixtures.mail 1 "2024-01-15T10:00:00Z") 1705312800000;
                  ActivityTimelineTable.GapRow (Utils.Num 5);
                  Vocabulary.rowOf (Fixtures.mail 2 "2024-01-10T10:00:00Z") 1704880800000;
                  Vocabulary.rowOf (Fixtures.mail 3 "2024-01-09T08:00:00Z") 1704787200000;
                  Vocabulary.rowOf (Fixtures.mail 4 "2024-01-09T07:00:00Z") 1704783600000 ]
                eq_refl)
      as (before & after & rendered & Hrendered & Hrows).
    rewrite Hfive in Hrendered.
    + injection Hrendered as <-. exists before, after.
      rewrite <- Hrows. reflexivity.
    + unfold Notions.fullDaysApart, Utils.msPerDay. simpl. lia.
  - apply (gap_between_consecutive_rows Utils.parseISO_utc Utils.utc _ 1
             (Fixtures.mail 2 "2024-01-10T10:00:00Z")
             (Fixtures.mail 3 "2024-01-09T08:00:00Z")
             1704880800000 1704787200000);
      try reflexivity.
    + repeat split.
    + right. unfold Notions.fullDaysApart, Utils.msPerDay. simpl. lia.
  - apply (gap_between_consecutive_rows Utils.parseISO_utc Utils.utc _ 2
             (Fixtures.mail 3 "2024-01-09T08:00:00Z")
             (Fixtures.mail 4 "2024-01-09T07:00:00Z")
             1704787200000 1704783600000);
      try reflexivity.
    + repeat split.
    + left. unfold Notions.fullDaysApart, Utils.msPerDay. simpl. lia.
Defined.

(** The repository's tests of [calculateDateGap], and the table test whose
    second event is stamped 2024-01-10T15:30, less than five times 24 hours
    before the first: the indicator shows [4]. *)
Example calculateDateGap_three_days :
  Utils.calculateDateGap Utils.parseISO_utc Utils.utc
    "2024-01-15T10:00:00Z" "2024-01-12T10:00:00Z" = Utils.Num 3.
Proof. reflexivity. Qed.

Example calculateDateGap_same_day :
  Utils.calculateDateGap Utils.parseISO_utc Utils.utc
    "2024-01-15T10:00:00Z" "2024-01-15T18:00:00Z" = Utils.Num 0.
Proof. reflexivity. Qed.

(** Across the start of daylight saving time: 23 hours after a reading
    the clock shows the same time of the next day, one full day; 47 and a
    half hours after it, two days and half an hour.  And where the count
    passes through a skipped reading (02:30 of the day of the change) a
    day of 23 and a half hours counts as full. *)
Example gaps_across_the_start_of_summer_time :
  Utils.parseISO_utc "2024-03-31T01:00:00Z" = Some Scenarios.startOfSummerTime
  /\ Utils.parseISO_utc "2024-10-27T01:00:00Z" = Some Scenarios.endOfSummerTime
  /\ Utils.calculateDateGap Utils.parseISO_utc Scenarios.centralEuropeInSpring
       "2024-03-31T10:00:00Z" "2024-03-30T11:00:00Z" = Utils.Num 1
  /\ Utils.calculateDateGap Utils.parseISO_utc Scenarios.centralEuropeInSpring
       "2024-04-01T10:30:00Z" "2024-03-30T11:00:00Z" = Utils.Num 2
  /\ Utils.calculateDateGap Utils.parseISO_utc Scenarios.centralEuropeInSpring
       "2024-04-01T00:30:00Z" "2024-03-31T01:00:00Z" = Utils.Num 1
  /\ ~ Vocabulary.onTheClock Scenarios.centralEuropeInSpring
         1711931400000 1711846800000.
Proof.
  repeat split; try reflexivity.
  intros (_ & _ & H). vm_compute in H. discriminate H.
Qed.

Example tbody_of_table_test :
  ActivityTimelineTable.tbody Utils.parseISO_utc Utils.utc
    [ Fixtures.mail 1 "2024-01-15T10:00:00Z";
      Fixtures.mail 2 "2024-01-10T15:30:00Z" ]
  = Some [ Vocabulary.rowOf (Fixtures.mail 1 "2024-01-15T10:00:00Z") 1705312800000;
           ActivityTimelineTable.GapRow (Utils.Num 4);
           Vocabulary.rowOf (Fixtures.mail 2 "2024-01-10T15:30:00Z") 1704900600000 ].
Proof. reflexivity. Qed.

(** * Visible range *)

Section VisibleRange.
Import ActivityTimelineTable Notions.

Lemma splitT0_monotone (a b : string) :
  String.length (splitT0 a) = String.length (splitT0 b) ->
  (a ?= b)%string = Lt ->
  String.le (splitT0 a) (splitT0 b).
Proof.
  unfold String.le. revert b.
  induction a as [|c a IH]; intros [|c' b] Hlen Hlt; simpl in *; try done.
  - destruct (Ascii.eqb c' "T"); [done | discriminate].
  - destruct (Ascii.eqb c "T") eqn:Ec, (Ascii.eqb c' "T") eqn:Ec';
      simpl in *; try done.
    unfold String.leb. simpl.
    destruct (Ascii.compare c c') eqn:Ecmp; try done.
    apply (IH b); [congruence | exact Hlt].
Qed.

Lemma descending_dates (e : ActivityEvent) (evs : list ActivityEvent) :
  strictlyDescending (e :: evs) ->
  Forall isoDated (e :: evs) ->
  Forall (fun e' => String.le (splitT0 (timestamp e')) (splitT0 (timestamp e))) evs.
Proof.
  revert e. induction evs as [|e2 evs IH]; intros e Hsorted Hiso; [constructor|].
  inversion Hsorted as [|? ? Htail Hhd]; subst.
  inversion Hhd as [|? ? Hlater]; subst.
  inversion Hiso as [|? ? He Hiso']; subst.
  inversion Hiso' as [|? ? He2 _]; subst.
  assert (String.le (splitT0 (timestamp e2)) (splitT0 (timestamp e))) as Hle.
  { apply splitT0_monotone; [unfold isoDated in *; congruence | exact Hlater]. }
  constructor; [exact Hle|].
  eapply Forall_impl; [apply (IH e2 Htail Hiso')|].
  intros e' He'. simpl in He'. etrans; [exact He' | exact Hle].
Qed.

(** C2.  For a non-empty list of rows, newest first, the visible-range
    effect reports exactly one range: from the date of the last row to the
    date of the first one, and the start does not come after the end. *)
Theorem visible_range_of_descending_rows
    (evs : list ActivityEvent) (newest oldest : ActivityEvent) :
  head evs = Some newest ->
  last evs = Some oldest ->
  strictlyDescending evs ->
  Forall isoDated evs ->
  visibleRangeEffect evs
  = [OnVisibleRangeChange (splitT0 (timestamp oldest)) (splitT0 (timestamp newest))]
  /\ String.le (splitT0 (timestamp oldest)) (splitT0 (timestamp newest)).
Proof.
  intros Hhead Hlast Hsorted Hiso.
  destruct evs as [|e evs]; [discriminate|].
  injection Hhead as ->. split.
  - unfold visibleRangeEffect, lastEvent.
    rewrite last_lookup in Hlast. cbn [length Nat.pred] in Hlast.
    cbn [length]. replace (S (length evs) - 1)%nat with (length evs) by lia.
    rewrite Hlast. reflexivity.
  - destruct evs as [|e2 evs].
    + injection Hlast as ->. reflexivity.
    + pose proof (descending_dates newest (e2 :: evs) Hsorted Hiso) as Hall.
      rewrite Forall_forall in Hall. apply Hall.
      apply last_Some_elem_of. rewrite last_cons_cons in Hlast. exact Hlast.
Qed.

End VisibleRange.

Lemma visible_range_of_descending_rows_witness :
  ActivityTimelineTable.visibleRangeEffect
    [ Fixtures.mail 1 "2024-01-15T10:00:00Z"; Fixtures.mail 2 "2024-01-14T15:30:00Z" ]
  = [ ActivityTimelineTable.OnVisibleRangeChange "2024-01-14" "2024-01-15" ]
  /\ String.le "2024-01-14" "2024-01-15".
Proof.
  apply (visible_range_of_descending_rows
           [ Fixtures.mail 1 "2024-01-15T10:00:00Z"; Fixtures.mail 2 "2024-01-14T15:30:00Z" ]
           (Fixtures.mail 1 "2024-01-15T10:00:00Z")
           (Fixtures.mail 2 "2024-01-14T15:30:00Z")).
  - reflexivity.
  - reflexivity.
  - repeat constructor.
  - repeat constructor.
Defined.

(** * The running application: what a step leaves alone *)

Section Frame.
Import ActivityTimelineTable App Notions.

Lemma flagsOnly_id : flagsOnly (fun st => st).
Proof. intros st. repeat split. Qed.

Lemma flagsOnly_begin c : flagsOnly (loadEvents_begin c).
Proof. intros st. unfold loadEvents_begin. destruct (append c); repeat split. Qed.

Lemma flagsOnly_compose f g : flagsOnly f -> flagsOnly g -> flagsOnly (fun st => g (f st)).
Proof.
  intros Hf Hg st. destruct (Hf st) as (?&?&?&?&?&?), (Hg (f st)) as (?&?&?&?&?&?).
  repeat split; congruence.
Qed.

Lemma flagsOnly_navigation date : flagsOnly (navigationEffect date).2.
Proof.
  unfold navigationEffect. destruct (truthy date); simpl;
    [apply flagsOnly_begin | apply flagsOnly_id].
Qed.

Lemma flagsOnly_scroll visible st : flagsOnly (scrollEffect visible st).2.
Proof.
  unfold scrollEffect.
  destruct (visible && hasNext st && negb (loading st) && negb (loadingMore st)); simpl;
    [apply flagsOnly_begin | apply flagsOnly_id].
Qed.

Lemma table_perform sys a : table (perform sys a) = table sys.
Proof. destruct a; reflexivity. Qed.

Lemma table_performAll acts sys : table (performAll acts sys) = table sys.
Proof.
  unfold performAll. revert sys.
  induction acts as [|a acts IH]; intros sys; simpl; [reflexivity|].
  rewrite IH. apply table_perform.
Qed.

(** The update the effects of a render queue on the table. *)
Lemma runEffects_table prev cur :
  exists f, flagsOnly f /\ table (runEffects prev cur).2 = f (table cur).
Proof.
  unfold runEffects. cbn [snd]. rewrite table_performAll. cbn [withTable table].
  exists (fun st =>
            (if scrollChanged prev cur
             then scrollEffect (inView cur) (table cur) else idle).2
              ((if navigationChanged prev cur
                then navigationEffect (Home.navigateToDate (home cur))
                else idle).2 st)).
  split; [|reflexivity].
  apply (flagsOnly_compose
           (if navigationChanged prev cur
            then navigationEffect (Home.navigateToDate (home cur)) else idle).2
           (if scrollChanged prev cur
            then scrollEffect (inView cur) (table cur) else idle).2).
  - destruct (navigationChanged prev cur); [apply flagsOnly_navigation | apply flagsOnly_id].
  - destruct (scrollChanged prev cur); [apply flagsOnly_scroll | apply flagsOnly_id].
Qed.

Lemma handle_table i sys : table (handle i sys).2 = handled i sys.
Proof.
  destruct i; simpl; try reflexivity.
  - destruct (inflight sys !! n); reflexivity.
  - destruct (inflight sys !! n); reflexivity.
  - destruct (view (table sys)); try reflexivity.
Qed.

Lemma step_table i sys :
  exists f, flagsOnly f /\ table (step i sys).2 = f (handled i sys).
Proof.
  unfold step. cbn [snd].
  destruct (runEffects_table sys (handle i sys).2) as (f & Hf & Heq).
  exists f. split; [exact Hf|]. rewrite Heq, handle_table. reflexivity.
Qed.

Lemma step_events i sys :
  st_events (table (step i sys).2) = st_events (handled i sys).
Proof.
  destruct (step_table i sys) as (f & Hf & ->). apply Hf.
Qed.

Lemma step_persons i sys :
  st_persons (table (step i sys).2) = st_persons (handled i sys).
Proof.
  destruct (step_table i sys) as (f & Hf & ->). apply Hf.
Qed.

Lemma step_error i sys :
  error (table (step i sys).2) = error (handled i sys).
Proof.
  destruct (step_table i sys) as (f & Hf & ->). apply Hf.
Qed.

End Frame.

(** * Person lookup *)

Section Persons.
Import ActivityTimelineTable App Notions.

Lemma handled_persons_grow i sys key :
  is_Some (st_persons (table sys) !! key) ->
  is_Some (st_persons (handled i sys) !! key).
Proof.
  intros Hkey. destruct i; simpl; try exact Hkey.
  - destruct (inflight sys !! n); [|exact Hkey]. simpl.
    apply lookup_union_is_Some. right. exact Hkey.
  - destruct (inflight sys !! n); exact Hkey.
  - destruct (view (table sys)); exact Hkey.
Qed.

Lemma after_persons_grow inputs sys key :
  is_Some (st_persons (table sys) !! key) ->
  is_Some (st_persons (table (after inputs sys)) !! key).
Proof.
  revert sys. induction inputs as [|i inputs IH]; intros sys Hkey; [exact Hkey|].
  unfold after in *. cbn [run snd]. apply IH.
  rewrite step_persons. apply handled_persons_grow, Hkey.
Qed.

(** C9.  A fetch that is fulfilled, whatever its mode, leaves every
    person of its page and every person known before resolvable, and so
    does everything that happens afterwards, navigation included. *)
Theorem persons_grow_monotonically sys (n : nat) c response inputs key :
  inflight sys !! n = Some c ->
  is_Some (persons response !! key) \/ is_Some (st_persons (table sys) !! key) ->
  is_Some (st_persons (table (after (Fulfil n response :: inputs) sys)) !! key).
Proof.
  intros Hc Hkey. unfold after. cbn [run snd].
  apply after_persons_grow. rewrite step_persons. simpl. rewrite Hc. simpl.
  apply lookup_union_is_Some. exact Hkey.
Qed.

End Persons.

Lemma persons_grow_monotonically_witness :
  is_Some (ActivityTimelineTable.st_persons
             (App.table
                (App.after
                   [ App.Fulfil 0 Fixtures.page1; App.DateClick "2024-01-10";
                     App.Fulfil 0 Fixtures.navigationPage ]
                   App.mounted.2)) !! "person1").
Proof.
  apply (persons_grow_monotonically App.mounted.2 0
           ActivityTimelineTable.firstPage Fixtures.page1
           [ App.DateClick "2024-01-10"; App.Fulfil 0 Fixtures.navigationPage ]
           "person1").
  - reflexivity.
  - left. exists Fixtures.john. reflexivity.
Defined.

(** * Failure and retry *)

Section Failure.
Import ActivityTimelineTable App Notions.

Lemma navigationChanged_same prev cur :
  home cur = home prev -> navigationChanged prev cur = false.
Proof. intros H. unfold navigationChanged. rewrite H, String.eqb_refl. reflexivity. Qed.

Lemma eventsChanged_same prev cur :
  events_ref (table cur) = events_ref (table prev) -> eventsChanged prev cur = false.
Proof. intros H. unfold eventsChanged. rewrite H, Nat.eqb_refl. reflexivity. Qed.

(** The scroll effect does nothing in a render in which the table is
    loading its first page or a replacement. *)
Lemma scrollEffect_loading visible st :
  loading st = true -> scrollEffect visible st = idle.
Proof.
  intros H. unfold scrollEffect. rewrite H.
  rewrite andb_false_r. reflexivity.
Qed.

Lemma scrollEffect_loading_flag visible st st' :
  loading ((scrollEffect visible st).2 st') = loading st'.
Proof.
  unfold scrollEffect.
  destruct (visible && hasNext st && negb (loading st) && negb (loadingMore st));
    reflexivity.
Qed.

Lemma scrollEffect_actions visible st :
  forall a, a ∈ (scrollEffect visible st).1 ->
            exists c, a = FetchActivityEvents c /\ targetDate c = None /\ append c = true.
Proof.
  intros a. unfold scrollEffect.
  destruct (visible && hasNext st && negb (loading st) && negb (loadingMore st)); simpl.
  - intros ->%list_elem_of_singleton. eexists. repeat split.
  - intros []%elem_of_nil.
Qed.

(** C3 (as the code has it).  When a fetch fails the error message is
    stored and the loaded rows stay as they were.  A message that is not
    empty is shown in the error view, and the retry button there requests
    the first page again, whatever the failed request was; with an empty
    message the table stays in view and there is no retry to click. *)
Theorem failure_keeps_rows_and_retry_reloads_first_page
    sys (n : nat) c err :
  inflight sys !! n = Some c ->
  let failed := (step (Reject n err) sys).2 in
  error (table failed) = Some (errorMessage err)
  /\ st_events (table failed) = st_events (table sys)
  /\ view (table failed)
     = (if truthy (errorMessage err) then ErrorView else TableView)
  /\ fetches (step RetryClick failed).1
     = (if truthy (errorMessage err) then [firstPage] else []).
Proof.
  intros Hc failed.
  assert (error (table failed) = Some (errorMessage err)) as Herr.
  { unfold failed. rewrite step_error. simpl. rewrite Hc. reflexivity. }
  assert (loading (table failed) = false) as Hloading.
  { unfold failed, step, runEffects. cbn [snd fst]. rewrite table_performAll.
    cbn [withTable table]. unfold handle. rewrite Hc. cbn [snd].
    rewrite navigationChanged_same by reflexivity. cbn [idle snd].
    destruct (scrollChanged _ _); [rewrite scrollEffect_loading_flag|]; reflexivity. }
  assert (view (table failed)
          = (if truthy (errorMessage err) then ErrorView else TableView)) as Hview.
  { unfold view. rewrite Hloading, Herr. reflexivity. }
  split; [exact Herr|]. split; [|split; [exact Hview|]].
  - unfold failed. rewrite step_events. simpl. rewrite Hc. reflexivity.
  - unfold step, handle. rewrite Hview.
    destruct (truthy (errorMessage err)).
    + cbn [fst snd retryClick]. unfold runEffects. cbn [fst].
      rewrite navigationChanged_same by reflexivity.
      rewrite eventsChanged_same by (rewrite table_performAll; reflexivity).
      rewrite scrollEffect_loading by (rewrite table_performAll; reflexivity).
      destruct (scrollChanged _ _); reflexivity.
    + cbn [fst snd]. unfold runEffects. cbn [fst].
      rewrite navigationChanged_same by reflexivity.
      rewrite eventsChanged_same by reflexivity.
      replace (scrollChanged failed failed) with false; [reflexivity|].
      unfold scrollChanged.
      rewrite !Bool.eqb_reflx, Z.eqb_refl. reflexivity.
Qed.

End Failure.

(** * Range emissions *)

Section RangeEmission.
Import ActivityTimelineTable App Notions.

Lemma visibleRangeEffect_head_last evs :
  visibleRangeEffect evs
  = match head evs, last evs with
    | Some newest, Some oldest =>
        [OnVisibleRangeChange (splitT0 (timestamp oldest)) (splitT0 (timestamp newest))]
    | _, _ => []
    end.
Proof.
  unfold visibleRangeEffect, lastEvent. rewrite last_lookup, head_lookup.
  destruct evs as [|e evs]; [reflexivity|].
  cbn [length Nat.pred]. replace (S (length evs) - 1)%nat with (length evs) by lia.
  reflexivity.
Qed.


End RangeEmission.

(** * Navigation *)

Section Navigation.
Import ActivityTimelineTable App Notions.

Lemma scrollChanged_same prev cur :
  inView cur = inView prev -> table cur = table prev ->
  scrollChanged prev cur = false.
Proof.
  intros Hv Ht. unfold scrollChanged. rewrite Hv, Ht.
  rewrite !Bool.eqb_reflx, Z.eqb_refl. reflexivity.
Qed.

Lemma navigationChanged_click sys date :
  Home.navigateToDate (home sys) = "" -> truthy date = true ->
  navigationChanged sys (withHome (Home.handleDateClick date) sys) = true.
Proof.
  intros Hnav Hdate. unfold navigationChanged.
  cbn [withHome home Home.handleDateClick Home.navigateToDate].
  rewrite Hnav, String.eqb_sym. exact Hdate.
Qed.

Lemma click_step sys date :
  truthy date = true ->
  Home.navigateToDate (home sys) = "" ->
  (step (DateClick date) sys).1
  = [FetchActivityEvents (navigationCall date); OnNavigationComplete]
  /\ Home.navigateToDate (home (step (DateClick date) sys).2) = ""
  /\ inflight (step (DateClick date) sys).2 = inflight sys ++ [navigationCall date]
  /\ table (step (DateClick date) sys).2
     = loadEvents_begin (navigationCall date) (table sys)
  /\ inView (step (DateClick date) sys).2 = inView sys.
Proof.
  intros Hdate Hnav. unfold step, handle, runEffects. cbn [fst snd app].
  rewrite navigationChanged_click by assumption.
  rewrite scrollChanged_same by reflexivity.
  rewrite eventsChanged_same by reflexivity.
  cbn [withHome home Home.handleDateClick Home.navigateToDate].
  unfold navigationEffect. rewrite Hdate. cbn [fst snd idle app].
  repeat split.
Qed.

(** C7 (what the code does on a click).  The click is forwarded to
    [loadEvents] once, and in the same step [onNavigationComplete] clears
    the request: the fetch is still in flight and the rows are those from
    before the click. *)
Theorem navigation_request_cleared_while_in_flight sys date :
  truthy date = true ->
  Home.navigateToDate (home sys) = "" ->
  let r := step (DateClick date) sys in
  r.1 = [FetchActivityEvents (navigationCall date); OnNavigationComplete]
  /\ Home.navigateToDate (home r.2) = ""
  /\ inflight r.2 = inflight sys ++ [navigationCall date]
  /\ st_events (table r.2) = st_events (table sys).
Proof.
  intros Hdate Hnav r.
  destruct (click_step sys date Hdate Hnav) as (Hacts & Hcleared & Hflight & Htable & _).
  repeat split; try assumption.
  unfold r. rewrite Htable. apply flagsOnly_begin.
Qed.

(** Between clicks the page holds no navigation request. *)
Lemma navigation_request_stays_cleared i sys :
  Home.navigateToDate (home sys) = "" ->
  Home.navigateToDate (home (step i sys).2) = "".
Proof.
  intros Hnav.
  assert (forall acts s, Home.navigateToDate (home s) = "" ->
                         Home.navigateToDate (home (performAll acts s)) = "") as Hperform.
  { unfold performAll. induction acts as [|a acts IH]; intros s Hs; [exact Hs|].
    simpl. apply IH. destruct a; simpl; auto. }
  destruct i.
  - destruct (truthy date) eqn:Hdate.
    + apply (click_step sys date Hdate Hnav).
    + unfold truthy in Hdate. apply negb_false_iff, String.eqb_eq in Hdate. subst date.
      unfold step, handle, runEffects. cbn [fst snd]. apply Hperform.
      simpl. reflexivity.
  - unfold step, runEffects. cbn [fst snd]. apply Hperform. exact Hnav.
  - unfold step, runEffects. cbn [fst snd]. apply Hperform. simpl.
    destruct (inflight sys !! n); exact Hnav.
  - unfold step, runEffects. cbn [fst snd]. apply Hperform. simpl.
    destruct (inflight sys !! n); exact Hnav.
  - unfold step, runEffects. cbn [fst snd]. apply Hperform. simpl.
    destruct (view (table sys)); try exact Hnav.
Qed.

(** Nothing but a click makes the table fetch for a date: a fetch that
    settles, an observer report or a retry never repeats a navigation. *)
Lemma dated_fetch_only_on_click i sys c :
  Home.navigateToDate (home sys) = "" ->
  c ∈ fetches (step i sys).1 ->
  is_Some (targetDate c) ->
  exists date, i = DateClick date /\ c = navigationCall date.
Proof.
  intros Hnav Hin [d Hd].
  assert (forall prev cur,
             home cur = home prev ->
             forall c', c' ∈ fetches (runEffects prev cur).1 -> targetDate c' = None)
    as Heffects.
  { intros prev cur Hhome c'. unfold runEffects. cbn [fst].
    rewrite navigationChanged_same by exact Hhome. cbn [idle fst app].
    unfold fetches. rewrite omap_app. rewrite elem_of_app. intros [H|H].
    - apply list_elem_of_omap in H as (a & Ha & Hc').
      destruct (scrollChanged prev cur); [|apply elem_of_nil in Ha; contradiction].
      apply scrollEffect_actions in Ha as (c'' & -> & Hnone & _).
      injection Hc' as <-. exact Hnone.
    - apply list_elem_of_omap in H as (a & Ha & Hc').
      destruct (eventsChanged prev cur); [|apply elem_of_nil in Ha; contradiction].
      rewrite visibleRangeEffect_head_last in Ha.
      destruct (head _); [destruct (last _)|];
        try (apply elem_of_nil in Ha; contradiction).
      apply list_elem_of_singleton in Ha as ->. discriminate Hc'. }
  destruct i.
  - destruct (truthy date) eqn:Hdate.
    + destruct (click_step sys date Hdate Hnav) as (Hacts & _).
      rewrite Hacts in Hin. simpl in Hin.
      apply list_elem_of_singleton in Hin as ->. eauto.
    + unfold truthy in Hdate. apply negb_false_iff, String.eqb_eq in Hdate. subst date.
      unfold step in Hin. cbn [handle fst snd app] in Hin.
      apply Heffects in Hin; [congruence|]. cbn [withHome home].
      clear Hin. revert Hnav. destruct (home sys) as [vs ve nav]. simpl.
      intros ->. reflexivity.
  - unfold step in Hin. cbn [handle fst snd app] in Hin.
    apply Heffects in Hin; [congruence | reflexivity].
  - unfold step, handle in Hin. destruct (inflight sys !! n);
      cbn [fst snd app] in Hin; apply Heffects in Hin; congruence || reflexivity.
  - unfold step, handle in Hin. destruct (inflight sys !! n);
      cbn [fst snd app] in Hin; apply Heffects in Hin; congruence || reflexivity.
  - unfold step, handle in Hin. destruct (view (table sys));
      cbn [fst snd retryClick] in Hin.
    + cbn [app] in Hin. apply Heffects in Hin; congruence || reflexivity.
    + unfold fetches in Hin. rewrite omap_app, elem_of_app in Hin.
      destruct Hin as [Hin|Hin].
      * simpl in Hin. apply list_elem_of_singleton in Hin as ->. discriminate Hd.
      * apply Heffects in Hin; [congruence|]. reflexivity.
    + cbn [app] in Hin. apply Heffects in Hin; congruence || reflexivity.
Qed.

End Navigation.

(** * Load more against navigation *)

Section Race.
Import ActivityTimelineTable App Notions.

Lemma inflight_performAll acts sys :
  inflight (performAll acts sys) = inflight sys ++ fetches acts.
Proof.
  unfold performAll. revert sys.
  induction acts as [|a acts IH]; intros sys; simpl; [symmetry; apply app_nil_r|].
  rewrite IH. destruct a; simpl; [|reflexivity..].
  rewrite <- app_assoc. reflexivity.
Qed.

(** A fetch that settles leaves the others in flight, in their order, in
    front of the fetches the effects add. *)
Lemma step_settle_inflight i sys (n : nat) c :
  (exists response, i = Fulfil n response) \/ (exists err, i = Reject n err) ->
  inflight sys !! n = Some c ->
  exists added, inflight (step i sys).2 = delete n (inflight sys) ++ added.
Proof.
  intros Hi Hc. exists (fetches (runEffects sys (handle i sys).2).1).
  unfold step. cbn [snd]. unfold runEffects at 1. cbn [snd].
  rewrite inflight_performAll. f_equal.
  destruct Hi as [[response ->] | [err ->]]; simpl; rewrite Hc; reflexivity.
Qed.

Lemma intersect_step sys :
  inView sys = false -> hasNext (table sys) = true ->
  loading (table sys) = false -> loadingMore (table sys) = false ->
  inflight (step (Intersect true) sys).2 = inflight sys ++ [loadMoreCall (table sys)]
  /\ home (step (Intersect true) sys).2 = home sys
  /\ table (step (Intersect true) sys).2
     = loadEvents_begin (loadMoreCall (table sys)) (table sys).
Proof.
  intros Hview Hnext Hloading Hmore.
  unfold step, handle, runEffects. cbn [fst snd app].
  rewrite navigationChanged_same by reflexivity.
  rewrite eventsChanged_same by reflexivity.
  replace (scrollChanged sys _) with true
    by (unfold scrollChanged; simpl; rewrite Hview; reflexivity).
  unfold scrollEffect. cbn [inView table]. rewrite Hnext, Hloading, Hmore.
  cbn [andb negb fst snd idle app]. repeat split.
Qed.

(** With a load-more fetch and a navigation fetch both in flight, each
    response is applied when it arrives.  If the load-more page arrives
    first, the navigation replaces it and the rows, right after the second
    response, are the navigation's result; if it arrives last, its rows
    are appended to the navigation's result. *)
Lemma late_load_more_is_appended sys date more nav :
  inflight sys = [] ->
  inView sys = false ->
  Home.navigateToDate (home sys) = "" ->
  hasNext (table sys) = true ->
  loading (table sys) = false ->
  loadingMore (table sys) = false ->
  truthy date = true ->
  let racing := after [Intersect true; DateClick date] sys in
  inflight racing = [loadMoreCall (table sys); navigationCall date]
  /\ st_events (table (after [Fulfil 0 more; Fulfil 0 nav] racing)) = events nav
  /\ st_events (table (after [Fulfil 1 nav; Fulfil 0 more] racing))
     = events nav ++ events more.
Proof.
  intros Hflight Hview Hnav Hnext Hloading Hmore Hdate racing.
  destruct (intersect_step sys Hview Hnext Hloading Hmore) as (Hf1 & Hh1 & _).
  assert (inflight racing = [loadMoreCall (table sys); navigationCall date]) as Hracing.
  { unfold racing, after. cbn [run snd].
    destruct (click_step (step (Intersect true) sys).2 date Hdate) as (_ & _ & Hf2 & _).
    - rewrite Hh1. exact Hnav.
    - rewrite Hf2, Hf1, Hflight. reflexivity. }
  split; [exact Hracing|]. split.
  - unfold after. cbn [run snd]. rewrite step_events.
    destruct (step_settle_inflight (Fulfil 0 more) racing 0 (loadMoreCall (table sys)))
      as (added & Hadded); [eauto | rewrite Hracing; reflexivity |].
    cbn [handled]. rewrite Hadded, Hracing. reflexivity.
  - unfold after. cbn [run snd]. rewrite step_events.
    destruct (step_settle_inflight (Fulfil 1 nav) racing 1 (navigationCall date))
      as (added & Hadded); [eauto | rewrite Hracing; reflexivity |].
    cbn [handled]. rewrite Hadded, Hracing. cbn [delete list_delete app lookup list_lookup].
    cbn [loadEvents_fulfilled st_events loadMoreCall append].
    rewrite step_events. cbn [handled]. rewrite Hracing. reflexivity.
Qed.

End Race.

(** * One round of effects is enough *)

Section Quiescence.
Import ActivityTimelineTable App Notions.

Lemma withTable_id sys : withTable (fun st => st) sys = sys.
Proof. destruct sys. reflexivity. Qed.

Lemma home_performAll_navigation acts sys :
  Home.navigateToDate (home (performAll acts sys)) = ""
  \/ Home.navigateToDate (home (performAll acts sys))
     = Home.navigateToDate (home sys).
Proof.
  unfold performAll. revert sys.
  induction acts as [|a acts IH]; intros sys; [right; reflexivity|].
  simpl. destruct (IH (perform sys a)) as [H|H]; [left; exact H|].
  rewrite H. destruct a; simpl; auto.
Qed.

Lemma inView_performAll acts sys : inView (performAll acts sys) = inView sys.
Proof.
  unfold performAll. revert sys.
  induction acts as [|a acts IH]; intros sys; [reflexivity|].
  simpl. rewrite IH. destruct a; reflexivity.
Qed.

(** X25.  The effects that run after a render leave a state in which no effect
    has anything left to do: rendering once more changes nothing. *)
Lemma effects_settle prev cur :
  runEffects cur (runEffects prev cur).2 = ([], (runEffects prev cur).2).
Proof.
  set (next := (runEffects prev cur).2).
  assert (navigationChanged cur next = true ->
          Home.navigateToDate (home next) = "") as Hnav.
  { unfold next, runEffects. cbn [snd]. intros Hchanged.
    match goal with |- context [home (performAll ?acts ?s)] =>
      destruct (home_performAll_navigation acts s) as [H|H] end; [exact H|].
    unfold navigationChanged in Hchanged at 1. rewrite H in Hchanged.
    cbn [withTable home] in Hchanged. rewrite String.eqb_refl in Hchanged.
    discriminate Hchanged. }
  assert (scrollChanged cur next = true ->
          loading (table next) = true \/ loadingMore (table next) = true) as Hscroll.
  { unfold scrollChanged, next, runEffects. cbn [snd].
    rewrite inView_performAll, table_performAll. cbn [withTable table inView].
    rewrite Bool.eqb_reflx.
    destruct (navigationChanged prev cur), (scrollChanged prev cur);
      unfold navigationEffect, scrollEffect, idle;
      repeat match goal with
             | |- context [if ?b then _ else _] => destruct b eqn:?
             end;
      cbn; rewrite ?Bool.eqb_reflx, ?Z.eqb_refl; cbn; auto; try discriminate.
  }
  assert (eventsChanged cur next = false) as Hevents.
  { apply eventsChanged_same. unfold next, runEffects. cbn [snd].
    rewrite table_performAll. cbn [withTable table].
    match goal with |- events_ref (?g (?f ?st)) = _ =>
      assert (flagsOnly f /\ flagsOnly g) as [Hf Hg] end.
    { split.
      - destruct (navigationChanged prev cur); [apply flagsOnly_navigation | apply flagsOnly_id].
      - destruct (scrollChanged prev cur); [apply flagsOnly_scroll | apply flagsOnly_id]. }
    destruct (flagsOnly_compose _ _ Hf Hg (table cur)) as (_ & Href & _). exact Href. }
  unfold runEffects at 1. rewrite Hevents.
  assert ((if navigationChanged cur next
           then navigationEffect (Home.navigateToDate (home next)) else idle) = idle) as ->.
  { destruct (navigationChanged cur next); [|reflexivity]. rewrite Hnav by reflexivity. reflexivity. }
  assert ((if scrollChanged cur next
           then scrollEffect (inView next) (table next) else idle) = idle) as ->.
  { destruct (scrollChanged cur next); [|reflexivity].
    unfold scrollEffect. destruct Hscroll as [-> | ->]; [reflexivity| |];
      rewrite ?andb_false_r; reflexivity. }
  cbn [idle fst snd app]. unfold performAll. cbn [foldl].
  rewrite withTable_id. reflexivity.
Qed.

End Quiescence.

(** * The scenarios, run *)

(** The same race with a second page that has a third one behind it: the
    rows right after the two responses are the navigation's event followed
    by the two events of the second page. *)
Lemma stale_load_more_appended_after_navigation :
  App.inflight Fixtures.racing
  = [ {| ActivityTimelineTable.page := 2;
         ActivityTimelineTable.targetDate := None;
         ActivityTimelineTable.append := true |};
      {| ActivityTimelineTable.page := 1;
         ActivityTimelineTable.targetDate := Some "2024-01-10";
         ActivityTimelineTable.append := false |} ]
  /\ ActivityTimelineTable.st_events
       (App.table
          (App.after [App.Fulfil 1 Fixtures.navigationPage; App.Fulfil 0 Fixtures.page2]
             Fixtures.racing))
     = [ Fixtures.mail 5 "2024-01-10T12:00:00Z";
         Fixtures.mail 3 "2024-01-13T08:00:00Z";
         Fixtures.mail 4 "2024-01-12T08:00:00Z" ]
  /\ ActivityTimelineTable.st_events
       (App.table
          (App.after [App.Fulfil 1 Fixtures.navigationPage; App.Fulfil 0 Fixtures.page2]
             Fixtures.racing))
     <> events Fixtures.navigationPage.
Proof.
  split; [reflexivity|]. split; [reflexivity|].
  intros H. vm_compute in H. discriminate H.
Qed.

(** C1.  The second page is requested, a click then navigates to
    2024-01-10; the navigation's page arrives first and the second page,
    the last of its feed, after it.  No fetch is left in flight, and the
    rows are the navigation's event followed by the two events of the
    stale page, not the navigation's result.  They are not in descending
    order, and the range the page holds starts after it ends. *)
Theorem stale_page_lands_after_the_navigation :
  App.inflight Fixtures.racing
  = [ {| ActivityTimelineTable.page := 2;
         ActivityTimelineTable.targetDate := None;
         ActivityTimelineTable.append := true |};
      {| ActivityTimelineTable.page := 1;
         ActivityTimelineTable.targetDate := Some "2024-01-10";
         ActivityTimelineTable.append := false |} ]
  /\ App.inflight Scenarios.raced = []
  /\ ActivityTimelineTable.st_events (App.table Scenarios.raced)
     = [ Fixtures.mail 5 "2024-01-10T12:00:00Z";
         Fixtures.mail 3 "2024-01-13T08:00:00Z";
         Fixtures.mail 4 "2024-01-12T08:00:00Z" ]
  /\ ActivityTimelineTable.st_events (App.table Scenarios.raced)
     <> events Fixtures.navigationPage
  /\ ~ Notions.strictlyDescending
         (ActivityTimelineTable.st_events (App.table Scenarios.raced))
  /\ Vocabulary.homeRange Scenarios.raced = ("2024-01-12", "2024-01-10").
Proof.
  split; [reflexivity|]. split; [reflexivity|]. split; [reflexivity|].
  split; [|split].
  - intros H. vm_compute in H. discriminate H.
  - intros H. vm_compute in H.
    apply Sorted_inv in H as [_ H]. apply HdRel_inv in H.
    vm_compute in H. discriminate H.
  - reflexivity.
Qed.

Lemma late_load_more_is_appended_witness :
  App.inflight Fixtures.racing
  = [ Notions.loadMoreCall (App.table Fixtures.ready);
      Notions.navigationCall "2024-01-10" ]
  /\ ActivityTimelineTable.st_events
       (App.table
          (App.after [App.Fulfil 0 Fixtures.page2; App.Fulfil 0 Fixtures.navigationPage]
             Fixtures.racing))
     = events Fixtures.navigationPage
  /\ ActivityTimelineTable.st_events
       (App.table
          (App.after [App.Fulfil 1 Fixtures.navigationPage; App.Fulfil 0 Fixtures.page2]
             Fixtures.racing))
     = events Fixtures.navigationPage ++ events Fixtures.page2.
Proof.
  apply (late_load_more_is_appended Fixtures.ready "2024-01-10"
           Fixtures.page2 Fixtures.navigationPage); reflexivity.
Defined.

(** C3, counterexample.  The navigation to 2024-01-10 fails.  The rows of
    the first page stay and the error is shown; the retry button then
    requests page 1 without a date, which is not the request that failed. *)
Lemma retry_after_failed_navigation :
  App.inflight Fixtures.navigating = [Notions.navigationCall "2024-01-10"]
  /\ ActivityTimelineTable.view
       (App.table
          (App.step (App.Reject 0 (ActivityTimelineTable.ErrorInstance "Network error"))
             Fixtures.navigating).2)
     = ActivityTimelineTable.ErrorView
  /\ App.fetches
       (App.step App.RetryClick
          (App.step (App.Reject 0 (ActivityTimelineTable.ErrorInstance "Network error"))
             Fixtures.navigating).2).1
     = [ {| ActivityTimelineTable.page := 1;
            ActivityTimelineTable.targetDate := None;
            ActivityTimelineTable.append := false |} ]
  /\ ActivityTimelineTable.fetchArguments
       {| ActivityTimelineTable.page := 1;
          ActivityTimelineTable.targetDate := None;
          ActivityTimelineTable.append := false |}
     <> ActivityTimelineTable.fetchArguments (Notions.navigationCall "2024-01-10").
Proof.
  split; [reflexivity|]. split; [reflexivity|]. split; [reflexivity|]. discriminate.
Qed.

Lemma failure_keeps_rows_and_retry_reloads_first_page_witness :
  (ActivityTimelineTable.error
     (App.table
        (App.step (App.Reject 0 (ActivityTimelineTable.ErrorInstance "Network error"))
           Fixtures.navigating).2)
   = Some "Network error"
   /\ ActivityTimelineTable.st_events
        (App.table
           (App.step (App.Reject 0 (ActivityTimelineTable.ErrorInstance "Network error"))
              Fixtures.navigating).2)
      = ActivityTimelineTable.st_events (App.table Fixtures.navigating)
   /\ ActivityTimelineTable.view
        (App.table
           (App.step (App.Reject 0 (ActivityTimelineTable.ErrorInstance "Network error"))
              Fixtures.navigating).2)
      = ActivityTimelineTable.ErrorView
   /\ App.fetches
        (App.step App.RetryClick
           (App.step (App.Reject 0 (ActivityTimelineTable.ErrorInstance "Network error"))
              Fixtures.navigating).2).1
      = [ActivityTimelineTable.firstPage])
  /\ (ActivityTimelineTable.error
        (App.table
           (App.step (App.Reject 0 (ActivityTimelineTable.ErrorInstance ""))
              Fixtures.navigating).2)
      = Some ""
      /\ ActivityTimelineTable.st_events
           (App.table
              (App.step (App.Reject 0 (ActivityTimelineTable.ErrorInstance ""))
                 Fixtures.navigating).2)
         = ActivityTimelineTable.st_events (App.table Fixtures.navigating)
      /\ ActivityTimelineTable.view
           (App.table
              (App.step (App.Reject 0 (ActivityTimelineTable.ErrorInstance ""))
                 Fixtures.navigating).2)
         = ActivityTimelineTable.TableView
      /\ App.fetches
           (App.step App.RetryClick
              (App.step (App.Reject 0 (ActivityTimelineTable.ErrorInstance ""))
                 Fixtures.navigating).2).1
         = []).
Proof.
  split.
  - apply (failure_keeps_rows_and_retry_reloads_first_page Fixtures.navigating 0
             (Notions.navigationCall "2024-01-10")
             (ActivityTimelineTable.ErrorInstance "Network error")); reflexivity.
  - apply (failure_keeps_rows_and_retry_reloads_first_page Fixtures.navigating 0
             (Notions.navigationCall "2024-01-10")
             (ActivityTimelineTable.ErrorInstance "")); reflexivity.
Defined.

Lemma navigation_request_cleared_while_in_flight_witness :
  (App.step (App.DateClick "2024-01-10") Fixtures.ready).1
  = [ ActivityTimelineTable.FetchActivityEvents (Notions.navigationCall "2024-01-10");
      ActivityTimelineTable.OnNavigationComplete ]
  /\ Home.navigateToDate (App.home (App.step (App.DateClick "2024-01-10") Fixtures.ready).2) = ""
  /\ App.inflight (App.step (App.DateClick "2024-01-10") Fixtures.ready).2
     = App.inflight Fixtures.ready ++ [Notions.navigationCall "2024-01-10"]
  /\ ActivityTimelineTable.st_events
       (App.table (App.step (App.DateClick "2024-01-10") Fixtures.ready).2)
     = ActivityTimelineTable.st_events (App.table Fixtures.ready).
Proof.
  apply (navigation_request_cleared_while_in_flight Fixtures.ready "2024-01-10");
    reflexivity.
Defined.



(** The scenario of the table test for the visible range: the first page
    arrives and the range of its two rows is reported. *)
Example first_page_reports_its_range :
  (App.step (App.Fulfil 0 Fixtures.page1) App.mounted.2).1
  = [ActivityTimelineTable.OnVisibleRangeChange "2024-01-14" "2024-01-15"].
Proof. reflexivity. Qed.

(** With the stale page appended the rows are no longer in descending order,
    and the reported range starts after it ends. *)
Example stale_append_reverses_the_range :
  App.rangeEmissions
    (App.step (App.Fulfil 0 Fixtures.page2)
       (App.step (App.Fulfil 1 Fixtures.navigationPage) Fixtures.racing).2).1
  = [("2024-01-12", "2024-01-10")].
Proof. reflexivity. Qed.

(** * Marker projection, continued *)

Section MarkerGeometry.
Import ActivityMinimap Notions Vocabulary.

Context (clientWidth : option Z).

Lemma interpolation_as_fraction (a b c p : Z) :
  0 < b ->
  (inject_Z a / inject_Z b * inject_Z c + inject_Z p
   == Qmake (a * c + p * b) (Z.to_pos b))%Q.
Proof.
  intros Hb. destruct b as [|b|b]; try lia.
  unfold Qeq, Qdiv, Qinv, Qmult, Qplus, inject_Z. simpl. lia.
Qed.

Lemma position_at_first_index chartData tp (index : nat) :
  firstIndex chartData (touch_date tp) index ->
  (2 <= length chartData)%nat ->
  position clientWidth chartData tp
  = (inject_Z (Z.of_nat index) / inject_Z (Z.of_nat (length chartData) - 1)
     * inject_Z (availableWidth clientWidth) + inject_Z padding)%Q.
Proof.
  intros [Hidx Hfirst] Hlen. unfold axis in *. unfold position.
  rewrite map_lookup in Hidx.
  destruct (chartData !! index) as [d|] eqn:Hd; [|discriminate].
  injection Hidx as Hdate. unfold findIndex.
  rewrite (findIndex_from_first _ chartData 0 index d Hd).
  - replace (0 <=? 0 + Z.of_nat index) with true by (symmetry; apply Z.leb_le; lia).
    replace (1 <? Z.of_nat (length chartData)) with true by (symmetry; apply Z.ltb_lt; lia).
    cbn [andb]. rewrite Z.add_0_l. reflexivity.
  - apply String.eqb_eq. exact Hdate.
  - intros j d' Hj Hd'. apply String.eqb_neq. intros Heq.
    apply (Hfirst j Hj). rewrite map_lookup, Hd'. simpl. congruence.
Qed.

Lemma firstIndex_bound chartData date index :
  firstIndex chartData date index -> (index < length chartData)%nat.
Proof.
  intros [Hidx _]. apply lookup_lt_Some in Hidx.
  unfold axis in Hidx. rewrite length_map in Hidx. exact Hidx.
Qed.

(** A date of the axis has a first position on it. *)
Lemma firstIndex_exists chartData date :
  date ∈ axis chartData -> exists index, firstIndex chartData date index.
Proof.
  unfold firstIndex. generalize (axis chartData) as l. intros l.
  induction l as [|d l IH]; intros Hin; [apply elem_of_nil in Hin; contradiction|].
  destruct (decide (d = date)) as [->|Hne].
  - exists 0%nat. split; [reflexivity|]. intros j Hj. lia.
  - apply elem_of_cons in Hin as [Heq|Hin]; [congruence|].
    destruct (IH Hin) as (index & Hidx & Hfirst).
    exists (S index). split; [exact Hidx|].
    intros [|j] Hj; simpl; [congruence|]. apply Hfirst. lia.
Qed.

Lemma marker_lookup_inv chartData firstTouchpoints (k : nat) m :
  touchpointMarkers clientWidth chartData firstTouchpoints !! k = Some m ->
  chartData <> []
  /\ firstTouchpoints !! k = Some (touchpoint m)
  /\ x m = position clientWidth chartData (touchpoint m).
Proof.
  unfold touchpointMarkers. destruct chartData as [|d ds]; [discriminate|].
  cbn [length]. destruct (Z.eqb_spec (Z.of_nat (S (length ds))) 0); [lia|].
  rewrite map_lookup. destruct (firstTouchpoints !! k) as [tp|]; [|discriminate].
  simpl. intros [= <-]. repeat split. congruence.
Qed.

(** What the memo body computes for a width of at least the two margins:
    a marker is unplaced, at 0, when its date is not on the axis or the
    axis has a single date; otherwise it lies between the margins. *)
Lemma position_unplaced_or_within_margins
    chartData firstTouchpoints (k : nat) m :
  120 <= chartWidth clientWidth ->
  touchpointMarkers clientWidth chartData firstTouchpoints !! k = Some m ->
  (x m = 0%Q
   /\ (touch_date (touchpoint m) ∉ axis chartData \/ length chartData = 1%nat))
  \/ (in_axis_domain clientWidth (x m)
      /\ touch_date (touchpoint m) ∈ axis chartData
      /\ (2 <= length chartData)%nat).
Proof.
  intros Hwide Hm.
  destruct (marker_lookup_inv _ _ _ _ Hm) as (Hne & _ & Hx).
  destruct (decide (touch_date (touchpoint m) ∈ axis chartData)) as [Hin|Hout].
  - destruct (decide (length chartData = 1%nat)) as [Hone|Hmore].
    + left. split; [|right; exact Hone]. rewrite Hx. unfold position.
      rewrite Hone. cbn. rewrite andb_false_r. reflexivity.
    + right. assert (2 <= length chartData)%nat as Hlen.
      { destruct chartData as [|? [|? ?]]; simpl in *; congruence || lia. }
      split; [|split; assumption].
      destruct (firstIndex_exists _ _ Hin) as (index & Hfirst).
      pose proof (firstIndex_bound _ _ _ Hfirst) as Hbound.
      rewrite Hx, (position_at_first_index _ _ index Hfirst Hlen).
      unfold in_axis_domain, availableWidth.
      rewrite interpolation_as_fraction by lia.
      unfold padding in *. unfold Qle, inject_Z. cbn [Qnum Qden].
      rewrite Z2Pos.id by lia. split; nia.
  - left. split; [|left; exact Hout]. rewrite Hx. unfold position.
    rewrite absent_findIndex by exact Hout. reflexivity.
Qed.

(** The first date of the axis is placed on the left margin and the last
    one, if it does not occur before, on the right margin. *)
Lemma position_of_first_date chartData tp :
  (2 <= length chartData)%nat ->
  firstIndex chartData (touch_date tp) 0 ->
  (position clientWidth chartData tp == inject_Z padding)%Q.
Proof.
  intros Hlen Hfirst.
  rewrite (position_at_first_index _ _ 0 Hfirst Hlen).
  rewrite interpolation_as_fraction by lia.
  unfold availableWidth, padding, Qeq, inject_Z. cbn [Qnum Qden].
  rewrite Z2Pos.id by lia. lia.
Qed.

Lemma position_of_last_date chartData tp :
  (2 <= length chartData)%nat ->
  firstIndex chartData (touch_date tp) (length chartData - 1) ->
  (position clientWidth chartData tp
   == inject_Z (chartWidth clientWidth - padding))%Q.
Proof.
  intros Hlen Hfirst.
  rewrite (position_at_first_index _ _ _ Hfirst Hlen).
  rewrite interpolation_as_fraction by lia.
  unfold availableWidth, padding, Qeq, inject_Z. cbn [Qnum Qden].
  rewrite Z2Pos.id by lia.
  rewrite Nat2Z.inj_sub by lia. simpl Z.of_nat. nia.
Qed.

(** For a width of more than the two margins the positions grow with the
    index on the axis. *)
Lemma position_grows_along_the_axis chartData tp1 tp2 (i j : nat) :
  120 < chartWidth clientWidth ->
  (2 <= length chartData)%nat ->
  firstIndex chartData (touch_date tp1) i ->
  firstIndex chartData (touch_date tp2) j ->
  (i < j)%nat ->
  (position clientWidth chartData tp1 < position clientWidth chartData tp2)%Q.
Proof.
  intros Hw Hlen H1 H2 Hij.
  rewrite (position_at_first_index _ _ i H1 Hlen).
  rewrite (position_at_first_index _ _ j H2 Hlen).
  rewrite !interpolation_as_fraction by lia.
  unfold availableWidth, padding, Qlt. cbn [Qnum Qden].
  rewrite Z2Pos.id by lia.
  set (b := Z.of_nat (length chartData) - 1).
  set (w := chartWidth clientWidth - 60 * 2).
  assert (0 < b) as Hb by (unfold b; lia).
  apply Z.mul_lt_mono_pos_r; [lia|].
  assert (Z.of_nat i * w < Z.of_nat j * w)
    by (apply Z.mul_lt_mono_pos_r; unfold w; lia).
  lia.
Qed.

End MarkerGeometry.

(** * The markers the minimap draws *)

Section MinimapRuns.
Import ActivityMinimap Notions Vocabulary MinimapComponent.

Context (parseISO : string -> option Z) (containerWidth : Z).

Lemma chartData_points (timeline : list Types.TimelineDataPoint) points :
  chartData parseISO timeline = Some points -> point <$> points = timeline.
Proof.
  unfold chartData. revert points.
  induction timeline as [|d timeline IH]; intros points Hpoints.
  - injection Hpoints as <-. reflexivity.
  - cbn [mapM] in Hpoints. simpl in Hpoints.
    destruct (Utils.format (parseISO (Types.point_date d)) "MMM d"); [|discriminate].
    simpl in Hpoints.
    destruct (mapM _ timeline) as [rest|]; [|discriminate].
    simpl in Hpoints. injection Hpoints as <-.
    rewrite fmap_cons. cbn [point]. f_equal. exact (IH rest eq_refl).
Qed.

(** When the response arrives, the memo body runs in the render that shows
    the chart for the first time: the container is not in the document
    yet, the ref is [null], and the markers are computed for the default
    width, whatever width the container then gets. *)
Lemma loaded_overlay response inst :
  loaded parseISO containerWidth response = Some inst ->
  chartRef inst = Some containerWidth
  /\ overlay inst
     = ActivityMinimap.touchpointMarkers None (timeline_data response)
         (first_touchpoints response).
Proof.
  unfold loaded.
  change (mount parseISO containerWidth)
    with (Some {| state := initial; touchpointMarkers := []; chartRef := None |}).
  cbn [mbind option_bind]. unfold fulfilled, render.
  cbn [state chartRef timelineData firstTouchpoints loadTimelineData_fulfilled].
  destruct (chartData parseISO (timeline_data response)) as [points|] eqn:Hpoints;
    cbn [mbind option_bind]; [|discriminate].
  intros [= <-]. unfold overlay. cbn.
  rewrite (chartData_points _ _ Hpoints). split; reflexivity.
Qed.

(** C6.  A touchpoint whose date is on an axis of at least two dates is
    drawn where the linear interpolation of the date's index puts it in a
    chart 800 wide, whatever the width of the chart container is. *)
Theorem markers_are_placed_for_800_pixels response inst (k index : nat) tp :
  loaded parseISO containerWidth response = Some inst ->
  first_touchpoints response !! k = Some tp ->
  firstIndex (timeline_data response) (Types.touch_date tp) index ->
  (2 <= length (timeline_data response))%nat ->
  chartRef inst = Some containerWidth
  /\ overlay inst !! k
     = Some {| touchpoint := tp;
               x := interpolated index (length (timeline_data response)) 800 |}.
Proof.
  intros Hloaded Hk Hfirst Hlen.
  destruct (loaded_overlay _ _ Hloaded) as [Href ->]. split; [exact Href|].
  rewrite markers_lookup with (tp := tp);
    [|destruct (timeline_data response); simpl in *; [lia|congruence]|exact Hk].
  rewrite (position_at_first_index None _ _ index Hfirst Hlen). reflexivity.
Qed.

(** X1.  Every marker the minimap draws is in one of two places, whatever
    the width of the chart container.  Either it is unplaced, at 0: its
    date is not on the axis, or the axis has a single date.  Or it lies
    between 60 and 740: its date is on an axis of two dates or more. *)
Theorem drawn_marker_unplaced_or_within_default_margins response inst (k : nat) m :
  loaded parseISO containerWidth response = Some inst ->
  overlay inst !! k = Some m ->
  (x m = 0%Q
   /\ ((Types.touch_date (touchpoint m) ∉ axis (timeline_data response))
       \/ length (timeline_data response) = 1%nat))
  \/ (((60 <= x m)%Q /\ (x m <= 740)%Q)
      /\ Types.touch_date (touchpoint m) ∈ axis (timeline_data response)
      /\ (2 <= length (timeline_data response))%nat).
Proof.
  intros Hloaded Hm.
  destruct (loaded_overlay _ _ Hloaded) as [_ Hoverlay]. rewrite Hoverlay in Hm.
  apply (position_unplaced_or_within_margins None) in Hm; [exact Hm|].
  simpl. lia.
Qed.

(** X2.  On an axis of two dates or more the minimap draws the marker of
    the first date at 60 and the marker of the last date, if that date
    does not occur before, at 740, whatever the width of the chart
    container. *)
Theorem drawn_axis_ends response inst (k1 k2 : nat) tp1 tp2 :
  loaded parseISO containerWidth response = Some inst ->
  (2 <= length (timeline_data response))%nat ->
  first_touchpoints response !! k1 = Some tp1 ->
  first_touchpoints response !! k2 = Some tp2 ->
  firstIndex (timeline_data response) (Types.touch_date tp1) 0 ->
  firstIndex (timeline_data response) (Types.touch_date tp2)
    (length (timeline_data response) - 1) ->
  exists m1 m2,
    overlay inst !! k1 = Some m1 /\ touchpoint m1 = tp1 /\ (x m1 == 60)%Q
    /\ overlay inst !! k2 = Some m2 /\ touchpoint m2 = tp2 /\ (x m2 == 740)%Q.
Proof.
  intros Hloaded Hlen Hk1 Hk2 Hfirst Hlast.
  destruct (loaded_overlay _ _ Hloaded) as [_ ->].
  assert (timeline_data response <> []) as Hnonempty
    by (destruct (timeline_data response); simpl in *; [lia|congruence]).
  do 2 eexists.
  split; [apply (markers_lookup None); [exact Hnonempty|exact Hk1]|].
  split; [reflexivity|].
  split; [apply (position_of_first_date None); assumption|].
  split; [apply (markers_lookup None); [exact Hnonempty|exact Hk2]|].
  split; [reflexivity|].
  apply (position_of_last_date None); assumption.
Qed.

(** X3.  The markers the minimap draws stand in the order of their dates
    on the axis, whatever the width of the chart container: a date
    further along the axis is drawn further to the right. *)
Theorem drawn_markers_follow_the_axis response inst (k1 k2 i j : nat) tp1 tp2 :
  loaded parseISO containerWidth response = Some inst ->
  (2 <= length (timeline_data response))%nat ->
  first_touchpoints response !! k1 = Some tp1 ->
  first_touchpoints response !! k2 = Some tp2 ->
  firstIndex (timeline_data response) (Types.touch_date tp1) i ->
  firstIndex (timeline_data response) (Types.touch_date tp2) j ->
  (i < j)%nat ->
  exists m1 m2,
    overlay inst !! k1 = Some m1 /\ touchpoint m1 = tp1
    /\ overlay inst !! k2 = Some m2 /\ touchpoint m2 = tp2
    /\ (x m1 < x m2)%Q.
Proof.
  intros Hloaded Hlen Hk1 Hk2 H1 H2 Hij.
  destruct (loaded_overlay _ _ Hloaded) as [_ ->].
  assert (timeline_data response <> []) as Hnonempty
    by (destruct (timeline_data response); simpl in *; [lia|congruence]).
  do 2 eexists.
  split; [apply (markers_lookup None); [exact Hnonempty|exact Hk1]|].
  split; [reflexivity|].
  split; [apply (markers_lookup None); [exact Hnonempty|exact Hk2]|].
  split; [reflexivity|].
  apply (position_grows_along_the_axis None _ _ _ i j); try assumption.
  simpl. lia.
Qed.

End MinimapRuns.

(** * Rows and gaps, continued *)

Section Rows.
Import Utils ActivityTimelineTable Notions Vocabulary.

Context (parseISO : string -> option Z) (clock : Clock).

Lemma fragment_rendered evs (index : nat) event rendered :
  fragment parseISO clock evs index event = Some rendered ->
  exists c,
    parseISO (timestamp event) = Some c
    /\ rendered
       = option_list (renderGapIndicator (gapBefore parseISO clock evs index event))
         ++ [rowOf event c].
Proof.
  intros Hrendered.
  destruct (parseISO (timestamp event)) as [c|] eqn:Hc;
    [|rewrite (fragment_invalid parseISO clock) in Hrendered by exact Hc; discriminate].
  rewrite (fragment_valid parseISO clock _ _ _ c Hc) in Hrendered.
  injection Hrendered as <-. exists c. split; reflexivity.
Qed.

Lemma omap_fragment evs (index : nat) event rendered :
  fragment parseISO clock evs index event = Some rendered ->
  omap eventOfRow rendered = [event].
Proof.
  intros Hrendered.
  destruct (fragment_rendered _ _ _ _ Hrendered) as (c & _ & ->).
  rewrite omap_app.
  destruct (renderGapIndicator (gapBefore parseISO clock evs index event))
    as [r|] eqn:Hr; [|reflexivity].
  unfold renderGapIndicator in Hr.
  destruct (gapBefore parseISO clock evs index event) as [n|];
    [destruct (n <=? 1); [discriminate|]|]; injection Hr as <-; reflexivity.
Qed.

(** A list of fragments is rendered unless one of them throws. *)
Lemma rendered_None {A} (l : list A) :
  forall (g : nat -> A -> option (list Row)),
    mapM (fun r : option (list Row) => r) (imap g l) = None
    <-> exists (i : nat) a, l !! i = Some a /\ g i a = None.
Proof.
  induction l as [|y l IH]; intros g.
  - split; [discriminate|]. intros (i & a & Hi & _). destruct i; discriminate.
  - cbn [imap mapM]. simpl.
    destruct (g 0%nat y) as [fy|] eqn:Hy; simpl.
    + specialize (IH (g ∘ S)).
      destruct (mapM (fun r : option (list Row) => r) (imap (g ∘ S) l))
        as [rest|]; simpl.
      * split; [discriminate|]. intros ([|i] & a & Hi & Hnone); simpl in Hi.
        -- injection Hi as <-. congruence.
        -- assert (Some rest = None) as Habs; [|discriminate Habs].
           apply IH. exists i, a. split; assumption.
      * split; [|reflexivity]. intros _.
        destruct (proj1 IH eq_refl) as (i & a & Hi & Hnone).
        exists (S i), a. split; assumption.
    + split; [|reflexivity]. intros _. exists 0%nat, y. split; [reflexivity|exact Hy].
Qed.

(** The rows of a rendered list of fragments mapped back to the elements. *)
Lemma rendered_omap {A} (proj : Row -> option A) (l : list A) :
  forall (g : nat -> A -> option (list Row)) rendered,
    (forall i a fr, g i a = Some fr -> omap proj fr = [a]) ->
    mapM (fun r : option (list Row) => r) (imap g l) = Some rendered ->
    omap proj (concat rendered) = l.
Proof.
  induction l as [|y l IH]; intros g rendered Hg Hall.
  - injection Hall as <-. reflexivity.
  - cbn [imap mapM] in Hall. simpl in Hall.
    destruct (g 0%nat y) as [fy|] eqn:Hy; [|discriminate]. simpl in Hall.
    destruct (mapM (fun r : option (list Row) => r) (imap (g ∘ S) l))
      as [rest|] eqn:Hrest; [|discriminate].
    simpl in Hall. injection Hall as <-. simpl.
    rewrite omap_app, (Hg _ _ _ Hy), (IH (g ∘ S) rest); [reflexivity| |exact Hrest].
    intros i a fr. apply Hg.
Qed.

(** Every row of a rendered list of fragments is in the fragment of an
    element. *)
Lemma rendered_elem {A} (l : list A) :
  forall (g : nat -> A -> option (list Row)) rendered,
    mapM (fun r : option (list Row) => r) (imap g l) = Some rendered ->
    forall r, r ∈ concat rendered ->
      exists (i : nat) a fr, l !! i = Some a /\ g i a = Some fr /\ r ∈ fr.
Proof.
  induction l as [|y l IH]; intros g rendered Hall r Hr.
  - injection Hall as <-. apply elem_of_nil in Hr. contradiction.
  - cbn [imap mapM] in Hall. simpl in Hall.
    destruct (g 0%nat y) as [fy|] eqn:Hy; [|discriminate]. simpl in Hall.
    destruct (mapM (fun r : option (list Row) => r) (imap (g ∘ S) l))
      as [rest|] eqn:Hrest; [|discriminate].
    simpl in Hall. injection Hall as <-. simpl in Hr.
    apply elem_of_app in Hr as [Hr|Hr].
    + exists 0%nat, y, fy. repeat split; assumption.
    + destruct (IH (g ∘ S) rest Hrest r Hr) as (i & a & fr & Hi & Hfr & Hin).
      exists (S i), a, fr. repeat split; assumption.
Qed.

Lemma tbody_None evs :
  tbody parseISO clock evs = None
  <-> exists e, e ∈ evs /\ parseISO (timestamp e) = None.
Proof.
  unfold tbody.
  pose proof (rendered_None evs (fragment parseISO clock evs)) as Hnone.
  destruct (mapM (fun r : option (list Row) => r)
              (imap (fragment parseISO clock evs) evs)) as [rendered|]; simpl.
  - split; [discriminate|]. intros (e & Hin & He).
    apply list_elem_of_lookup in Hin as [i Hi].
    assert (Some rendered = None) as Habs; [|discriminate Habs].
    apply Hnone. exists i, e. split; [exact Hi|].
    apply fragment_invalid. exact He.
  - split; [|reflexivity]. intros _.
    destruct (proj1 Hnone eq_refl) as (i & e & Hi & Hfr).
    exists e. split; [apply list_elem_of_lookup; eauto|].
    destruct (parseISO (timestamp e)) as [c|] eqn:Hc; [|reflexivity].
    rewrite (fragment_valid parseISO clock _ _ _ c Hc) in Hfr. discriminate.
Qed.

(** X4.  A table body that is rendered has one row for every event, in the
    order of the list, whatever gap indicators stand between them; and it
    starts with the row of the first event, not with an indicator. *)
Theorem tbody_has_the_events_in_order evs rows :
  tbody parseISO clock evs = Some rows ->
  omap eventOfRow rows = evs
  /\ head rows ≫= eventOfRow = head evs.
Proof.
  unfold tbody. intros Hrows.
  destruct (mapM (fun r : option (list Row) => r)
              (imap (fragment parseISO clock evs) evs)) as [rendered|] eqn:Hall;
    [|discriminate].
  simpl in Hrows. injection Hrows as <-. split.
  - apply (rendered_omap eventOfRow evs (fragment parseISO clock evs)); [|exact Hall].
    intros i a fr. apply omap_fragment.
  - destruct evs as [|e evs]; [injection Hall as <-; reflexivity|].
    cbn [imap mapM] in Hall. simpl in Hall.
    destruct (fragment parseISO clock (e :: evs) 0 e) as [fe|] eqn:Hfe;
      [|discriminate].
    simpl in Hall.
    destruct (mapM _ _) as [rest|]; [|discriminate].
    simpl in Hall. injection Hall as <-.
    destruct (fragment_rendered _ _ _ _ Hfe) as (c & _ & ->). reflexivity.
Qed.

(** X5.  Between two neighbouring rows with valid timestamps an indicator
    stands exactly when the local clock reads two days or more later at
    the upper row than at the lower one, and it shows the number of full
    days between the two readings.  Rows in ascending order never get an
    indicator. *)
Theorem gap_indicator_from_two_days evs (index : nat) previous event p c :
  evs !! index = Some previous ->
  parseISO (timestamp previous) = Some p ->
  parseISO (timestamp event) = Some c ->
  onTheClock clock p c ->
  fragment parseISO clock evs (S index) event
  = Some (if 2 * msPerDay <=? localOf clock p - localOf clock c
          then [ GapRow (Num (Z.quot (localOf clock p - localOf clock c) msPerDay));
                 rowOf event c ]
          else [ rowOf event c ]).
Proof.
  intros Hprev Hp Hc Hclock.
  rewrite (fragment_valid parseISO clock _ _ _ c Hc). f_equal.
  unfold gapBefore.
  cbn [Nat.ltb Nat.leb]. replace (S index - 1)%nat with index by lia.
  rewrite Hprev. unfold calculateDateGap, differenceInDays. rewrite Hp, Hc.
  rewrite (fullDays_on_the_clock clock) by exact Hclock.
  set (d := localOf clock p - localOf clock c).
  unfold renderGapIndicator, msPerDay.
  destruct (Z.leb_spec (2 * 86400000) d) as [Hfar|Hnear].
  - assert (2 <= Z.quot d 86400000) as Hq.
    { rewrite Z.quot_div_nonneg by lia. apply Z.div_le_lower_bound; lia. }
    destruct (Z.leb_spec (Z.quot d 86400000) 1); [lia|reflexivity].
  - assert (Z.quot d 86400000 <= 1) as Hq.
    { destruct (Z.le_gt_cases 0 d).
      - rewrite Z.quot_div_nonneg by lia.
        assert (d / 86400000 < 2) by (apply Z.div_lt_upper_bound; lia). lia.
      - pose proof (Z.quot_opp_l d 86400000 ltac:(lia)) as Hopp.
        assert (0 <= Z.quot (- d) 86400000) by (apply Z.quot_pos; lia).
        lia. }
    destruct (Z.leb_spec (Z.quot d 86400000) 1); [reflexivity|lia].
Qed.

(** X6.  An event whose timestamp does not parse makes the render of the
    table body throw, and nothing else does.  So no row is ever shown with
    an indicator of [NaN] days. *)
Theorem unparsable_timestamp_fails_the_render evs :
  (tbody parseISO clock evs = None
   <-> exists e, e ∈ evs /\ parseISO (timestamp e) = None)
  /\ (forall rows, tbody parseISO clock evs = Some rows -> GapRow NaN ∉ rows).
Proof.
  split; [apply tbody_None|]. intros rows Hrows Hin.
  assert (forall e, e ∈ evs -> exists c, parseISO (timestamp e) = Some c) as Hvalid.
  { intros e He. destruct (parseISO (timestamp e)) as [c|] eqn:Hc; [eauto|].
    assert (tbody parseISO clock evs = None) as Habs
      by (apply tbody_None; eauto).
    congruence. }
  unfold tbody in Hrows.
  destruct (mapM (fun r : option (list Row) => r)
              (imap (fragment parseISO clock evs) evs)) as [rendered|] eqn:Hall;
    [|discriminate].
  simpl in Hrows. injection Hrows as <-.
  destruct (rendered_elem evs _ _ Hall _ Hin) as (i & e & fr & Hi & Hfr & Hr).
  destruct (fragment_rendered _ _ _ _ Hfr) as (c & Hc & ->).
  apply elem_of_app in Hr as [Hr|Hr];
    [|apply list_elem_of_singleton in Hr; discriminate].
  unfold gapBefore in Hr.
  destruct (0 <? i)%nat;
    [|simpl in Hr; apply elem_of_nil in Hr; contradiction].
  destruct (evs !! (i - 1)%nat) as [previous|] eqn:Hprev;
    [|simpl in Hr; apply elem_of_nil in Hr; contradiction].
  destruct (Hvalid previous) as (p & Hp); [apply list_elem_of_lookup; eauto|].
  unfold calculateDateGap, differenceInDays in Hr. rewrite Hp, Hc in Hr.
  unfold renderGapIndicator in Hr.
  destruct (_ <=? 1); simpl in Hr;
    [apply elem_of_nil in Hr; contradiction|].
  apply list_elem_of_singleton in Hr. discriminate.
Qed.

(** X7.  Where the readings it passes through exist in either order, the
    gap of two dates is the difference of their local readings in days,
    truncated towards zero, and swapping the two dates negates it. *)
Theorem calculateDateGap_sign_and_zero a b ta tb :
  parseISO a = Some ta ->
  parseISO b = Some tb ->
  onTheClock clock ta tb ->
  onTheClock clock tb ta ->
  calculateDateGap parseISO clock a b
  = Num (Z.quot (localOf clock ta - localOf clock tb) msPerDay)
  /\ calculateDateGap parseISO clock b a
     = Num (- Z.quot (localOf clock ta - localOf clock tb) msPerDay).
Proof.
  intros Ha Hb Hab Hba. unfold calculateDateGap, differenceInDays.
  rewrite Ha, Hb, !(fullDays_on_the_clock clock) by assumption.
  split; [reflexivity|]. f_equal. unfold msPerDay.
  rewrite <- Z.quot_opp_l by lia. f_equal. lia.
Qed.

End Rows.

(** * Fetches and views, continued *)

Section FetchesAndViews.
Import ActivityTimelineTable App Notions Vocabulary.

Lemma fetches_app acts1 acts2 :
  fetches (acts1 ++ acts2) = fetches acts1 ++ fetches acts2.
Proof. apply omap_app. Qed.

Lemma fetches_range evs : fetches (visibleRangeEffect evs) = [].
Proof.
  rewrite visibleRangeEffect_head_last.
  destruct (head evs); [destruct (last evs)|]; reflexivity.
Qed.

Lemma handle_fetches_replace i sys c :
  c ∈ fetches (handle i sys).1 -> append c = false.
Proof.
  destruct i; simpl; try (intros []%elem_of_nil).
  - destruct (inflight sys !! n); intros []%elem_of_nil.
  - destruct (inflight sys !! n); intros []%elem_of_nil.
  - destruct (view (table sys)); simpl; try (intros []%elem_of_nil).
    intros ->%list_elem_of_singleton. reflexivity.
Qed.

(** X8.  A load-more fetch is sent only from a table that is told there is a
    next page and is not loading; it asks for the page after the current
    one and never carries a date, not even after a navigation to a date. *)
Theorem load_more_asks_next_page_without_date i sys c :
  c ∈ fetches (step i sys).1 ->
  append c = true ->
  targetDate c = None
  /\ page c = currentPage (handled i sys) + 1
  /\ hasNext (handled i sys) = true
  /\ loading (handled i sys) = false
  /\ loadingMore (handled i sys) = false.
Proof.
  intros Hin Happend. unfold step in Hin. cbn [fst] in Hin.
  rewrite fetches_app, elem_of_app in Hin. destruct Hin as [Hin|Hin].
  { apply handle_fetches_replace in Hin. congruence. }
  unfold runEffects in Hin. cbn [fst] in Hin.
  rewrite !fetches_app, !elem_of_app in Hin. destruct Hin as [Hin|[Hin|Hin]].
  - destruct (navigationChanged sys (handle i sys).2);
      [|apply elem_of_nil in Hin; contradiction].
    unfold navigationEffect in Hin.
    destruct (truthy _); simpl in Hin; [|apply elem_of_nil in Hin; contradiction].
    apply list_elem_of_singleton in Hin. subst c. discriminate Happend.
  - destruct (scrollChanged sys (handle i sys).2);
      [|apply elem_of_nil in Hin; contradiction].
    rewrite handle_table in Hin. unfold scrollEffect in Hin.
    destruct (inView (handle i sys).2) eqn:Hview, (hasNext (handled i sys)) eqn:Hnext,
      (loading (handled i sys)) eqn:Hloading, (loadingMore (handled i sys)) eqn:Hmore;
      simpl in Hin; try (apply elem_of_nil in Hin; contradiction).
    apply list_elem_of_singleton in Hin. subst c. repeat split.
  - destruct (eventsChanged sys (handle i sys).2);
      [|apply elem_of_nil in Hin; contradiction].
    rewrite fetches_range in Hin. apply elem_of_nil in Hin. contradiction.
Qed.

(** The table once the fetch at position [n] has settled: the effects that
    follow change nothing but the load-more flag. *)
Lemma settle_step_table i sys (n : nat) c :
  (exists response, i = Fulfil n response) \/ (exists err, i = Reject n err) ->
  inflight sys !! n = Some c ->
  loading (table (step i sys).2) = loading (handled i sys)
  /\ error (table (step i sys).2) = error (handled i sys)
  /\ st_events (table (step i sys).2) = st_events (handled i sys).
Proof.
  intros Hi Hc. split; [|split; [apply step_error | apply step_events]].
  unfold step, runEffects. cbn [snd fst]. rewrite table_performAll.
  cbn [withTable table]. rewrite handle_table.
  assert (home (handle i sys).2 = home sys) as Hhome.
  { destruct Hi as [[response ->] | [err ->]]; simpl; rewrite Hc; reflexivity. }
  rewrite navigationChanged_same by exact Hhome. cbn [idle snd].
  destruct (scrollChanged _ _); [rewrite scrollEffect_loading_flag|]; reflexivity.
Qed.

(** X9.  When any fetch settles the table stops reporting that it is loading,
    whatever other fetch is still in flight. *)
Theorem settling_clears_loading i sys (n : nat) c :
  (exists response, i = Fulfil n response) \/ (exists err, i = Reject n err) ->
  inflight sys !! n = Some c ->
  loading (table (step i sys).2) = false.
Proof.
  intros Hi Hc. destruct (settle_step_table i sys n c Hi Hc) as (-> & _).
  destruct Hi as [[response ->] | [err ->]]; simpl; rewrite Hc; reflexivity.
Qed.


(** X11.  A rejection with an [Error] whose message is empty is stored but
    never shown: the table view stays, and there is no retry button. *)
Theorem empty_message_failure_is_hidden sys (n : nat) c :
  inflight sys !! n = Some c ->
  let failed := (step (Reject n (ErrorInstance "")) sys).2 in
  error (table failed) = Some ""
  /\ view (table failed) = TableView
  /\ handle RetryClick failed = ([], failed).
Proof.
  intros Hc failed.
  destruct (settle_step_table (Reject n (ErrorInstance "")) sys n c) as (Hl & He & _);
    [eauto | exact Hc |].
  assert (view (table failed) = TableView) as Hview.
  { unfold view, failed. rewrite Hl, He. simpl. rewrite Hc. reflexivity. }
  split; [|split; [exact Hview|]].
  - unfold failed. rewrite He. simpl. rewrite Hc. reflexivity.
  - unfold handle. rewrite Hview. reflexivity.
Qed.

(** X12.  A response that is not [ok] always ends in the error view, with the
    status text in the message and the rows kept. *)
Theorem http_failure_is_shown sys (n : nat) c statusText json :
  inflight sys !! n = Some c ->
  let failed := (step (deliver n (ApiService.Responded false statusText json)) sys).2 in
  error (table failed)
  = Some ("Failed to fetch activity events: " ++ statusText)%string
  /\ view (table failed) = ErrorView
  /\ st_events (table failed) = st_events (table sys).
Proof.
  intros Hc failed. unfold failed, deliver. cbn [ApiService.fetchActivityEvents negb].
  set (err := ErrorInstance _).
  destruct (settle_step_table (Reject n err) sys n c) as (Hl & He & Hev);
    [eauto | exact Hc |].
  unfold view. rewrite Hl, He, Hev. simpl. rewrite Hc. repeat split.
Qed.

(** X13.  A click that carries an empty date changes nothing and sends
    nothing. *)
Theorem empty_date_click_is_ignored sys :
  Home.navigateToDate (home sys) = "" ->
  step (DateClick "") sys = ([], sys).
Proof.
  intros Hnav.
  assert (withHome (Home.handleDateClick "") sys = sys) as Hsame.
  { destruct sys as [[vs ve nav] t v f]. simpl in *. subst nav. reflexivity. }
  unfold step, handle. cbn [fst snd app]. rewrite Hsame. unfold runEffects.
  rewrite navigationChanged_same, scrollChanged_same, eventsChanged_same by reflexivity.
  cbn [idle fst snd app]. unfold performAll. cbn [foldl].
  destruct sys; reflexivity.
Qed.

End FetchesAndViews.

(** * What holds in every state the application reaches *)

Section Reachable.
Import ActivityTimelineTable App Notions Vocabulary.

Lemma invariant_after (P : System -> Prop) (Q : Input -> Prop) :
  (forall i sys, Q i -> P sys -> P (step i sys).2) ->
  forall inputs sys, Forall Q inputs -> P sys -> P (after inputs sys).
Proof.
  intros Hstep inputs. induction inputs as [|i inputs IH]; intros sys HQ HP; [exact HP|].
  unfold after in *. cbn [run snd]. inversion HQ; subst.
  apply IH; [assumption|]. apply Hstep; assumption.
Qed.

Lemma invariant_reachable (P : System -> Prop) :
  P mounted.2 ->
  (forall i sys, P sys -> P (step i sys).2) ->
  forall sys, reachable sys -> P sys.
Proof.
  intros Hinit Hstep sys [inputs ->].
  apply (invariant_after P (fun _ => True)); [auto| |exact Hinit].
  apply Forall_forall. auto.
Qed.

(** X14.  Only a click makes the table fetch for a date, and the fetch is for
    the date of that click; between two events the page holds no
    navigation request. *)
Theorem dated_fetches_come_from_clicks sys i c :
  reachable sys ->
  c ∈ fetches (step i sys).1 ->
  is_Some (targetDate c) ->
  Home.navigateToDate (home sys) = ""
  /\ exists date, i = DateClick date /\ c = navigationCall date.
Proof.
  intros Hreach Hin Hdated.
  assert (Home.navigateToDate (home sys) = "") as Hnav.
  { clear Hin Hdated. revert sys Hreach. apply invariant_reachable; [reflexivity|].
    intros i' sys' H. apply navigation_request_stays_cleared. exact H. }
  split; [exact Hnav|]. eapply dated_fetch_only_on_click; eassumption.
Qed.

Lemma homeRange_performAll acts sys :
  rangeEmissions acts = [] -> homeRange (performAll acts sys) = homeRange sys.
Proof.
  unfold performAll. revert sys.
  induction acts as [|a acts IH]; intros sys Hnone; [reflexivity|].
  simpl. destruct a; simpl in Hnone; try discriminate; rewrite IH by exact Hnone; reflexivity.
Qed.

Lemma rangeEmissions_app acts1 acts2 :
  rangeEmissions (acts1 ++ acts2) = rangeEmissions acts1 ++ rangeEmissions acts2.
Proof. apply omap_app. Qed.

Lemma rangeEmissions_navigation date : rangeEmissions (navigationEffect date).1 = [].
Proof. unfold navigationEffect. destruct (truthy date); reflexivity. Qed.

Lemma rangeEmissions_scroll visible st : rangeEmissions (scrollEffect visible st).1 = [].
Proof.
  unfold scrollEffect.
  destruct (visible && hasNext st && negb (loading st) && negb (loadingMore st));
    reflexivity.
Qed.

(** The range the page holds after a step: the range of the new rows if a
    fetch was fulfilled and left rows, the range it held before
    otherwise. *)
Lemma step_homeRange i sys :
  homeRange (step i sys).2
  = if eventsChanged sys (handle i sys).2
    then default (homeRange sys) (rangeOf (st_events (handled i sys)))
    else homeRange sys.
Proof.
  assert (homeRange (handle i sys).2 = homeRange sys) as Hhandle.
  { destruct i; simpl; try reflexivity.
    - destruct (inflight sys !! n); reflexivity.
    - destruct (inflight sys !! n); reflexivity.
    - destruct (view (table sys)); reflexivity. }
  unfold step, runEffects. cbn [snd fst].
  set (nav := if navigationChanged _ _ then _ else idle).
  set (scroll := if scrollChanged _ _ then _ else idle).
  assert (rangeEmissions nav.1 = []) as Hn.
  { unfold nav. destruct (navigationChanged _ _); [apply rangeEmissions_navigation|reflexivity]. }
  assert (rangeEmissions scroll.1 = []) as Hs.
  { unfold scroll. destruct (scrollChanged _ _); [apply rangeEmissions_scroll|reflexivity]. }
  destruct (eventsChanged sys (handle i sys).2).
  - rewrite handle_table, visibleRangeEffect_head_last. unfold rangeOf.
    rewrite !app_assoc. unfold performAll. rewrite foldl_app.
    fold (performAll (nav.1 ++ scroll.1)
            (withTable (fun st => scroll.2 (nav.2 st)) (handle i sys).2)).
    destruct (head (st_events (handled i sys))) as [newest|];
      [destruct (last (st_events (handled i sys))) as [oldest|]|]; simpl.
    + reflexivity.
    + rewrite homeRange_performAll by (rewrite rangeEmissions_app, Hn, Hs; reflexivity).
      exact Hhandle.
    + rewrite homeRange_performAll by (rewrite rangeEmissions_app, Hn, Hs; reflexivity).
      exact Hhandle.
  - rewrite homeRange_performAll
      by (rewrite !rangeEmissions_app, Hn, Hs; reflexivity).
    exact Hhandle.
Qed.

Lemma handled_events_unchanged i sys :
  eventsChanged sys (handle i sys).2 = false ->
  st_events (handled i sys) = st_events (table sys).
Proof.
  unfold eventsChanged. rewrite handle_table.
  destruct i; simpl; try reflexivity.
  - destruct (inflight sys !! n); [|reflexivity]. simpl.
    intros H. apply negb_false_iff, Nat.eqb_eq in H. lia.
  - destruct (inflight sys !! n); reflexivity.
  - destruct (view (table sys)); reflexivity.
Qed.

(** X15.  Whenever the table has rows, the range the page hands to the minimap
    is the range of exactly those rows. *)
Theorem page_range_matches_rows sys range :
  reachable sys ->
  rangeOf (st_events (table sys)) = Some range ->
  homeRange sys = range.
Proof.
  intros Hreach. revert range. revert sys Hreach.
  apply (invariant_reachable
           (fun sys => forall range,
                rangeOf (st_events (table sys)) = Some range -> homeRange sys = range)).
  - intros range. discriminate.
  - intros i sys IH range. rewrite step_events, step_homeRange.
    destruct (eventsChanged sys (handle i sys).2) eqn:Hchanged.
    + intros ->. reflexivity.
    + rewrite handled_events_unchanged by exact Hchanged. apply IH.
Qed.

Lemma handled_side_loaded i sys :
  (forall n response, i = Fulfil n response -> sideLoaded response) ->
  (forall event person,
      event ∈ st_events (table sys) -> head (people event) = Some person ->
      is_Some (st_persons (table sys) !! person_ident person)) ->
  forall event person,
    event ∈ st_events (handled i sys) -> head (people event) = Some person ->
    is_Some (st_persons (handled i sys) !! person_ident person).
Proof.
  intros Hloaded IH event person.
  destruct i; simpl; try apply IH.
  - destruct (inflight sys !! n) as [c|]; [|apply IH]. simpl.
    intros Hin Hhead. apply lookup_union_is_Some.
    destruct (append c).
    + apply elem_of_app in Hin as [Hin|Hin].
      * right. eapply IH; eassumption.
      * left. eapply (Hloaded n response eq_refl); eassumption.
    + left. eapply (Hloaded n response eq_refl); eassumption.
  - destruct (inflight sys !! n); apply IH.
  - destruct (view (table sys)); apply IH.
Qed.

(** X16.  If every page that arrives side-loads the first person of each of its
    events, no row ever shows "Unknown Person": not after an append, not
    after a navigation, not after a failure. *)
Theorem side_loaded_rows_never_show_unknown_person inputs event :
  sideLoadedInputs inputs ->
  event ∈ st_events (table (after inputs mounted.2)) ->
  TableCells.renderPersonBadge
    (st_persons (table (after inputs mounted.2))) (people event)
  <> TableCells.UnknownPerson.
Proof.
  intros Hloaded Hin.
  assert (forall event person,
             event ∈ st_events (table (after inputs mounted.2)) ->
             head (people event) = Some person ->
             is_Some (st_persons (table (after inputs mounted.2)) !! person_ident person))
    as Hinv.
  { apply (invariant_after
             (fun sys => forall event person,
                  event ∈ st_events (table sys) -> head (people event) = Some person ->
                  is_Some (st_persons (table sys) !! person_ident person))
             (fun i => forall n response, i = Fulfil n response -> sideLoaded response)).
    - intros i sys Hi IH. rewrite step_events, step_persons.
      apply handled_side_loaded; assumption.
    - apply Forall_forall. intros i Hi n response ->. eapply Hloaded, Hi.
    - intros e p []%elem_of_nil. }
  unfold TableCells.renderPersonBadge.
  destruct (people event) as [|person rest] eqn:Hpeople; [discriminate|].
  destruct (Hinv event person Hin) as [record ->]; [rewrite Hpeople; reflexivity|].
  discriminate.
Qed.

(** X17.  A click on the chart at a label sends one request: the first page, 50
    rows, with the label as its date.  A click without a label sends
    none. *)
Theorem chart_click_requests_its_label sys data :
  Home.navigateToDate (home sys) = "" ->
  requestUrl
    <$> fetches (run (DateClick <$> MinimapClicks.handleChartClick data) sys).1
  = match data with
    | Some (Some label) =>
        if truthy label
        then [ ("http://localhost:8000/api/events/"
                ++ "?customer_org_id=org_4m6zyrass98vvtk3xh5kcwcmaf"
                ++ "&account_id=account_31crr1tcp2bmcv1fk6pcm0k6ag"
                ++ "&page=1&page_size=50&date=" ++ ApiService.formEncode label)%string ]
        else []
    | _ => []
    end.
Proof.
  intros Hnav. destruct data as [[label|]|]; try reflexivity.
  unfold MinimapClicks.handleChartClick.
  destruct (truthy label) eqn:Hlabel; [|reflexivity].
  cbn [fmap list_fmap run fst snd].
  destruct (click_step sys label Hlabel Hnav) as (-> & _).
  cbn [fetches omap list_omap app fmap list_fmap].
  unfold requestUrl, navigationCall. cbn [page targetDate].
  unfold ApiService.eventsUrl, ApiService.eventsParams. rewrite Hlabel.
  f_equal.
Qed.

End Reachable.

(** * Retry *)

Section Retry.
Import ActivityTimelineTable App Notions Vocabulary.



End Retry.

(** * The query string *)

Section Query.
Import ActivityTimelineTable Vocabulary ApiService.

Lemma occurrences_app c (s1 s2 : string) :
  occurrences c (s1 ++ s2)%string = (occurrences c s1 + occurrences c s2)%nat.
Proof. induction s1 as [|c' s1 IH]; simpl; [reflexivity|]. rewrite IH. lia. Qed.

Lemma encodeByte_inert (b : ascii) :
  occurrences "&" (encodeByte b) = 0%nat /\ occurrences "=" (encodeByte b) = 0%nat.
Proof. destruct b as [[] [] [] [] [] [] [] []]; vm_compute; split; reflexivity. Qed.

Lemma formEncode_inert (s : string) :
  occurrences "&" (formEncode s) = 0%nat /\ occurrences "=" (formEncode s) = 0%nat.
Proof.
  induction s as [|b s [IH1 IH2]]; [split; reflexivity|].
  simpl. rewrite !occurrences_app, IH1, IH2.
  destruct (encodeByte_inert b) as [-> ->]. split; reflexivity.
Qed.

Lemma serialize_separators params :
  occurrences "&" (serialize params) = (length params - 1)%nat
  /\ occurrences "=" (serialize params) = length params.
Proof.
  unfold serialize.
  set (f := fun kv : string * string =>
              (formEncode kv.1 ++ "=" ++ formEncode kv.2)%string).
  assert (forall kv, occurrences "&" (f kv) = 0%nat /\ occurrences "=" (f kv) = 1%nat)
    as Hf.
  { intros kv. unfold f. rewrite !occurrences_app.
    destruct (formEncode_inert kv.1) as [-> ->], (formEncode_inert kv.2) as [-> ->].
    split; reflexivity. }
  clearbody f.
  induction params as [|kv params [IH1 IH2]]; [split; reflexivity|].
  destruct (Hf kv) as [Hamp Heq].
  destruct params as [|kv' params].
  - cbn [map String.concat length]. rewrite Hamp, Heq. split; reflexivity.
  - cbn [map String.concat length] in *.
    rewrite !occurrences_app, Hamp, Heq, IH1, IH2. simpl. split; lia.
Qed.

(** X18.  Whatever the page numbers and the date are, the query of the events
    request has one [=] for each of its parameters and one [&] between two
    of them: four parameters, and the date as a fifth when it is a
    non-empty string.  A date cannot add a parameter or change another. *)
Theorem events_query_has_its_parameters_only page pageSize targetDate :
  length (eventsParams page pageSize targetDate)
  = match targetDate with
    | Some date => if String.eqb date "" then 4%nat else 5%nat
    | None => 4%nat
    end
  /\ occurrences "=" (eventsUrl page pageSize targetDate)
     = length (eventsParams page pageSize targetDate)
  /\ occurrences "&" (eventsUrl page pageSize targetDate)
     = (length (eventsParams page pageSize targetDate) - 1)%nat.
Proof.
  split.
  - unfold eventsParams, truthy. destruct targetDate as [date|]; [|reflexivity].
    destruct (String.eqb date ""); reflexivity.
  - unfold eventsUrl. rewrite !occurrences_app.
    destruct (serialize_separators (eventsParams page pageSize targetDate)) as [-> ->].
    split; reflexivity.
Qed.

End Query.

(** * Class names *)

Section ClassNamesProperties.
Import ActivityTimelineTable ClassNames.

Lemma keep_truthy (c : option string) (s : string) :
  keep c = Some s -> truthy s = true.
Proof.
  destruct c as [s'|]; simpl; [|discriminate].
  destruct (truthy s') eqn:H; [|discriminate]. intros [= <-]. exact H.
Qed.

Lemma concat_truthy (k : list string) :
  Forall (fun s => truthy s = true) k ->
  truthy (String.concat " " k) = negb (bool_decide (k = [])).
Proof.
  intros Hk. destruct Hk as [|s k Hs Hk]; [reflexivity|].
  rewrite bool_decide_eq_false_2 by discriminate. simpl.
  unfold truthy in *. destruct s as [|c s]; [discriminate|].
  destruct k; reflexivity.
Qed.

Lemma string_app_assoc (a b c : string) :
  ((a ++ b) ++ c = a ++ (b ++ c))%string.
Proof.
  induction a as [|x a IH]; [reflexivity|].
  change (String x ((a ++ b) ++ c) = String x (a ++ (b ++ c)))%string.
  f_equal. exact IH.
Qed.

Lemma concat_app_nonempty (k1 k2 : list string) :
  k1 <> [] -> k2 <> [] ->
  String.concat " " (k1 ++ k2)
  = (String.concat " " k1 ++ " " ++ String.concat " " k2)%string.
Proof.
  intros H1 H2. induction k1 as [|s k1 IH]; [congruence|].
  destruct k1 as [|s' k1].
  - destruct k2; [congruence|]. reflexivity.
  - change (String.concat " " ((s :: s' :: k1) ++ k2))
      with (s ++ " " ++ String.concat " " ((s' :: k1) ++ k2))%string.
    rewrite IH by discriminate.
    change (String.concat " " (s :: s' :: k1))
      with (s ++ " " ++ String.concat " " (s' :: k1))%string.
    rewrite !string_app_assoc. reflexivity.
Qed.

(** X19.  Calls of [cn] nest: joining the results of two calls gives what one
    call on all the arguments gives, with no space doubled or left over
    when one of the two results is empty. *)
Theorem cn_of_cn classes1 classes2 :
  cn [Some (cn classes1); Some (cn classes2)] = cn (classes1 ++ classes2).
Proof.
  unfold cn. rewrite omap_app.
  assert (forall classes, Forall (fun s => truthy s = true) (omap keep classes)) as Hkept.
  { intros classes. apply Forall_forall. intros s Hs.
    apply list_elem_of_omap in Hs as (c & _ & Hc). eapply keep_truthy, Hc. }
  pose proof (Hkept classes1) as H1. pose proof (Hkept classes2) as H2.
  set (k1 := omap keep classes1) in *. set (k2 := omap keep classes2) in *.
  cbn [omap list_omap keep].
  rewrite (concat_truthy k1 H1), (concat_truthy k2 H2).
  destruct k1 as [|s1 k1], k2 as [|s2 k2].
  - reflexivity.
  - rewrite bool_decide_eq_true_2, bool_decide_eq_false_2 by (reflexivity || discriminate).
    reflexivity.
  - rewrite bool_decide_eq_false_2, bool_decide_eq_true_2 by (reflexivity || discriminate).
    simpl. rewrite app_nil_r. reflexivity.
  - rewrite !bool_decide_eq_false_2 by discriminate.
    rewrite concat_app_nonempty by discriminate. reflexivity.
Qed.

End ClassNamesProperties.

(** * Team badges *)

Section TeamBadges.
Import TableCells Vocabulary.

Lemma literal_is_matched_by_substring (teamId : string) :
  (String.eqb teamId "team-marketing" = true ->
   includes (toLowerCase teamId) "marketing" = true)
  /\ (String.eqb teamId "team_sales" = true ->
      includes (toLowerCase teamId) "sales" = true)
  /\ (String.eqb teamId "team_customer_success" = true ->
      includes (toLowerCase teamId) "customer_success" = true).
Proof.
  repeat split; intros ->%String.eqb_eq; reflexivity.
Qed.

(** X20.  The comparisons of a team identifier against ["team-marketing"],
    ["team_sales"] and ["team_customer_success"] never decide a badge: each
    of the three is already matched by its substring test. *)
Theorem team_literals_never_decide teamId :
  teamBadge teamId = teamBadgeBySubstring teamId.
Proof.
  unfold teamBadge, teamBadgeBySubstring.
  destruct (literal_is_matched_by_substring teamId) as (Hm & Hs & Hc).
  destruct (includes (toLowerCase teamId) "marketing");
    [reflexivity|].
  destruct (String.eqb teamId "team-marketing"); [discriminate (Hm eq_refl)|].
  destruct (includes (toLowerCase teamId) "sales"); [reflexivity|].
  destruct (String.eqb teamId "team_sales"); [discriminate (Hs eq_refl)|].
  destruct (includes (toLowerCase teamId) "customer_success"); [reflexivity|].
  destruct (String.eqb teamId "team_customer_success"); [discriminate (Hc eq_refl)|].
  reflexivity.
Qed.

(** X21.  Apart from the identifier ["SDR"], which is compared as it is written,
    the colour of a badge does not depend on the case of the letters of
    the team identifier. *)
Theorem team_colour_ignores_case teamId1 teamId2 :
  toLowerCase teamId1 = toLowerCase teamId2 ->
  teamId1 <> "SDR" -> teamId2 <> "SDR" ->
  colorClass (teamBadge teamId1) = colorClass (teamBadge teamId2).
Proof.
  intros Hlower H1 H2. unfold teamBadge.
  destruct (literal_is_matched_by_substring teamId1) as (Hm1 & Hs1 & Hc1).
  destruct (literal_is_matched_by_substring teamId2) as (Hm2 & Hs2 & Hc2).
  rewrite <- Hlower in *.
  apply String.eqb_neq in H1, H2. rewrite H1, H2.
  destruct (includes (toLowerCase teamId1) "marketing");
    [reflexivity|].
  destruct (String.eqb teamId1 "team-marketing"); [discriminate (Hm1 eq_refl)|].
  destruct (String.eqb teamId2 "team-marketing"); [discriminate (Hm2 eq_refl)|].
  cbn [orb].
  destruct (includes (toLowerCase teamId1) "sales"); [reflexivity|].
  destruct (String.eqb teamId1 "team_sales"); [discriminate (Hs1 eq_refl)|].
  destruct (String.eqb teamId2 "team_sales"); [discriminate (Hs2 eq_refl)|].
  cbn [orb].
  destruct (includes (toLowerCase teamId1) "customer_success"); [reflexivity|].
  destruct (String.eqb teamId1 "team_customer_success"); [discriminate (Hc1 eq_refl)|].
  destruct (String.eqb teamId2 "team_customer_success"); [discriminate (Hc2 eq_refl)|].
  reflexivity.
Qed.

End TeamBadges.

(** * Debouncing *)

Section DebounceProperties.
Import Debounce.
Context {A : Type}.

Lemma clearTimeout_owned (st : State A) :
  owned st -> clearTimeout (timeout st) (timers st) = [].
Proof.
  intros [Hnone | (id & due & args & Hone & Hid)].
  - rewrite Hnone. destruct (timeout st); reflexivity.
  - rewrite Hone, Hid. unfold clearTimeout. rewrite filter_cons, filter_nil.
    rewrite decide_False by (simpl; intros H; apply H; reflexivity). reflexivity.
Qed.

Lemma call_owned wait args (st : State A) :
  owned st ->
  timers (call wait args st) = [(fresh st, now st + Z.max wait 0, args)]
  /\ timeout (call wait args st) = Some (fresh st)
  /\ calls (call wait args st) = calls st
  /\ now (call wait args st) = now st.
Proof.
  intros Hst. unfold call. simpl. rewrite clearTimeout_owned by exact Hst.
  repeat split.
Qed.

Lemma react_owned wait (st : State A) e : owned st -> owned (react wait st e).
Proof.
  intros Hst. destruct e as [args|d]; simpl.
  - destruct (call_owned wait args st Hst) as (Ht & Hid & _).
    right. eauto.
  - destruct Hst as [Hnone | (id & due & args & Hone & Hid)].
    + left. simpl. rewrite Hnone. reflexivity.
    + unfold elapse, owned. cbn [timers timeout]. rewrite Hone, filter_cons, filter_nil.
      case_decide; [right; eauto | left; reflexivity].
Qed.

Lemma play_owned wait events (st : State A) :
  owned st -> owned (play wait events st).
Proof.
  unfold play. revert st. induction events as [|e events IH]; intros st Hst; [exact Hst|].
  simpl. apply IH, react_owned, Hst.
Qed.

(** X22.  However the debounced function is called and however time passes,
    at most one call of [func] is pending. *)
Theorem debounce_keeps_one_timer wait (events : list (Event A)) :
  (length (timers (play wait events start)) <= 1)%nat.
Proof.
  destruct (play_owned wait events start) as [-> | (id & due & args & -> & _)];
    [left; reflexivity | simpl; lia | simpl; lia].
Qed.

(** A call followed by a pause shorter than the wait: nothing runs. *)
Lemma call_then_short_pause wait args gap (st : State A) :
  owned st -> 0 <= gap < wait ->
  owned (elapse gap (call wait args st))
  /\ calls (elapse gap (call wait args st)) = calls st.
Proof.
  intros Hst Hgap.
  pose proof (react_owned wait _ (Elapse gap) (react_owned wait st (Call args) Hst)) as Ho.
  split; [exact Ho|].
  destruct (call_owned wait args st Hst) as (Ht & _ & Hc & Hn).
  unfold elapse. cbn [calls]. rewrite Ht, Hn, Hc, filter_cons, filter_nil.
  rewrite decide_False by (simpl; lia). simpl. apply app_nil_r.
Qed.

Lemma burst_runs_nothing wait (b : list (A * Z)) (st : State A) :
  owned st ->
  Forall (fun '(_, gap) => 0 <= gap < wait) b ->
  owned (play wait (burst b) st)
  /\ calls (play wait (burst b) st) = calls st.
Proof.
  intros Hst Hb. revert st Hst.
  induction Hb as [|[args gap] b Hgap _ IH]; intros st Hst; [split; [exact Hst|reflexivity]|].
  destruct (call_then_short_pause wait args gap st Hst Hgap) as (Ho & Hc).
  destruct (IH _ Ho) as (Ho' & Hc').
  unfold burst, play in *. cbn [mbind list_bind app foldl react] in *.
  split; [exact Ho'|]. rewrite Hc', Hc. reflexivity.
Qed.

(** X23.  A burst of calls, each less than the wait after the one before, then
    the wait in silence: [func] is called once, with the arguments of the
    last call of the burst. *)
Theorem debounce_burst_calls_once_with_last_arguments
    wait (b : list (A * Z)) (final : A) (pause : Z) :
  Forall (fun '(_, gap) => 0 <= gap < wait) b ->
  0 <= wait <= pause ->
  calls (play wait (burst b ++ [Call final; Elapse pause]) start) = [final].
Proof.
  intros Hb Hpause.
  destruct (burst_runs_nothing wait b start) as (Ho & Hc); [left; reflexivity | exact Hb |].
  unfold play in *. rewrite foldl_app. cbn [foldl react].
  set (st := foldl (react wait) start (burst b)) in *.
  destruct (call_owned wait final st Ho) as (Ht & _ & Hc' & Hn).
  unfold elapse. cbn [calls]. rewrite Ht, Hn, Hc', Hc, filter_cons, filter_nil.
  rewrite decide_True by (simpl; lia). reflexivity.
Qed.

End DebounceProperties.

(** * The further properties, run *)

Lemma drawn_is_loaded containerWidth :
  MinimapComponent.loaded Utils.parseISO_day containerWidth Scenarios.timelineResponse
  = Some (Scenarios.drawn containerWidth).
Proof. reflexivity. Qed.

Lemma first_date_first_index :
  Vocabulary.firstIndex Fixtures.test_timeline_data "2024-01-15" 0.
Proof. split; [reflexivity|]. intros j Hj. lia. Qed.

Lemma second_date_first_index :
  Vocabulary.firstIndex Fixtures.test_timeline_data "2024-01-16" 1.
Proof.
  split; [reflexivity|].
  intros [|j] Hj; [discriminate | lia].
Qed.

Lemma third_date_first_index :
  Vocabulary.firstIndex Fixtures.test_timeline_data "2024-01-17" 2.
Proof.
  split; [reflexivity|].
  intros [|[|j]] Hj; [discriminate | discriminate | lia].
Qed.

Lemma markers_are_placed_for_800_pixels_witness :
  MinimapComponent.chartRef (Scenarios.drawn 1000) = Some 1000
  /\ MinimapComponent.overlay (Scenarios.drawn 1000) !! 1%nat
     = Some {| ActivityMinimap.touchpoint := Fixtures.touch_person2;
               ActivityMinimap.x := Vocabulary.interpolated 1 3 800 |}.
Proof.
  apply (markers_are_placed_for_800_pixels Utils.parseISO_day 1000
           Scenarios.timelineResponse (Scenarios.drawn 1000) 1 1
           Fixtures.touch_person2).
  - apply drawn_is_loaded.
  - reflexivity.
  - exact second_date_first_index.
  - simpl. lia.
Defined.

(** In a chart container 1000 wide the marker of the middle one of three
    dates is drawn at 400; the interpolation over the width of the chart
    puts it at 500. *)
Example middle_marker_in_a_chart_1000_wide :
  (exists m,
      MinimapComponent.overlay (Scenarios.drawn 1000) !! 1%nat = Some m
      /\ (ActivityMinimap.x m == 400)%Q)
  /\ (Vocabulary.interpolated 1 3 1000 == 500)%Q.
Proof. split; [eexists; split; reflexivity|reflexivity]. Qed.

(** In a container 400 wide the marker of the last date is drawn at 740. *)
Lemma drawn_marker_unplaced_or_within_default_margins_witness :
  (ActivityMinimap.position None Fixtures.test_timeline_data Scenarios.touch_person3
   = 0%Q
   /\ ((touch_date Scenarios.touch_person3
          ∉ ActivityMinimap.axis Fixtures.test_timeline_data)
       \/ length Fixtures.test_timeline_data = 1%nat))
  \/ (((60 <= ActivityMinimap.position None Fixtures.test_timeline_data
                Scenarios.touch_person3)%Q
       /\ (ActivityMinimap.position None Fixtures.test_timeline_data
             Scenarios.touch_person3 <= 740)%Q)
      /\ touch_date Scenarios.touch_person3
           ∈ ActivityMinimap.axis Fixtures.test_timeline_data
      /\ (2 <= length Fixtures.test_timeline_data)%nat).
Proof.
  apply (drawn_marker_unplaced_or_within_default_margins Utils.parseISO_day 400
           Scenarios.timelineResponse (Scenarios.drawn 400) 2
           {| ActivityMinimap.touchpoint := Scenarios.touch_person3;
              ActivityMinimap.x :=
                ActivityMinimap.position None Fixtures.test_timeline_data
                  Scenarios.touch_person3 |}).
  - apply drawn_is_loaded.
  - reflexivity.
Defined.

Lemma drawn_axis_ends_witness :
  exists m1 m2,
    MinimapComponent.overlay (Scenarios.drawn 400) !! 0%nat = Some m1
    /\ ActivityMinimap.touchpoint m1 = Fixtures.touch_person1
    /\ (ActivityMinimap.x m1 == 60)%Q
    /\ MinimapComponent.overlay (Scenarios.drawn 400) !! 2%nat = Some m2
    /\ ActivityMinimap.touchpoint m2 = Scenarios.touch_person3
    /\ (ActivityMinimap.x m2 == 740)%Q.
Proof.
  apply (drawn_axis_ends Utils.parseISO_day 400 Scenarios.timelineResponse
           (Scenarios.drawn 400) 0 2 Fixtures.touch_person1 Scenarios.touch_person3).
  - apply drawn_is_loaded.
  - simpl. lia.
  - reflexivity.
  - reflexivity.
  - exact first_date_first_index.
  - exact third_date_first_index.
Defined.

Lemma drawn_markers_follow_the_axis_witness :
  exists m1 m2,
    MinimapComponent.overlay (Scenarios.drawn 100) !! 0%nat = Some m1
    /\ ActivityMinimap.touchpoint m1 = Fixtures.touch_person1
    /\ MinimapComponent.overlay (Scenarios.drawn 100) !! 2%nat = Some m2
    /\ ActivityMinimap.touchpoint m2 = Scenarios.touch_person3
    /\ (ActivityMinimap.x m1 < ActivityMinimap.x m2)%Q.
Proof.
  apply (drawn_markers_follow_the_axis Utils.parseISO_day 100
           Scenarios.timelineResponse (Scenarios.drawn 100) 0 2 0 2
           Fixtures.touch_person1 Scenarios.touch_person3).
  - apply drawn_is_loaded.
  - simpl. lia.
  - reflexivity.
  - reflexivity.
  - exact first_date_first_index.
  - exact third_date_first_index.
  - lia.
Defined.

(** Had the memo body read a width of 100, the marker of the last date
    would stand at 40, left of the marker of the first date at 60; the
    minimap in a container 100 wide draws them at 60 and 740. *)
Example narrow_chart_positions :
  (ActivityMinimap.position (Some 100%Z) Fixtures.test_timeline_data
     Fixtures.touch_person1 == 60)%Q
  /\ (ActivityMinimap.position (Some 100%Z) Fixtures.test_timeline_data
        Scenarios.touch_person3 == 40)%Q
  /\ (ActivityMinimap.x <$> MinimapComponent.overlay (Scenarios.drawn 100))
     = [ ActivityMinimap.position None Fixtures.test_timeline_data
           Fixtures.touch_person1;
         ActivityMinimap.position None Fixtures.test_timeline_data
           Fixtures.touch_person2;
         ActivityMinimap.position None Fixtures.test_timeline_data
           Scenarios.touch_person3 ].
Proof. repeat split; reflexivity. Qed.

Lemma tbody_has_the_events_in_order_witness :
  omap Vocabulary.eventOfRow
    [ Vocabulary.rowOf (Fixtures.mail 1 "2024-01-15T10:00:00Z") 1705312800000;
      ActivityTimelineTable.GapRow (Utils.Num 4);
      Vocabulary.rowOf (Fixtures.mail 2 "2024-01-10T15:30:00Z") 1704900600000 ]
  = [ Fixtures.mail 1 "2024-01-15T10:00:00Z";
      Fixtures.mail 2 "2024-01-10T15:30:00Z" ]
  /\ head
       [ Vocabulary.rowOf (Fixtures.mail 1 "2024-01-15T10:00:00Z") 1705312800000;
         ActivityTimelineTable.GapRow (Utils.Num 4);
         Vocabulary.rowOf (Fixtures.mail 2 "2024-01-10T15:30:00Z") 1704900600000 ]
     ≫= Vocabulary.eventOfRow
     = head [ Fixtures.mail 1 "2024-01-15T10:00:00Z";
              Fixtures.mail 2 "2024-01-10T15:30:00Z" ].
Proof.
  apply (tbody_has_the_events_in_order Utils.parseISO_utc Utils.utc
           [ Fixtures.mail 1 "2024-01-15T10:00:00Z";
             Fixtures.mail 2 "2024-01-10T15:30:00Z" ]).
  reflexivity.
Defined.

(** Run on the clock of central Europe across the end of daylight saving
    time: the two readings are four days and 23 hours apart. *)
Lemma gap_indicator_from_two_days_witness :
  ActivityTimelineTable.fragment Utils.parseISO_utc Scenarios.centralEurope
    [ Fixtures.mail 1 "2024-10-29T10:00:00Z"; Fixtures.mail 2 "2024-10-24T10:00:00Z" ]
    1 (Fixtures.mail 2 "2024-10-24T10:00:00Z")
  = Some (if 2 * Utils.msPerDay
               <=? Utils.localOf Scenarios.centralEurope 1730196000000
                   - Utils.localOf Scenarios.centralEurope 1729764000000
          then [ ActivityTimelineTable.GapRow
                   (Utils.Num
                      (Z.quot (Utils.localOf Scenarios.centralEurope 1730196000000
                               - Utils.localOf Scenarios.centralEurope 1729764000000)
                         Utils.msPerDay));
                 Vocabulary.rowOf (Fixtures.mail 2 "2024-10-24T10:00:00Z")
                   1729764000000 ]
          else [ Vocabulary.rowOf (Fixtures.mail 2 "2024-10-24T10:00:00Z")
                   1729764000000 ]).
Proof.
  apply (gap_indicator_from_two_days Utils.parseISO_utc Scenarios.centralEurope
           [ Fixtures.mail 1 "2024-10-29T10:00:00Z";
             Fixtures.mail 2 "2024-10-24T10:00:00Z" ]
           0 (Fixtures.mail 1 "2024-10-29T10:00:00Z")
           (Fixtures.mail 2 "2024-10-24T10:00:00Z")
           1730196000000 1729764000000); try reflexivity.
  repeat split.
Defined.

(** A page with a timestamp that does not parse: nothing is rendered. *)
Example unparsable_timestamp_in_the_page :
  ActivityTimelineTable.tbody Utils.parseISO_utc Utils.utc
    [ Fixtures.mail 1 "2024-01-15T10:00:00Z"; Fixtures.mail 2 "yesterday" ]
  = None.
Proof. reflexivity. Qed.

Lemma calculateDateGap_sign_and_zero_witness :
  Utils.calculateDateGap Utils.parseISO_utc Utils.utc
    "2024-01-15T10:00:00Z" "2024-01-12T10:00:00Z"
  = Utils.Num (Z.quot (Utils.localOf Utils.utc 1705312800000
                       - Utils.localOf Utils.utc 1705053600000) Utils.msPerDay)
  /\ Utils.calculateDateGap Utils.parseISO_utc Utils.utc
       "2024-01-12T10:00:00Z" "2024-01-15T10:00:00Z"
     = Utils.Num (- Z.quot (Utils.localOf Utils.utc 1705312800000
                            - Utils.localOf Utils.utc 1705053600000) Utils.msPerDay).
Proof.
  apply (calculateDateGap_sign_and_zero Utils.parseISO_utc Utils.utc
           "2024-01-15T10:00:00Z" "2024-01-12T10:00:00Z"
           1705312800000 1705053600000); try reflexivity; repeat split.
Defined.

Lemma load_more_asks_next_page_without_date_witness :
  ActivityTimelineTable.targetDate (Notions.loadMoreCall (App.table Scenarios.navigated))
  = None
  /\ ActivityTimelineTable.page (Notions.loadMoreCall (App.table Scenarios.navigated))
     = ActivityTimelineTable.currentPage
         (Notions.handled (App.Intersect true) Scenarios.navigated) + 1
  /\ ActivityTimelineTable.hasNext
       (Notions.handled (App.Intersect true) Scenarios.navigated) = true
  /\ ActivityTimelineTable.loading
       (Notions.handled (App.Intersect true) Scenarios.navigated) = false
  /\ ActivityTimelineTable.loadingMore
       (Notions.handled (App.Intersect true) Scenarios.navigated) = false.
Proof.
  apply (load_more_asks_next_page_without_date (App.Intersect true)
           Scenarios.navigated (Notions.loadMoreCall (App.table Scenarios.navigated))).
  - vm_compute. apply list_elem_of_here.
  - reflexivity.
Defined.

(** After the navigation to 2024-01-10 the next page is requested without
    the date. *)
Example load_more_after_navigation_url :
  Vocabulary.requestUrl
    <$> App.fetches (App.step (App.Intersect true) Scenarios.navigated).1
  = [ "http://localhost:8000/api/events/?customer_org_id=org_4m6zyrass98vvtk3xh5kcwcmaf&account_id=account_31crr1tcp2bmcv1fk6pcm0k6ag&page=2&page_size=50" ].
Proof. reflexivity. Qed.

Lemma settling_clears_loading_witness :
  ActivityTimelineTable.loading
    (App.table (App.step (App.Fulfil 0 Fixtures.page2) Fixtures.racing).2) = false.
Proof.
  apply (settling_clears_loading (App.Fulfil 0 Fixtures.page2) Fixtures.racing 0
           (Notions.loadMoreCall (App.table Fixtures.ready))).
  - left. exists Fixtures.page2. reflexivity.
  - reflexivity.
Defined.

(** The navigation is still in flight then. *)
Example navigation_still_in_flight :
  Notions.navigationCall "2024-01-10"
    ∈ App.inflight (App.step (App.Fulfil 0 Fixtures.page2) Fixtures.racing).2.
Proof. vm_compute. apply list_elem_of_here. Qed.


Lemma empty_message_failure_is_hidden_witness :
  ActivityTimelineTable.error
    (App.table
       (App.step (App.Reject 0 (ActivityTimelineTable.ErrorInstance ""))
          Fixtures.navigating).2)
  = Some ""
  /\ ActivityTimelineTable.view
       (App.table
          (App.step (App.Reject 0 (ActivityTimelineTable.ErrorInstance ""))
             Fixtures.navigating).2)
     = ActivityTimelineTable.TableView
  /\ App.handle App.RetryClick
       (App.step (App.Reject 0 (ActivityTimelineTable.ErrorInstance ""))
          Fixtures.navigating).2
     = ([], (App.step (App.Reject 0 (ActivityTimelineTable.ErrorInstance ""))
               Fixtures.navigating).2).
Proof.
  apply (empty_message_failure_is_hidden Fixtures.navigating 0
           (Notions.navigationCall "2024-01-10")).
  reflexivity.
Defined.

Lemma http_failure_is_shown_witness :
  ActivityTimelineTable.error
    (App.table
       (App.step
          (Vocabulary.deliver 0
             (ApiService.Responded false "Internal Server Error" (inl Fixtures.page1)))
          Fixtures.navigating).2)
  = Some "Failed to fetch activity events: Internal Server Error"
  /\ ActivityTimelineTable.view
       (App.table
          (App.step
             (Vocabulary.deliver 0
                (ApiService.Responded false "Internal Server Error" (inl Fixtures.page1)))
             Fixtures.navigating).2)
     = ActivityTimelineTable.ErrorView
  /\ ActivityTimelineTable.st_events
       (App.table
          (App.step
             (Vocabulary.deliver 0
                (ApiService.Responded false "Internal Server Error" (inl Fixtures.page1)))
             Fixtures.navigating).2)
     = ActivityTimelineTable.st_events (App.table Fixtures.navigating).
Proof.
  apply (http_failure_is_shown Fixtures.navigating 0
           (Notions.navigationCall "2024-01-10") "Internal Server Error"
           (inl Fixtures.page1)).
  reflexivity.
Defined.

Lemma empty_date_click_is_ignored_witness :
  App.step (App.DateClick "") Fixtures.ready = ([], Fixtures.ready).
Proof.
  apply (empty_date_click_is_ignored Fixtures.ready). reflexivity.
Defined.

Lemma ready_is_reachable : Vocabulary.reachable Fixtures.ready.
Proof. exists [App.Fulfil 0 Fixtures.page1]. reflexivity. Qed.

Lemma dated_fetches_come_from_clicks_witness :
  Home.navigateToDate (App.home Fixtures.ready) = ""
  /\ exists date,
       App.DateClick "2024-01-10" = App.DateClick date
       /\ Notions.navigationCall "2024-01-10" = Notions.navigationCall date.
Proof.
  apply (dated_fetches_come_from_clicks Fixtures.ready (App.DateClick "2024-01-10")
           (Notions.navigationCall "2024-01-10")).
  - exact ready_is_reachable.
  - vm_compute. apply list_elem_of_here.
  - eexists. reflexivity.
Defined.

Lemma page_range_matches_rows_witness :
  Vocabulary.homeRange Fixtures.ready = ("2024-01-14", "2024-01-15").
Proof.
  apply (page_range_matches_rows Fixtures.ready ("2024-01-14", "2024-01-15")).
  - exact ready_is_reachable.
  - reflexivity.
Defined.

Lemma peoplePage_side_loaded : Vocabulary.sideLoaded Scenarios.peoplePage.
Proof.
  intros event person Hin Hhead. simpl in Hin.
  apply list_elem_of_singleton in Hin. subst event.
  injection Hhead as <-. exists Fixtures.jane. reflexivity.
Qed.

Lemma side_loaded_rows_never_show_unknown_person_witness :
  TableCells.renderPersonBadge
    (ActivityTimelineTable.st_persons
       (App.table (App.after [App.Fulfil 0 Scenarios.peoplePage] App.mounted.2)))
    (people (Scenarios.phoneCall 2 "2024-01-14T15:30:00Z"))
  <> TableCells.UnknownPerson.
Proof.
  apply (side_loaded_rows_never_show_unknown_person
           [App.Fulfil 0 Scenarios.peoplePage]
           (Scenarios.phoneCall 2 "2024-01-14T15:30:00Z")).
  - intros n response Hin. apply list_elem_of_singleton in Hin.
    injection Hin as _ ->. exact peoplePage_side_loaded.
  - vm_compute. apply list_elem_of_here.
Defined.

(** The badge of that row. *)
Example badge_of_jane :
  TableCells.renderPersonBadge
    (ActivityTimelineTable.st_persons
       (App.table (App.after [App.Fulfil 0 Scenarios.peoplePage] App.mounted.2)))
    (people (Scenarios.phoneCall 2 "2024-01-14T15:30:00Z"))
  = TableCells.PersonName "Jane" "Smith" None.
Proof. reflexivity. Qed.

Lemma chart_click_requests_its_label_witness :
  Vocabulary.requestUrl
    <$> App.fetches
          (App.run
             (App.DateClick <$> MinimapClicks.handleChartClick (Some (Some "2024-01-15")))
             Fixtures.ready).1
  = if ActivityTimelineTable.truthy "2024-01-15"
    then [ ("http://localhost:8000/api/events/"
            ++ "?customer_org_id=org_4m6zyrass98vvtk3xh5kcwcmaf"
            ++ "&account_id=account_31crr1tcp2bmcv1fk6pcm0k6ag"
            ++ "&page=1&page_size=50&date="
            ++ ApiService.formEncode "2024-01-15")%string ]
    else [].
Proof.
  apply (chart_click_requests_its_label Fixtures.ready (Some (Some "2024-01-15"))).
  reflexivity.
Defined.

Lemma team_colour_ignores_case_witness :
  TableCells.colorClass (TableCells.teamBadge "Team_Sales")
  = TableCells.colorClass (TableCells.teamBadge "team_sales").
Proof.
  apply (team_colour_ignores_case "Team_Sales" "team_sales").
  - reflexivity.
  - discriminate.
  - discriminate.
Defined.

Lemma debounce_burst_calls_once_with_last_arguments_witness :
  Debounce.calls
    (Debounce.play 100
       (Debounce.burst [("arg1", 0); ("arg2", 0)]
        ++ [Debounce.Call "arg3"; Debounce.Elapse 150])
       Debounce.start)
  = ["arg3"].
Proof.
  apply (debounce_burst_calls_once_with_last_arguments 100
           [("arg1", 0); ("arg2", 0)] "arg3" 150).
  - repeat constructor; lia.
  - lia.
Defined.


(** The repository's tests of the API service, of [cn] and of [debounce]. *)
Example events_url_with_defaults :
  ApiService.eventsUrl 1 50 None
  = "http://localhost:8000/api/events/?customer_org_id=org_4m6zyrass98vvtk3xh5kcwcmaf&account_id=account_31crr1tcp2bmcv1fk6pcm0k6ag&page=1&page_size=50".
Proof. reflexivity. Qed.

Example events_url_with_date :
  ApiService.eventsUrl 2 25 (Some "2024-01-15")
  = "http://localhost:8000/api/events/?customer_org_id=org_4m6zyrass98vvtk3xh5kcwcmaf&account_id=account_31crr1tcp2bmcv1fk6pcm0k6ag&page=2&page_size=25&date=2024-01-15".
Proof. reflexivity. Qed.

Example timeline_url :
  ApiService.timelineUrl
  = "http://localhost:8000/api/timeline/?customer_org_id=org_4m6zyrass98vvtk3xh5kcwcmaf&account_id=account_31crr1tcp2bmcv1fk6pcm0k6ag".
Proof. reflexivity. Qed.

Example cn_filters_falsy_values :
  ClassNames.cn [Some "class1"; None; None; None; Some "class2"; Some ""]
  = "class1 class2".
Proof. reflexivity. Qed.

Example debounce_cancels_previous_call :
  Debounce.calls
    (Debounce.play 100
       [Debounce.Call "first"; Debounce.Elapse 50;
        Debounce.Call "second"; Debounce.Elapse 150]
       Debounce.start)
  = ["second"].
Proof. reflexivity. Qed.

Example team_badges_of_table_test :
  TableCells.renderTeamBadges ["SALES"] ++ TableCells.renderTeamBadges ["team_customer_success"]
  = [ {| TableCells.displayName := "SALES"; TableCells.colorClass := "text-blue-600" |};
      {| TableCells.displayName := "CUSTOMER SUCCESS";
         TableCells.colorClass := "text-green-600" |} ].
Proof. reflexivity. Qed.
